(** * Lending dashboard: amount codec, transaction submitter, contract hook,
      request list and wallet session, embedded from the TypeScript sources.

    - [JS]        : the part of the JavaScript semantics the code relies on
                    (binary64 numbers, [Math.floor], [BigInt], thrown errors,
                    completions of async functions, an effect log);
    - [Config]    : config.ts ([formatUsdc], [parseUsdc],
                    [createEntryFunctionPayload], [submitTransaction]);
    - [Hook]      : hooks/useLendingContract.ts;
    - [Requests], [RequestActions] : components/LoanRequestsList.tsx
                    ([fetchRequests], [handleApprove], [handleReject]);
    - [Offers]    : components/LoanOffersList.tsx ([fetchOffers]);
    - [Borrower]  : components/BorrowerRequest.tsx ([handleRequest]);
    - [Wallet], [Provider] : components/WalletProvider.tsx ([connect],
                    [disconnect], the effects).

    Definitions come first, the theorems about them follow. *)

From Stdlib Require Import ZArith Lia List Bool Ascii String Sorted.
From Stdlib Require Import Floats.SpecFloat.
From stdpp Require Import gmap strings list pretty.

Local Open Scope Z_scope.

(* ===================================================================== *)
(** ** JavaScript values and effects *)
(* ===================================================================== *)

Module JS.

(** A JS [number] is an IEEE 754 binary64 value.  [spec_float] is the
    Standard Library's executable specification of binary floating point;
    binary64 is the instance [prec = 53], [emax = 1024]. *)
Definition number := spec_float.
Definition prec : Z := 53.
Definition emax : Z := 1024.

(** [x * y] and [x / y] on numbers: correctly rounded, ties to even. *)
Definition mul (x y : number) : number := SFmul prec emax x y.
Definition div (x y : number) : number := SFdiv prec emax x y.

(** [x == y] / [x === y] on two numbers. *)
Definition num_eq (x y : number) : bool := SFeqb x y.

(** A real double: canonical mantissa and exponent in range. *)
Definition is_double (x : number) : bool := valid_binary prec emax x.

(** [Number(z)] for an integer (bigint, or an integer-valued field of a
    ledger record): the double nearest to [z]. *)
Definition Number_of_Z (z : Z) : number := binary_normalize prec emax z 0 false.

Definition pow10 (digits : nat) : positive := Z.to_pos (10 ^ Z.of_nat digits).

(** The double denoted by the decimal literal [n / 10^digits] (what the
    source text [8.2], or [parseFloat("8.2")], evaluates to): the exact
    quotient of the two integers, rounded once. *)
Definition decimal (n : Z) (digits : nat) : number :=
  match n with
  | Z0 => S754_zero false
  | Zpos p => div (S754_finite false p 0) (S754_finite false (pow10 digits) 0)
  | Zneg p => div (S754_finite true p 0) (S754_finite false (pow10 digits) 0)
  end.

(** The literal [1e6] (exactly representable: 10^6 = 8589934592000000 * 2^-33). *)
Definition lit_1e6 : number := S754_finite false 8589934592000000 (-33).
(** The literal [100]. *)
Definition lit_100 : number := S754_finite false 7036874417766400 (-46).

(** The integer [floor (+-m * 2^e)]; [Z.div] rounds towards minus infinity. *)
Definition floorZ (s : bool) (m : positive) (e : Z) : Z :=
  if 0 <=? e then cond_Zopp s (Zpos m) * 2 ^ e
  else cond_Zopp s (Zpos m) / 2 ^ (- e).

(** A number holding the integer [k], written with exponent 0; the sign
    [s] is the sign of the zero when [k = 0]. *)
Definition number_of_int (s : bool) (k : Z) : number :=
  match k with
  | Z0 => S754_zero s
  | Zpos p => S754_finite false p 0
  | Zneg p => S754_finite true p 0
  end.

(** [Math.floor(x)]: NaN, the infinities, the zeros and integral values
    are returned unchanged. *)
Definition Math_floor (x : number) : number :=
  match x with
  | S754_finite s m e => if 0 <=? e then x else number_of_int s (floorZ s m e)
  | _ => x
  end.

(** [BigInt(x)]: the exact integer value of an integral number; a
    RangeError (here [None]) for NaN, the infinities and non-integers. *)
Definition BigInt (x : number) : option Z :=
  match x with
  | S754_zero _ => Some 0
  | S754_finite s m e =>
      if 0 <=? e then Some (cond_Zopp s (Zpos m) * 2 ^ e)
      else if Zpos m mod 2 ^ (- e) =? 0 then Some (cond_Zopp s (Zpos m) / 2 ^ (- e))
      else None
  | _ => None
  end.

(** [z.toString()] for a bigint. *)
Definition bigint_toString (z : Z) : string := pretty z.

(** [s.toLowerCase()] on ASCII strings. *)
Definition lower_ascii (c : ascii) : ascii :=
  let n := nat_of_ascii c in
  if (Nat.leb 65 n && Nat.leb n 90)%bool then ascii_of_nat (n + 32) else c.

Fixpoint toLowerCase (s : string) : string :=
  match s with
  | EmptyString => EmptyString
  | String c r => String (lower_ascii c) (toLowerCase r)
  end.

(** The properties a plain object [{}] inherits from [Object.prototype]:
    [obj[key]] finds them when [obj] has no own property [key].  All of them
    are truthy (functions, and the prototype itself for [__proto__]). *)
Definition Object_prototype_members : list string :=
  ["constructor"; "hasOwnProperty"; "isPrototypeOf"; "propertyIsEnumerable";
   "toLocaleString"; "toString"; "valueOf"; "__proto__";
   "__defineGetter__"; "__defineSetter__"; "__lookupGetter__"; "__lookupSetter__"].

Definition inherited_member (key : string) : bool :=
  existsb (String.eqb key) Object_prototype_members.

(** A thrown [Error] object: the name of its class and its [message]
    ([None] when the property is undefined). *)
Record error := Error { err_name : string; err_message : option string }.

(** [e.message || dflt]: an undefined or empty message is falsy. *)
Definition message_or (e : error) (dflt : string) : string :=
  match err_message e with
  | Some m => if String.eqb m "" then dflt else m
  | None => dflt
  end.

(** How a call ends: it returns (an [await]ed promise is fulfilled), or it
    throws (the promise is rejected). *)
Inductive completion (A : Type) : Type :=
| Normal (a : A)
| Throw (e : error).
Arguments Normal {A} a.
Arguments Throw {A} e.

End JS.

Import JS.

(* ===================================================================== *)
(** ** Ledger client, payloads and the effect log *)
(* ===================================================================== *)

(** An argument of an entry function (strings and numbers occur). *)
Inductive js_arg :=
| ArgString (s : string)
| ArgNumber (x : number).

(** [InputGenerateTransactionPayloadData]. *)
Record payload := Payload {
  function : string;
  typeArguments : list string;
  functionArguments : list js_arg
}.

(** Opaque values handed back by the SDK. *)
Record raw_txn := RawTxn { raw_id : string }.
Record authenticator := Authenticator { auth_id : string }.
Record pending_txn := PendingTxn { hash : string }.
Record tx_response := TxResponse { committed_version : string }.

(** The account object of the wallet context.  [accountAddress] is the
    property [submitTransaction] reads ([sender.accountAddress]); it is
    undefined on the object WalletProvider builds. *)
Record account := Account {
  address : string;
  accountAddress : option string
}.

(** A record of a view-function response (an untyped object in the source). *)
Record move_value := MoveValue {
  mv_id : string;
  mv_lender : string;
  mv_borrower : string;
  mv_amount : Z;
  mv_interest_rate : Z;
  mv_duration_seconds : Z;
  mv_collateral_ratio : Z;
  mv_status : string;
  mv_offer_id : string
}.

(** A [LoanRequest] table item as LoanRequestsList.tsx reads it (the type
    declaration of '@/types' is not part of the sources; the fields are the
    ones the component uses, [status] being compared with the number 0). *)
Record LoanRequest := mkLoanRequest {
  request_id : string;
  borrower : string;
  lender : string;
  loan_amount : string;
  collateral_amount : string;
  borrower_details_hash : string;
  collateral_details_hash : string;
  status : Z
}.

(** [PlatformConfig] resource data. *)
Record platform_config := PlatformConfig {
  total_requests : nat;
  loan_requests_handle : string
}.

(** What a resource read resolves to.  The components read the resource
    through the [data] property of the resolved object
    ([platformConfig.data.total_requests], [registry.data.active_lenders],
    [res.data]).  [Wrapped d] is an object [{ type, data }], whose [data] is
    the resource; [Bare r] is the resource's own fields, with no [data]
    property, which is what [getAccountResource] of the client imported from
    '@aptos-labs/ts-sdk' resolves to. *)
Inductive resolved (A : Type) : Type :=
| Wrapped (data : A)
| Bare (fields : A).
Arguments Wrapped {A} data.
Arguments Bare {A} fields.

(** [response.data]: undefined on a bare resource. *)
Definition data_of {A} (response : resolved A) : option A :=
  match response with
  | Wrapped d => Some d
  | Bare _ => None
  end.

(** The TypeError of reading a property of [undefined]. *)
Definition undefined_read (property : string) : error :=
  Error "TypeError"
        (Some ("Cannot read properties of undefined (reading '" +:+ property +:+ "')")).

(** [InputTransactionData] given to the wallet adapter. *)
Record wallet_txn := WalletTxn {
  wt_function : string;
  wt_arguments : list js_arg
}.

(** The external collaborators: every network operation of the Aptos client
    and of the wallet adapter, as an oracle telling how the call completes. *)
Record ledger := Ledger {
  build_simple : option string -> payload -> completion raw_txn;
  sign : account -> raw_txn -> completion authenticator;
  submit_simple : raw_txn -> authenticator -> completion pending_txn;
  waitForTransaction : string -> completion tx_response;
  view : payload -> completion (list move_value);
  getAccountResource : string -> string -> completion (resolved platform_config);
  getTableItem : string -> string -> string -> completion LoanRequest;
  signAndSubmitTransaction : wallet_txn -> completion pending_txn
}.

(** What a run does, in order: each network call issued, each payload
    built, each [console.error]. *)
Inductive event :=
| EvPayloadBuilt (p : payload)
| EvBuild (sender : option string) (p : payload)
| EvSign (t : raw_txn)
| EvSubmit (t : raw_txn)
| EvWait (h : string)
| EvView (p : payload)
| EvGetResource (addr ty : string)
| EvGetTableItem (handle key : string)
| EvWalletSubmit (t : wallet_txn)
| EvConsoleError (label : string).

(** Is the event a call that goes to the network? *)
Definition is_network_call (ev : event) : bool :=
  match ev with
  | EvPayloadBuilt _ | EvConsoleError _ => false
  | _ => true
  end.

(** Computations that append to the log and may throw. *)
Definition Eff (A : Type) : Type := list event -> completion A * list event.

Definition ret {A} (a : A) : Eff A := fun log => (Normal a, log).
Definition throw {A} (e : error) : Eff A := fun log => (Throw e, log).
Definition emit (ev : event) : Eff unit := fun log => (Normal tt, log ++ [ev]).
Definition lift {A} (c : completion A) : Eff A := fun log => (c, log).

Definition bind {A B} (c : Eff A) (k : A -> Eff B) : Eff B :=
  fun log =>
    match c log with
    | (Normal a, log') => k a log'
    | (Throw e, log') => (Throw e, log')
    end.

(** [try { body } catch (e) { handler e }]. *)
Definition try_catch {A} (body : Eff A) (handler : error -> Eff A) : Eff A :=
  fun log =>
    match body log with
    | (Normal a, log') => (Normal a, log')
    | (Throw e, log') => handler e log'
    end.

(** [await f(...)], a network call: logged, then completed by the oracle. *)
Definition call {A} (ev : event) (c : completion A) : Eff A :=
  bind (emit ev) (fun _ => lift c).

Declare Scope eff_scope.
Delimit Scope eff_scope with eff.
Notation "x <- c ;; k" := (bind c (fun x => k))
  (at level 90, c at level 89, right associativity) : eff_scope.
Notation "c ;;; k" := (bind c (fun _ => k))
  (at level 90, right associativity) : eff_scope.

(* ===================================================================== *)
(** ** config.ts *)
(* ===================================================================== *)

Module Config.

Definition CONTRACT_ADDRESS : string :=
  "0x4733658581be088fe23e99fce8a8de7e8fe975682f402c4394461521aa246706".
Definition MODULE_NAME : string := "lending".
Definition USDC_COIN : string :=
  "0xf22bede237a07e121b56d91a491eb7bcdfd1f5907926a9e58338f964a01b17fa::asset::USDC".

(** [formatUsdc = (amount) => Number(amount) / 1e6] *)
Definition formatUsdc (amount : Z) : number :=
  div (Number_of_Z amount) lit_1e6.

(** [parseUsdc = (amount) => BigInt(Math.floor(amount * 1e6))];
    [None] is the RangeError of [BigInt]. *)
Definition parseUsdc (amount : number) : option Z :=
  BigInt (Math_floor (mul amount lit_1e6)).

(** [createEntryFunctionPayload] *)
Definition createEntryFunctionPayload
    (functionName : string) (typeArgs : list string) (args : list js_arg) : payload :=
  {| function := CONTRACT_ADDRESS +:+ "::" +:+ MODULE_NAME +:+ "::" +:+ functionName;
     typeArguments := typeArgs;
     functionArguments := args |}.

(** The object [submitTransaction] returns, discriminated by [success]. *)
Inductive tx_result :=
| TxSuccess (hash : string) (response : tx_response)
| TxFailure (error : string).

Definition success (r : tx_result) : bool :=
  match r with TxSuccess _ _ => true | TxFailure _ => false end.

(** The body of the [try] block. *)
Definition submit_body (env : ledger) (sender : account) (p : payload) : Eff tx_result :=
  (rawTxn <- call (EvBuild (accountAddress sender) p)
                  (build_simple env (accountAddress sender) p) ;;
   senderAuthenticator <- call (EvSign rawTxn) (sign env sender rawTxn) ;;
   pendingTxn <- call (EvSubmit rawTxn) (submit_simple env rawTxn senderAuthenticator) ;;
   response <- call (EvWait (hash pendingTxn)) (waitForTransaction env (hash pendingTxn)) ;;
   ret (TxSuccess (hash pendingTxn) response))%eff.

(** The [catch] block. *)
Definition submit_handler (e : error) : Eff tx_result :=
  (emit (EvConsoleError "Transaction failed:") ;;;
   ret (TxFailure (message_or e "Transaction failed")))%eff.

Definition submitTransaction (env : ledger) (sender : account) (p : payload) : Eff tx_result :=
  try_catch (submit_body env sender p) submit_handler.

End Config.

Import Config.

(* ===================================================================== *)
(** ** hooks/useLendingContract.ts *)
(* ===================================================================== *)

Module Hook.

(** What the hook reads from [useWallet()]. *)
Record wallet_context := WalletContext {
  ctx_account : option account;
  isConnected : bool
}.

Record LoanOffer := mkLoanOffer {
  offer_id : string;
  offer_lender : string;
  offer_amount : number;
  interestRate : number;
  offer_duration : number;
  collateralRatio : number;
  offer_status : string
}.

Record LoanRequest := mkLoanRequest {
  req_id : string;
  req_borrower : string;
  req_amount : number;
  req_duration : number;
  req_status : string;
  offerId : string
}.

(** [if (!isConnected || !account) throw new Error(...); return account] *)
Definition ensureConnected (ctx : wallet_context) : Eff account :=
  match isConnected ctx, ctx_account ctx with
  | true, Some acc => ret acc
  | _, _ => throw (Error "Error" (Some "Please connect your wallet first"))
  end.

(** [parseUsdc] inside an async function: the RangeError rejects it. *)
Definition parseUsdc_or_throw (amount : number) : Eff Z :=
  match parseUsdc amount with
  | Some z => ret z
  | None => throw (Error "RangeError" (Some "The number cannot be converted to a BigInt"))
  end.

(** [createEntryFunctionPayload(...)], recorded in the log. *)
Definition build_payload (fn : string) (typeArgs : list string) (args : list js_arg)
  : Eff payload :=
  let p := createEntryFunctionPayload fn typeArgs args in
  (emit (EvPayloadBuilt p) ;;; ret p)%eff.

Definition createLoanOffer (env : ledger) (ctx : wallet_context)
    (amount interestRate duration collateralRatio : number) : Eff tx_result :=
  (currentAccount <- ensureConnected ctx ;;
   usdcAmount <- parseUsdc_or_throw amount ;;
   p <- build_payload "create_offer" [USDC_COIN]
          [ArgString (bigint_toString usdcAmount); ArgNumber interestRate;
           ArgNumber duration; ArgNumber collateralRatio] ;;
   submitTransaction env currentAccount p)%eff.

Definition cancelLoanOffer (env : ledger) (ctx : wallet_context)
    (offerId : string) : Eff tx_result :=
  (currentAccount <- ensureConnected ctx ;;
   p <- build_payload "cancel_offer" [USDC_COIN] [ArgString offerId] ;;
   submitTransaction env currentAccount p)%eff.

Definition requestLoan (env : ledger) (ctx : wallet_context)
    (offerId : string) (amount collateralAmount : number) : Eff tx_result :=
  (currentAccount <- ensureConnected ctx ;;
   usdcAmount <- parseUsdc_or_throw amount ;;
   usdcCollateral <- parseUsdc_or_throw collateralAmount ;;
   p <- build_payload "request_loan" [USDC_COIN]
          [ArgString offerId; ArgString (bigint_toString usdcAmount);
           ArgString (bigint_toString usdcCollateral)] ;;
   submitTransaction env currentAccount p)%eff.

Definition approveLoanRequest (env : ledger) (ctx : wallet_context)
    (requestId : string) : Eff tx_result :=
  (currentAccount <- ensureConnected ctx ;;
   p <- build_payload "approve_loan" [USDC_COIN] [ArgString requestId] ;;
   submitTransaction env currentAccount p)%eff.

Definition repayLoan (env : ledger) (ctx : wallet_context)
    (loanId : string) (amount : number) : Eff tx_result :=
  (currentAccount <- ensureConnected ctx ;;
   usdcAmount <- parseUsdc_or_throw amount ;;
   p <- build_payload "repay_loan" [USDC_COIN]
          [ArgString loanId; ArgString (bigint_toString usdcAmount)] ;;
   submitTransaction env currentAccount p)%eff.

(** The payload of an [aptos.view] call. *)
Definition view_payload (fn : string) (args : list js_arg) : payload :=
  {| function := CONTRACT_ADDRESS +:+ "::" +:+ MODULE_NAME +:+ "::" +:+ fn;
     typeArguments := [USDC_COIN];
     functionArguments := args |}.

Definition offer_of (o : move_value) : LoanOffer :=
  {| offer_id := mv_id o;
     offer_lender := mv_lender o;
     offer_amount := formatUsdc (mv_amount o);
     interestRate := div (Number_of_Z (mv_interest_rate o)) lit_100;
     offer_duration := Number_of_Z (mv_duration_seconds o);
     collateralRatio := div (Number_of_Z (mv_collateral_ratio o)) lit_100;
     offer_status := toLowerCase (mv_status o) |}.

Definition request_of (r : move_value) : LoanRequest :=
  {| req_id := mv_id r;
     req_borrower := mv_borrower r;
     req_amount := formatUsdc (mv_amount r);
     req_duration := Number_of_Z (mv_duration_seconds r);
     req_status := toLowerCase (mv_status r);
     offerId := mv_offer_id r |}.

(** [try { ... } catch (error) { console.error(label, error); throw new Error(msg) }] *)
Definition rethrow_as (label msg : string) (e : error) {A} : Eff A :=
  (emit (EvConsoleError label) ;;; throw (Error "Error" (Some msg)))%eff.

Definition getLoanOffers (env : ledger) (ctx : wallet_context) : Eff (list LoanOffer) :=
  match ctx_account ctx with
  | None => ret []
  | Some _ =>
      try_catch
        (let p := view_payload "get_all_offers" [] in
         response <- call (EvView p) (view env p) ;;
         ret (map offer_of response))%eff
        (fun e => rethrow_as "Error fetching loan offers:" "Failed to fetch loan offers" e)
  end.

(** Truthiness of an optional string argument: undefined and "" are falsy. *)
Definition truthy (o : option string) : bool :=
  match o with
  | Some s => negb (String.eqb s "")
  | None => false
  end.

Definition getLoanRequests (env : ledger) (ctx : wallet_context)
    (offerId : option string) : Eff (list LoanRequest) :=
  match ctx_account ctx with
  | None => ret []
  | Some _ =>
      try_catch
        (let p := view_payload
                    (if truthy offerId then "get_offer_requests" else "get_all_requests")
                    (match offerId with
                     | Some s => if truthy offerId then [ArgString s] else []
                     | None => []
                     end) in
         response <- call (EvView p) (view env p) ;;
         ret (map request_of response))%eff
        (fun e => rethrow_as "Error fetching loan requests:" "Failed to fetch loan requests" e)
  end.

Definition getUserLoans (env : ledger) (ctx : wallet_context) : Eff (list LoanRequest) :=
  match ctx_account ctx with
  | None => ret []
  | Some acc =>
      try_catch
        (let p := view_payload "get_user_loans" [ArgString (address acc)] in
         response <- call (EvView p) (view env p) ;;
         ret (map request_of response))%eff
        (fun e => rethrow_as "Error fetching user loans:" "Failed to fetch user loans" e)
  end.

End Hook.

(* ===================================================================== *)
(** ** components/LoanRequestsList.tsx *)
(* ===================================================================== *)

Module Requests.

(** An entry of [actionStatus]: [{ loading, error }]. *)
Record action_entry := ActionEntry { ae_loading : bool; ae_error : option string }.

Record file := File { file_name : string }.

(** The account the wallet adapter exposes ([account.address.toString()]). *)
Record adapter_account := AdapterAccount { aa_address : string }.

(** The component's React state.  The two objects keyed by request id are
    plain objects: the finite maps hold their own properties
    ([approvalFiles] may hold [null]), and a read of a key they do not hold
    falls through to [Object.prototype] (see [approval_file_chosen] and
    [RequestActions.buttons_disabled]). *)
Record list_state := ListState {
  requests : list LoanRequest;
  loading : bool;
  error : option string;
  actionStatus : gmap string action_entry;
  approvalFiles : gmap string (option file)
}.

Definition setRequests (v : list LoanRequest) (st : list_state) : list_state :=
  ListState v (loading st) (error st) (actionStatus st) (approvalFiles st).
Definition setLoading (v : bool) (st : list_state) : list_state :=
  ListState (requests st) v (error st) (actionStatus st) (approvalFiles st).
Definition setError (v : option string) (st : list_state) : list_state :=
  ListState (requests st) (loading st) v (actionStatus st) (approvalFiles st).
(** [setActionStatus(prev => f prev)]: a functional update. *)
Definition setActionStatus (f : gmap string action_entry -> gmap string action_entry)
    (st : list_state) : list_state :=
  ListState (requests st) (loading st) (error st) (f (actionStatus st)) (approvalFiles st).

(** The filter: [req.lender === account.address.toString() && req.status === 0]. *)
Definition keep (addr : string) (req : LoanRequest) : bool :=
  (String.eqb (lender req) addr && (status req =? 0))%bool.

(** The keys the loop [for (let i = 0; i < totalRequests; i++)] visits,
    as [i.toString()]. *)
Definition table_keys (total : nat) : list string :=
  map (fun i : nat => pretty i) (seq 0 total).

Definition value_type (MODULE_ADDRESS : string) : string :=
  MODULE_ADDRESS +:+ "::lending::LoanRequest".

(** The loop body [requestPromises.push(aptos.getTableItem(...))]: every
    read is issued; its promise is kept, not awaited. *)
Fixpoint issue_all (env : ledger) (MODULE_ADDRESS handle : string) (keys : list string)
  : Eff (list (completion LoanRequest)) :=
  match keys with
  | [] => ret []
  | k :: rest =>
      (emit (EvGetTableItem handle k) ;;;
       ps <- issue_all env MODULE_ADDRESS handle rest ;;
       ret (getTableItem env handle k (value_type MODULE_ADDRESS) :: ps))%eff
  end.

(** [Promise.all]: the values in the order of the promises, or a rejection. *)
Fixpoint Promise_all {A} (ps : list (completion A)) : completion (list A) :=
  match ps with
  | [] => Normal []
  | Normal a :: rest =>
      match Promise_all rest with
      | Normal l => Normal (a :: l)
      | Throw e => Throw e
      end
  | Throw e :: _ => Throw e
  end.

(** [(platformConfig.data as any).total_requests] and
    [(platformConfig.data as any).loan_requests.handle]: the first read
    throws when [platformConfig.data] is undefined. *)
Definition read_config (platformConfig : resolved platform_config) : Eff platform_config :=
  match data_of platformConfig with
  | Some data => ret data
  | None => throw (undefined_read "total_requests")
  end.

(** The [try] block of [fetchRequests] up to the fetched records. *)
Definition fetch_all (env : ledger) (MODULE_ADDRESS : string) : Eff (list LoanRequest) :=
  let ty := MODULE_ADDRESS +:+ "::lending::PlatformConfig" in
  (platformConfig <- call (EvGetResource MODULE_ADDRESS ty)
                          (getAccountResource env MODULE_ADDRESS ty) ;;
   data <- read_config platformConfig ;;
   requestPromises <- issue_all env MODULE_ADDRESS (loan_requests_handle data)
                                (table_keys (total_requests data)) ;;
   lift (Promise_all requestPromises))%eff.

Definition fetch_failed : string :=
  "Failed to fetch loan requests. Is the module deployed and initialized?".

Definition fetchRequests (env : ledger) (MODULE_ADDRESS : string)
    (acct : option adapter_account) (st : list_state) (log : list event)
  : list_state * list event :=
  match acct with
  | None => (st, log)
  | Some a =>
      let st1 := setError None (setLoading true st) in
      match fetch_all env MODULE_ADDRESS log with
      | (Normal fetchedRequests, log') =>
          (setLoading false
             (setRequests (List.filter (keep (aa_address a)) fetchedRequests) st1), log')
      | (Throw e, log') =>
          (setLoading false (setError (Some fetch_failed) st1),
           log' ++ [EvConsoleError ""])
      end
  end.

(** The transaction [handleApprove] builds; [now] is [Date.now()]. *)
Definition approve_txn (MODULE_ADDRESS requestId : string) (now : Z) : wallet_txn :=
  {| wt_function := MODULE_ADDRESS +:+ "::lending::approve_loan_request";
     wt_arguments := [ArgString requestId; ArgString ("dummy_approval_" +:+ pretty now)] |}.

(** Is [approvalFiles[requestId]] truthy?  [approvalFiles] is a plain
    object: an own entry holds a file (truthy) or [null]; without an own
    entry the lookup falls through to [Object.prototype]. *)
Definition approval_file_chosen (st : list_state) (requestId : string) : bool :=
  match approvalFiles st !! requestId with
  | Some (Some _) => true
  | Some None => false
  | None => inherited_member requestId
  end.

(** [handleApprove] up to its first [await]: the transaction to submit, if
    the handler did not return early. *)
Definition handleApprove_begin (MODULE_ADDRESS : string) (acct : option adapter_account)
    (requestId : string) (now : Z) (st : list_state) : list_state * option wallet_txn :=
  match acct with
  | None => (st, None)
  | Some _ =>
      if approval_file_chosen st requestId then
        (setActionStatus (fun prev => <[requestId := ActionEntry true None]> prev) st,
         Some (approve_txn MODULE_ADDRESS requestId now))
      else
        (setActionStatus
           (fun prev => <[requestId :=
                            ActionEntry false (Some "Please upload an approval letter.")]> prev)
           st,
         None)
  end.

(** The two awaited calls of the [try] block. *)
Definition approve_submit (env : ledger) (t : wallet_txn) : Eff unit :=
  (response <- call (EvWalletSubmit t) (signAndSubmitTransaction env t) ;;
   _ <- call (EvWait (hash response)) (waitForTransaction env (hash response)) ;;
   ret tt)%eff.

(** [handleApprove] after the awaits, given how they completed. *)
Definition handleApprove_settle (env : ledger) (MODULE_ADDRESS : string)
    (acct : option adapter_account) (requestId : string) (outcome : completion unit)
    (st : list_state) (log : list event) : list_state * list event :=
  match outcome with
  | Normal _ =>
      fetchRequests env MODULE_ADDRESS acct
        (setActionStatus (fun prev => <[requestId := ActionEntry false None]> prev) st) log
  | Throw e =>
      (setActionStatus
         (fun prev => <[requestId :=
                          ActionEntry false (Some (message_or e "An error occurred."))]> prev)
         st,
       log ++ [EvConsoleError ""])
  end.

(** The entry a resolution writes under its own request id. *)
Definition settled_entry (outcome : completion unit) : action_entry :=
  match outcome with
  | Normal _ => ActionEntry false None
  | Throw e => ActionEntry false (Some (message_or e "An error occurred."))
  end.

(** One uninterrupted run of [handleApprove]. *)
Definition handleApprove (env : ledger) (MODULE_ADDRESS : string)
    (acct : option adapter_account) (requestId : string) (now : Z)
    (st : list_state) (log : list event) : list_state * list event :=
  match handleApprove_begin MODULE_ADDRESS acct requestId now st with
  | (st1, None) => (st1, log)
  | (st1, Some t) =>
      let '(outcome, log1) := approve_submit env t log in
      handleApprove_settle env MODULE_ADDRESS acct requestId outcome st1 log1
  end.

(** Several approvals in flight: the handlers' synchronous parts and their
    resumptions, in any order the event loop runs them. *)
Inductive approve_step :=
| Begin (requestId : string) (now : Z)
| Settle (requestId : string) (outcome : completion unit).

Definition step_id (s : approve_step) : string :=
  match s with Begin r _ => r | Settle r _ => r end.

Definition run_step (env : ledger) (MODULE_ADDRESS : string) (acct : option adapter_account)
    (s : approve_step) (c : list_state * list event) : list_state * list event :=
  match s with
  | Begin r now => (fst (handleApprove_begin MODULE_ADDRESS acct r now (fst c)), snd c)
  | Settle r outcome => handleApprove_settle env MODULE_ADDRESS acct r outcome (fst c) (snd c)
  end.

Definition run_steps (env : ledger) (MODULE_ADDRESS : string) (acct : option adapter_account)
    (steps : list approve_step) (c : list_state * list event) : list_state * list event :=
  fold_left (fun c s => run_step env MODULE_ADDRESS acct s c) steps c.

End Requests.

(* ===================================================================== *)
(** ** components/WalletProvider.tsx *)
(* ===================================================================== *)

Module Wallet.

(** A call forwarded to the wallet adapter
    ([connectWallet(walletName)], [disconnectWallet()]). *)
Inductive adapter_call :=
| AdapterConnect (walletName : string)
| AdapterDisconnect.

(** The provider's state: the two [useState] slots, the calls of
    [connect]/[disconnect] suspended at their [await], the calls made to
    the adapter so far, and the console. *)
Record session := Session {
  accountObj : option account;
  isConnecting : bool;
  in_flight : list adapter_call;
  adapter_calls : list adapter_call;
  console : list string
}.

Definition initial : session := Session None false [] [] [].

(** [connect(walletName)] up to its [await]:
    [setIsConnecting(true); await connectWallet(walletName)]. *)
Definition connect_call (walletName : string) (s : session) : session :=
  {| accountObj := accountObj s;
     isConnecting := true;
     in_flight := in_flight s ++ [AdapterConnect walletName];
     adapter_calls := adapter_calls s ++ [AdapterConnect walletName];
     console := console s |}.

(** [disconnect()] up to its [await]:
    [setIsConnecting(true); await disconnectWallet()]. *)
Definition disconnect_call (s : session) : session :=
  {| accountObj := accountObj s;
     isConnecting := true;
     in_flight := in_flight s ++ [AdapterDisconnect];
     adapter_calls := adapter_calls s ++ [AdapterDisconnect];
     console := console s |}.

(** The rest of the call once the adapter's promise settles: the [catch]
    block logs and rethrows, [disconnect] clears the account on success,
    and [finally] runs [setIsConnecting(false)].  The completion is what
    the caller of [connect]/[disconnect] observes. *)
Definition settle_op (op : adapter_call) (outcome : completion unit) (s : session)
  : session * completion unit :=
  match outcome with
  | Normal _ =>
      ({| accountObj := match op with
                        | AdapterConnect _ => accountObj s
                        | AdapterDisconnect => None
                        end;
          isConnecting := false;
          in_flight := in_flight s;
          adapter_calls := adapter_calls s;
          console := console s |}, Normal tt)
  | Throw e =>
      ({| accountObj := accountObj s;
          isConnecting := false;
          in_flight := in_flight s;
          adapter_calls := adapter_calls s;
          console := console s ++
                     [match op with
                      | AdapterConnect _ => "Error connecting wallet:"
                      | AdapterDisconnect => "Error disconnecting wallet:"
                      end] |}, Throw e)
  end.

(** What can happen to the provider: a component calls [connect] or
    [disconnect], or the adapter settles the [i]-th suspended call. *)
Inductive session_event :=
| CallConnect (walletName : string)
| CallDisconnect
| Settled (i : nat) (outcome : completion unit).

Definition remove_nth {A} (i : nat) (l : list A) : list A :=
  firstn i l ++ skipn (S i) l.

Definition step (s : session) (ev : session_event) : session :=
  match ev with
  | CallConnect walletName => connect_call walletName s
  | CallDisconnect => disconnect_call s
  | Settled i outcome =>
      match nth_error (in_flight s) i with
      | Some op =>
          fst (settle_op op outcome
                 {| accountObj := accountObj s;
                    isConnecting := isConnecting s;
                    in_flight := remove_nth i (in_flight s);
                    adapter_calls := adapter_calls s;
                    console := console s |})
      | None => s
      end
  end.

Definition run (s : session) (evs : list session_event) : session :=
  fold_left step evs s.

(** A call is in flight while some call is suspended at its [await]. *)
Definition busy (s : session) : bool :=
  match in_flight s with [] => false | _ => true end.

End Wallet.

(* ===================================================================== *)
(** ** Outcomes a caller can tell apart, and concrete collaborators *)
(* ===================================================================== *)

(** The outcomes the specification names for a submission. *)
Inductive outcome_kind := Confirmed | Failed | Unknown.

(** What a caller learns from the returned object: its [success] flag. *)
Definition kind_of (r : tx_result) : outcome_kind :=
  if success r then Confirmed else Failed.

(** The error classes of the SDK's [waitForTransaction]. *)
Definition timeout_error (h : string) : error :=
  Error "WaitForTransactionError"
        (Some ("Transaction " +:+ h +:+ " timed out in pending state after 20 seconds")).
Definition failed_error (h : string) : error :=
  Error "FailedTransactionError"
        (Some ("Transaction " +:+ h +:+ " failed with an error: MOVE_ABORT")).

Definition is_timeout (e : error) : bool := String.eqb (err_name e) "WaitForTransactionError".

(** The error [ensureConnected] throws. *)
Definition not_connected : error := Error "Error" (Some "Please connect your wallet first").


(** The error of [BigInt] inside an action of the hook. *)
Definition range_error : error :=
  Error "RangeError" (Some "The number cannot be converted to a BigInt").

(** Some stage of the submission threw [e]. *)
Inductive stage_failure (env : ledger) (sender : account) (p : payload) (e : error) : Prop :=
| fail_build :
    build_simple env (accountAddress sender) p = Throw e ->
    stage_failure env sender p e
| fail_sign raw :
    build_simple env (accountAddress sender) p = Normal raw ->
    sign env sender raw = Throw e ->
    stage_failure env sender p e
| fail_submit raw auth :
    build_simple env (accountAddress sender) p = Normal raw ->
    sign env sender raw = Normal auth ->
    submit_simple env raw auth = Throw e ->
    stage_failure env sender p e
| fail_wait raw auth pend :
    build_simple env (accountAddress sender) p = Normal raw ->
    sign env sender raw = Normal auth ->
    submit_simple env raw auth = Normal pend ->
    waitForTransaction env (hash pend) = Throw e ->
    stage_failure env sender p e.

(** Every stage of the submission went through. *)
Definition all_stages_ok (env : ledger) (sender : account) (p : payload)
    (pend : pending_txn) (resp : tx_response) : Prop :=
  exists raw auth,
    build_simple env (accountAddress sender) p = Normal raw /\
    sign env sender raw = Normal auth /\
    submit_simple env raw auth = Normal pend /\
    waitForTransaction env (hash pend) = Normal resp.

Module Demo.

Definition alice : account := Account "0xa11ce" (Some "0xa11ce").
Definition connected : Hook.wallet_context := Hook.WalletContext (Some alice) true.
Definition disconnected : Hook.wallet_context := Hook.WalletContext None false.

Definition req (i : nat) (who : string) (st : Z) : LoanRequest :=
  mkLoanRequest (pretty i) "0xb0b" who "1000000" "2000000" "doc_b" "doc_c" st.

(** Five requests with ids 0..4; requests 2 and 4 are pending and
    addressed to the lender 0x1e2d, request 3 is addressed to it but
    already approved. *)
Definition table (key : string) : completion LoanRequest :=
  if String.eqb key "0" then Normal (req 0 "0xaaaa" 0)
  else if String.eqb key "1" then Normal (req 1 "0xbbbb" 0)
  else if String.eqb key "2" then Normal (req 2 "0x1e2d" 0)
  else if String.eqb key "3" then Normal (req 3 "0x1e2d" 1)
  else if String.eqb key "4" then Normal (req 4 "0x1e2d" 0)
  else Throw (Error "AptosApiError" (Some "table item not found")).

(** A ledger on which every stage succeeds, except that the confirmation
    wait behaves as [wait] says.  Resources are resolved as the imported
    client does, by their own fields. *)
Definition ledger_with (wait : string -> completion tx_response) : ledger :=
  {| build_simple := fun _ _ => Normal (RawTxn "raw");
     sign := fun _ _ => Normal (Authenticator "sig");
     submit_simple := fun _ _ => Normal (PendingTxn "0xh1");
     waitForTransaction := wait;
     view := fun _ => Normal [];
     getAccountResource := fun _ _ => Normal (Bare (PlatformConfig 5 "0xhandle"));
     getTableItem := fun _ key _ => table key;
     signAndSubmitTransaction := fun _ => Normal (PendingTxn "0xh2") |}.

Definition healthy : ledger := ledger_with (fun _ => Normal (TxResponse "42")).
Definition slow : ledger := ledger_with (fun h => Throw (timeout_error h)).

(** The ledger of [healthy] behind a client that resolves a resource to an
    object with a [data] property. *)
Definition wrapping : ledger :=
  {| build_simple := build_simple healthy;
     sign := sign healthy;
     submit_simple := submit_simple healthy;
     waitForTransaction := waitForTransaction healthy;
     view := view healthy;
     getAccountResource := fun _ _ => Normal (Wrapped (PlatformConfig 5 "0xhandle"));
     getTableItem := getTableItem healthy;
     signAndSubmitTransaction := signAndSubmitTransaction healthy |}.

Definition transfer : payload := createEntryFunctionPayload "cancel_offer" [USDC_COIN] [ArgString "7"].

Definition lender2 : Requests.adapter_account := Requests.AdapterAccount "0x1e2d".

Definition empty_list : Requests.list_state := Requests.ListState [] true None ∅ ∅.

(** Two requests with an approval letter uploaded. *)
Definition two_files : Requests.list_state :=
  Requests.ListState [] false None ∅
    (<["1" := Some (Requests.File "a.pdf")]> (<["2" := Some (Requests.File "b.pdf")]> ∅)).

End Demo.

(* ===================================================================== *)
(** ** components/LoanRequestsList.tsx: the other handlers *)
(* ===================================================================== *)

Module RequestActions.
Import Requests.

(** [setApprovalFiles(prev => ({ ...prev, [id]: file }))]: the file input's
    [onChange] stores the chosen file (or [null]), the chip's [onDelete]
    stores [null]. *)
Definition setApprovalFile (requestId : string) (f : option file) (st : list_state)
  : list_state :=
  ListState (requests st) (loading st) (error st) (actionStatus st)
            (<[requestId := f]> (approvalFiles st)).

(** [actionStatus[req.request_id]?.loading], the [disabled] property of the
    Approve and Reject buttons of a request.  Without an own entry the
    value is undefined, also for an id naming a member of
    [Object.prototype]: none of them has a [loading] or an [error]
    property. *)
Definition buttons_disabled (st : list_state) (requestId : string) : bool :=
  match actionStatus st !! requestId with
  | Some entry => ae_loading entry
  | None => false
  end.

(** [actionStatus[req.request_id]?.error], the alert shown under a request. *)
Definition shown_error (st : list_state) (requestId : string) : option string :=
  match actionStatus st !! requestId with
  | Some entry => ae_error entry
  | None => None
  end.

(** The transaction [handleReject] builds. *)
Definition reject_txn (MODULE_ADDRESS requestId : string) : wallet_txn :=
  {| wt_function := MODULE_ADDRESS +:+ "::lending::reject_request";
     wt_arguments := [ArgString requestId] |}.

(** [handleReject] up to its first [await]. *)
Definition handleReject_begin (MODULE_ADDRESS : string) (acct : option adapter_account)
    (requestId : string) (st : list_state) : list_state * option wallet_txn :=
  match acct with
  | None => (st, None)
  | Some _ =>
      (setActionStatus (fun prev => <[requestId := ActionEntry true None]> prev) st,
       Some (reject_txn MODULE_ADDRESS requestId))
  end.

(** [handleReject] after the awaits, given how they completed. *)
Definition handleReject_settle (env : ledger) (MODULE_ADDRESS : string)
    (acct : option adapter_account) (requestId : string) (outcome : completion unit)
    (st : list_state) (log : list event) : list_state * list event :=
  match outcome with
  | Normal _ =>
      fetchRequests env MODULE_ADDRESS acct
        (setActionStatus (fun prev => <[requestId := ActionEntry false None]> prev) st) log
  | Throw e =>
      (setActionStatus
         (fun prev => <[requestId :=
                          ActionEntry false (Some (message_or e "An error occurred."))]> prev)
         st,
       log ++ [EvConsoleError ""])
  end.

(** One uninterrupted run of [handleReject]. *)
Definition handleReject (env : ledger) (MODULE_ADDRESS : string)
    (acct : option adapter_account) (requestId : string)
    (st : list_state) (log : list event) : list_state * list event :=
  match handleReject_begin MODULE_ADDRESS acct requestId st with
  | (st1, None) => (st1, log)
  | (st1, Some t) =>
      let '(outcome, log1) := approve_submit env t log in
      handleReject_settle env MODULE_ADDRESS acct requestId outcome st1 log1
  end.

(** Everything that can happen to the list while actions are in flight:
    a file is chosen or removed, an approve or a reject starts or resumes
    after its awaits, the list is (re)fetched. *)
Inductive ui_step :=
| ChooseFile (requestId : string) (f : option file)
| ApproveBegin (requestId : string) (now : Z)
| ApproveSettle (requestId : string) (outcome : completion unit)
| RejectBegin (requestId : string)
| RejectSettle (requestId : string) (outcome : completion unit)
| Refresh.

(** The request id a step is about, if any. *)
Definition ui_step_id (s : ui_step) : option string :=
  match s with
  | ChooseFile r _ | ApproveBegin r _ | ApproveSettle r _
  | RejectBegin r | RejectSettle r _ => Some r
  | Refresh => None
  end.

Definition run_ui_step (env : ledger) (MODULE_ADDRESS : string)
    (acct : option adapter_account) (s : ui_step) (c : list_state * list event)
  : list_state * list event :=
  match s with
  | ChooseFile r f => (setApprovalFile r f (fst c), snd c)
  | ApproveBegin r now => (fst (handleApprove_begin MODULE_ADDRESS acct r now (fst c)), snd c)
  | ApproveSettle r outcome =>
      handleApprove_settle env MODULE_ADDRESS acct r outcome (fst c) (snd c)
  | RejectBegin r => (fst (handleReject_begin MODULE_ADDRESS acct r (fst c)), snd c)
  | RejectSettle r outcome =>
      handleReject_settle env MODULE_ADDRESS acct r outcome (fst c) (snd c)
  | Refresh => fetchRequests env MODULE_ADDRESS acct (fst c) (snd c)
  end.

Definition run_ui (env : ledger) (MODULE_ADDRESS : string) (acct : option adapter_account)
    (steps : list ui_step) (c : list_state * list event) : list_state * list event :=
  fold_left (fun c s => run_ui_step env MODULE_ADDRESS acct s c) steps c.

End RequestActions.

(* ===================================================================== *)
(** ** components/LoanOffersList.tsx *)
(* ===================================================================== *)

Module Offers.

(** A [LoanOffer] resource as the components read it (the declaration of
    '@/types' is not part of the sources; [available_funds] stands for
    [available_funds.value]). *)
Record LoanOffer := mkLoanOffer {
  offer_id : string;
  lender : string;
  available_funds : string;
  interest_rate : string;
  loan_duration_days : string
}.

(** The two resource reads of the component; the registry stands for its
    [active_lenders]. *)
Record offers_api := OffersApi {
  getLenderRegistry : string -> string -> completion (resolved (list string));
  getLoanOffer : string -> string -> completion (resolved LoanOffer)
}.

(** The component's React state; an entry of [offers] is [None] where
    [res.data] was undefined. *)
Record offers_state := OffersState {
  offers : list (option LoanOffer);
  loading : bool;
  error : option string;
  selectedOffer : option LoanOffer
}.

Definition handleRequestClick (offer : LoanOffer) (st : offers_state) : offers_state :=
  OffersState (offers st) (loading st) (error st) (Some offer).

Definition handleCloseRequest (st : offers_state) : offers_state :=
  OffersState (offers st) (loading st) (error st) None.

Definition offer_type (MODULE_ADDRESS : string) : string :=
  MODULE_ADDRESS +:+ "::lending::LoanOffer".

(** [lenderAddresses.map(lenderAddress => aptos.getAccountResource(...))]:
    every read is issued, in the order of the registry. *)
Fixpoint issue_offer_reads (api : offers_api) (MODULE_ADDRESS : string)
    (lenderAddresses : list string) : Eff (list (completion (resolved LoanOffer))) :=
  match lenderAddresses with
  | [] => ret []
  | a :: rest =>
      (emit (EvGetResource a (offer_type MODULE_ADDRESS)) ;;;
       ps <- issue_offer_reads api MODULE_ADDRESS rest ;;
       ret (getLoanOffer api a (offer_type MODULE_ADDRESS) :: ps))%eff
  end.

(** [(registry.data as any).active_lenders]: throws when [registry.data]
    is undefined. *)
Definition read_active_lenders (registry : resolved (list string)) : Eff (list string) :=
  match data_of registry with
  | Some active_lenders => ret active_lenders
  | None => throw (undefined_read "active_lenders")
  end.

(** The [try] block of [fetchOffers] up to the fetched offers:
    [offerResources.map(res => res.data)]. *)
Definition fetch_offers (api : offers_api) (MODULE_ADDRESS : string)
  : Eff (list (option LoanOffer)) :=
  let ty := MODULE_ADDRESS +:+ "::lending::LenderRegistry" in
  (registry <- call (EvGetResource MODULE_ADDRESS ty)
                    (getLenderRegistry api MODULE_ADDRESS ty) ;;
   lenderAddresses <- read_active_lenders registry ;;
   offerPromises <- issue_offer_reads api MODULE_ADDRESS lenderAddresses ;;
   offerResources <- lift (Requests.Promise_all offerPromises) ;;
   ret (map data_of offerResources))%eff.

Definition offers_failed : string :=
  "Failed to fetch loan offers. Is the module deployed and initialized?".

Definition fetchOffers (api : offers_api) (MODULE_ADDRESS : string)
    (st : offers_state) (log : list event) : offers_state * list event :=
  match fetch_offers api MODULE_ADDRESS log with
  | (Normal fetchedOffers, log') =>
      (OffersState fetchedOffers false None (selectedOffer st), log')
  | (Throw e, log') =>
      (OffersState (offers st) false (Some offers_failed) (selectedOffer st),
       log' ++ [EvConsoleError ""])
  end.

End Offers.

(* ===================================================================== *)
(** ** components/BorrowerRequest.tsx *)
(* ===================================================================== *)

Module Borrower.

(** The form's React state. *)
Record form_state := FormState {
  amount : string;
  collateral : string;
  borrowerDetailsFile : option Requests.file;
  collateralDetailsFile : option Requests.file;
  loading : bool;
  error : option string;
  success : option string
}.

Definition setError (v : option string) (st : form_state) : form_state :=
  FormState (amount st) (collateral st) (borrowerDetailsFile st) (collateralDetailsFile st)
            (loading st) v (success st).
Definition setLoading (v : bool) (st : form_state) : form_state :=
  FormState (amount st) (collateral st) (borrowerDetailsFile st) (collateralDetailsFile st)
            v (error st) (success st).
Definition setSuccess (v : option string) (st : form_state) : form_state :=
  FormState (amount st) (collateral st) (borrowerDetailsFile st) (collateralDetailsFile st)
            (loading st) (error st) v.

(** [Math.floor(parseFloat(text) * 1_000_000)]; [parseFloat] is the
    language's, taken as given. *)
Definition to_atomic (parseFloat : string -> number) (text : string) : number :=
  Math_floor (mul (parseFloat text) lit_1e6).

(** The transaction [handleRequest] builds; [now] and [later] are what the
    two calls of [Date.now()] return, one per dummy hash. *)
Definition borrow_txn (parseFloat : string -> number) (MODULE_ADDRESS : string)
    (offer : Offers.LoanOffer) (now later : Z) (st : form_state) : wallet_txn :=
  {| wt_function := MODULE_ADDRESS +:+ "::lending::borrow_request";
     wt_arguments :=
       [ArgString (Offers.lender offer);
        ArgNumber (to_atomic parseFloat (amount st));
        ArgNumber (to_atomic parseFloat (collateral st));
        ArgString ("dummy_borrower_" +:+ pretty now);
        ArgString ("dummy_collateral_" +:+ pretty later)] |}.

(** The two awaited calls of the [try] block; the hash is kept for the
    success message. *)
Definition borrow_submit (env : ledger) (t : wallet_txn) : Eff string :=
  (response <- call (EvWalletSubmit t) (signAndSubmitTransaction env t) ;;
   _ <- call (EvWait (hash response)) (waitForTransaction env (hash response)) ;;
   ret (hash response))%eff.

(** [handleRequest]; the boolean tells whether the two-second timer that
    resets and closes the form was started. *)
Definition handleRequest (parseFloat : string -> number) (env : ledger)
    (MODULE_ADDRESS : string) (acct : option Requests.adapter_account)
    (offer : Offers.LoanOffer) (now later : Z) (st : form_state) (log : list event)
  : form_state * list event * bool :=
  match acct with
  | None => (setError (Some "Please connect your wallet first.") st, log, false)
  | Some _ =>
      match borrowerDetailsFile st, collateralDetailsFile st with
      | Some _, Some _ =>
          let st1 := setSuccess None (setError None (setLoading true st)) in
          let t := borrow_txn parseFloat MODULE_ADDRESS offer now later st in
          match borrow_submit env t log with
          | (Normal h, log') =>
              (setLoading false
                 (setSuccess (Some ("Loan request submitted with hash: " +:+ h)) st1),
               log', true)
          | (Throw e, log') =>
              (setLoading false (setError (Some (message_or e "An error occurred.")) st1),
               log', false)
          end
      | _, _ =>
          (setError (Some "Please upload both borrower and collateral documents.") st,
           log, false)
      end
  end.

(** The timer's callback, before it calls [onClose]. *)
Definition reset_form (st : form_state) : form_state :=
  FormState "" "" None None (loading st) (error st) (success st).

End Borrower.

(* ===================================================================== *)
(** ** components/WalletProvider.tsx: effects and context value *)
(* ===================================================================== *)

Module Provider.

(** What [useAptosWallet()] reports. *)
Record adapter := Adapter {
  connected : bool;
  adapter_account : option Requests.adapter_account
}.

(** The object [initAccount] builds: [{ address, signTransaction }].  It has
    no [accountAddress] property. *)
Definition stub_account (a : Requests.adapter_account) : account :=
  {| address := Requests.aa_address a; accountAddress := None |}.

(** Its [signTransaction]. *)
Definition stub_signTransaction : completion authenticator :=
  Throw (Error "Error" (Some "Cannot sign transactions directly in WalletProvider")).

Definition setAccountObj (v : option account) (s : Wallet.session) : Wallet.session :=
  Wallet.Session v (Wallet.isConnecting s) (Wallet.in_flight s) (Wallet.adapter_calls s)
                 (Wallet.console s).
Definition setIsConnecting (v : bool) (s : Wallet.session) : Wallet.session :=
  Wallet.Session (Wallet.accountObj s) v (Wallet.in_flight s) (Wallet.adapter_calls s)
                 (Wallet.console s).

(** The first effect, run when [connected] or [account] changes. *)
Definition initAccount (ad : adapter) (s : Wallet.session) : Wallet.session :=
  match connected ad, adapter_account ad with
  | true, Some a =>
      setIsConnecting false (setAccountObj (Some (stub_account a)) (setIsConnecting true s))
  | _, _ => setAccountObj None s
  end.

(** The second effect: [if (connected) setIsConnecting(false)]. *)
Definition clear_connecting (ad : adapter) (s : Wallet.session) : Wallet.session :=
  if connected ad then setIsConnecting false s else s.

(** Both effects, as they run after a render in which the adapter changed. *)
Definition sync (ad : adapter) (s : Wallet.session) : Wallet.session :=
  clear_connecting ad (initAccount ad s).

(** [account?.address?.toString() || null] *)
Definition accountAddress_of (ad : adapter) : option string :=
  match adapter_account ad with
  | Some a => if String.eqb (Requests.aa_address a) "" then None
              else Some (Requests.aa_address a)
  | None => None
  end.

(** The context value, as far as the hook reads it:
    [account: accountObj, isConnected: connected]. *)
Definition hook_context (ad : adapter) (s : Wallet.session) : Hook.wallet_context :=
  {| Hook.ctx_account := Wallet.accountObj s; Hook.isConnected := connected ad |}.

Definition wallet_state_key : string := "aptos-wallet-state".

(** The effect of [WalletProvider]: a stored wallet state that does not
    parse is removed.  [parses] tells whether [JSON.parse] accepts a string;
    an empty stored string is falsy and is not parsed. *)
Definition clear_corrupted (parses : string -> bool) (storage : gmap string string)
  : gmap string string * list string :=
  match storage !! wallet_state_key with
  | Some walletState =>
      if String.eqb walletState "" then (storage, [])
      else if parses walletState then (storage, [])
      else (delete wallet_state_key storage, ["Clearing corrupted wallet state"])
  | None => (storage, [])
  end.

End Provider.

Module Demo2.

(** The ledger of [Demo.wrapping], except that table item 3 cannot be read. *)
Definition broken_item : ledger :=
  {| build_simple := build_simple Demo.wrapping;
     sign := sign Demo.wrapping;
     submit_simple := submit_simple Demo.wrapping;
     waitForTransaction := waitForTransaction Demo.wrapping;
     view := view Demo.wrapping;
     getAccountResource := getAccountResource Demo.wrapping;
     getTableItem := fun handle key ty =>
       if String.eqb key "3" then Throw (Error "AptosApiError" (Some "table item not found"))
       else getTableItem Demo.wrapping handle key ty;
     signAndSubmitTransaction := signAndSubmitTransaction Demo.wrapping |}.

(** A ledger whose registry cannot be read. *)
Definition unreachable : ledger :=
  {| build_simple := build_simple Demo.healthy;
     sign := sign Demo.healthy;
     submit_simple := submit_simple Demo.healthy;
     waitForTransaction := waitForTransaction Demo.healthy;
     view := view Demo.healthy;
     getAccountResource := fun _ _ => Throw (Error "AptosApiError" (Some "resource not found"));
     getTableItem := getTableItem Demo.healthy;
     signAndSubmitTransaction := signAndSubmitTransaction Demo.healthy |}.

(** Two records of a view response. *)
Definition listed : list move_value :=
  [MoveValue "1" "0xaaaa" "0xb0b" 8200000 500 2592000 15000 "ACTIVE" "1";
   MoveValue "2" "0xbbbb" "0xa11ce" 123456789 750 86400 20000 "PENDING" "1"].

(** The ledger of [Demo.healthy] with every view function answering
    [listed]. *)
Definition listing : ledger :=
  {| build_simple := build_simple Demo.healthy;
     sign := sign Demo.healthy;
     submit_simple := submit_simple Demo.healthy;
     waitForTransaction := waitForTransaction Demo.healthy;
     view := fun _ => Normal listed;
     getAccountResource := getAccountResource Demo.healthy;
     getTableItem := getTableItem Demo.healthy;
     signAndSubmitTransaction := signAndSubmitTransaction Demo.healthy |}.

Definition offer_of_lender (a : string) : Offers.LoanOffer :=
  Offers.mkLoanOffer "1" a "5000000" "500" "30".

(** Two active lenders, read through the imported client: the registry and
    the offers are resolved by their own fields.  The offer of the second
    cannot be read when [second_ok] is false. *)
Definition offers_api (second_ok : bool) : Offers.offers_api :=
  {| Offers.getLenderRegistry := fun _ _ => Normal (Bare ["0xaaaa"; "0xbbbb"]);
     Offers.getLoanOffer := fun a _ =>
       if (String.eqb a "0xbbbb" && negb second_ok)%bool
       then Throw (Error "AptosApiError" (Some "resource not found"))
       else Normal (Bare (offer_of_lender a)) |}.

(** A registry that cannot be read at all. *)
Definition no_registry : Offers.offers_api :=
  {| Offers.getLenderRegistry := fun _ _ =>
       Throw (Error "AptosApiError" (Some "resource not found"));
     Offers.getLoanOffer := Offers.getLoanOffer (offers_api true) |}.

(** One offer on display, one selected. *)
Definition one_offer : Offers.offers_state :=
  Offers.OffersState [Some (offer_of_lender "0xcccc")] true None
                     (Some (offer_of_lender "0xcccc")).

(** A filled-in request form, and the same form without the collateral
    document. *)
Definition form : Borrower.form_state :=
  Borrower.FormState "8.2" "20" (Some (Requests.File "id.pdf"))
                     (Some (Requests.File "deed.pdf")) false None None.
Definition form_without_collateral : Borrower.form_state :=
  Borrower.FormState "8.2" "20" (Some (Requests.File "id.pdf")) None false None None.

(** A stand-in for [parseFloat] on the two texts of [form]. *)
Definition parseFloat (text : string) : number :=
  if String.eqb text "8.2" then decimal 82 1
  else if String.eqb text "20" then decimal 20 0
  else S754_nan.

(** Browser storage holding a wallet state that does not parse. *)
Definition corrupt_storage : gmap string string :=
  <["aptos-wallet-state" := "{oops"]> (<["theme" := "dark"]> ∅).
Definition parses (text : string) : bool := String.eqb text "{}".

End Demo2.

(* ===================================================================== *)
(** * Theorems *)
(* ===================================================================== *)

(** ** Effect monad: how the stages of [submitTransaction] unfold *)

Lemma call_normal {A B} (ev : event) (c : completion A) (a : A) (k : A -> Eff B) log :
  c = Normal a -> bind (call ev c) k log = k a (log ++ [ev]).
Proof. intros ->. reflexivity. Qed.

Lemma call_throw {A B} (ev : event) (c : completion A) (e : error) (k : A -> Eff B) log :
  c = Throw e -> bind (call ev c) k log = (Throw e, log ++ [ev]).
Proof. intros ->. reflexivity. Qed.

(** The [try] block either succeeds with every stage, or stops at the first
    stage that throws. *)
Lemma submit_body_cases env sender p log :
  (exists pend resp log',
      all_stages_ok env sender p pend resp /\
      submit_body env sender p log = (Normal (TxSuccess (hash pend) resp), log')) \/
  (exists e log',
      stage_failure env sender p e /\
      submit_body env sender p log = (Throw e, log')).
Proof.
  unfold submit_body.
  destruct (build_simple env (accountAddress sender) p) as [raw|e] eqn:Hb.
  2:{ right. exists e, (log ++ [EvBuild (accountAddress sender) p]).
      split; [by apply fail_build|]. by rewrite (call_throw _ _ e). }
  rewrite (call_normal _ _ raw) by done.
  destruct (sign env sender raw) as [auth|e] eqn:Hs.
  2:{ right. eexists e, _. split; [by eapply fail_sign|]. by rewrite (call_throw _ _ e). }
  rewrite (call_normal _ _ auth) by done.
  destruct (submit_simple env raw auth) as [pend|e] eqn:Hsub.
  2:{ right. eexists e, _. split; [by eapply fail_submit|]. by rewrite (call_throw _ _ e). }
  rewrite (call_normal _ _ pend) by done.
  destruct (waitForTransaction env (hash pend)) as [resp|e] eqn:Hw.
  2:{ right. eexists e, _. split; [by eapply fail_wait|]. by rewrite (call_throw _ _ e). }
  rewrite (call_normal _ _ resp) by done.
  left. exists pend, resp. eexists. split; [|reflexivity].
  by exists raw, auth.
Qed.

Lemma message_or_nonempty e dflt : dflt <> "" -> message_or e dflt <> "".
Proof.
  intros Hd. unfold message_or. destruct (err_message e) as [m|]; [|done].
  destruct (String.eqb m "") eqn:Hm; [done|]. by apply String.eqb_neq.
Qed.

(** ** C7 *)

(** C7. [submitTransaction] never rejects: for every ledger, sender and
    payload it returns an object.  When a stage (build, sign, submit,
    confirmation wait) throws, the object has [success = false] and carries a
    non-empty reason string, the error's message or "Transaction failed";
    when every stage goes through, it has [success = true] and carries the
    hash of the submitted transaction. *)
Theorem C7_submitTransaction_returns_a_discriminated_result :
  forall env sender p log,
    exists r log',
      submitTransaction env sender p log = (Normal r, log') /\
      ((exists pend resp,
           all_stages_ok env sender p pend resp /\
           r = TxSuccess (hash pend) resp /\ success r = true) \/
       (exists e,
           stage_failure env sender p e /\
           r = TxFailure (message_or e "Transaction failed") /\
           success r = false /\
           message_or e "Transaction failed" <> "")).
Proof.
  intros env sender p log. unfold submitTransaction, try_catch.
  destruct (submit_body_cases env sender p log)
    as [(pend & resp & log' & Hok & ->) | (e & log' & Hfail & ->)].
  - eexists _, _. split; [reflexivity|]. left. by exists pend, resp.
  - eexists _, _. split; [reflexivity|]. right. exists e.
    repeat split; [done|by apply message_or_nonempty].
Qed.

(** ** C4 *)

(** C4, as stated, fails: on a ledger whose confirmation wait times out,
    [submitTransaction] returns the failure object, which a caller cannot
    tell from any other failure; no result is an "unknown" outcome. *)
Lemma C4_timeout_is_reported_as_failure :
  fst (submitTransaction Demo.slow Demo.alice Demo.transfer []) =
    Normal (TxFailure "Transaction 0xh1 timed out in pending state after 20 seconds") /\
  ~ (exists r log', submitTransaction Demo.slow Demo.alice Demo.transfer [] = (Normal r, log') /\
                    kind_of r = Unknown).
Proof.
  split; [reflexivity|].
  intros (r & log' & Hrun & Hk). vm_compute in Hrun.
  injection Hrun as <- _. discriminate Hk.
Qed.

(** C4, amended. When the first three stages go through and the
    confirmation wait throws (a timeout included), [submitTransaction]
    returns the failure object with the error's message, after exactly the
    four network calls and one [console.error]; the outcome is [Failed], the
    same as for a transaction the ledger rejected. *)
Theorem C4_wait_error_gives_failure_outcome :
  forall env sender p log raw auth pend e,
    build_simple env (accountAddress sender) p = Normal raw ->
    sign env sender raw = Normal auth ->
    submit_simple env raw auth = Normal pend ->
    waitForTransaction env (hash pend) = Throw e ->
    submitTransaction env sender p log =
      (Normal (TxFailure (message_or e "Transaction failed")),
       log ++ [EvBuild (accountAddress sender) p] ++ [EvSign raw] ++ [EvSubmit raw]
           ++ [EvWait (hash pend)] ++ [EvConsoleError "Transaction failed:"]) /\
    kind_of (TxFailure (message_or e "Transaction failed")) = Failed.
Proof.
  intros env sender p log raw auth pend e Hb Hs Hsub Hw.
  split; [|reflexivity].
  unfold submitTransaction, try_catch, submit_body.
  rewrite (call_normal _ _ raw) by done.
  rewrite (call_normal _ _ auth) by done.
  rewrite (call_normal _ _ pend) by done.
  rewrite (call_throw _ _ e) by done.
  unfold submit_handler, bind, emit, ret.
  by rewrite <- !app_assoc.
Qed.

Lemma C4_wait_error_gives_failure_outcome_witness :
  submitTransaction Demo.slow Demo.alice Demo.transfer [] =
    (Normal (TxFailure (message_or (timeout_error "0xh1") "Transaction failed")),
     [] ++ [EvBuild (accountAddress Demo.alice) Demo.transfer] ++ [EvSign (RawTxn "raw")]
        ++ [EvSubmit (RawTxn "raw")] ++ [EvWait (hash (PendingTxn "0xh1"))]
        ++ [EvConsoleError "Transaction failed:"]) /\
  kind_of (TxFailure (message_or (timeout_error "0xh1") "Transaction failed")) = Failed.
Proof.
  apply (C4_wait_error_gives_failure_outcome Demo.slow Demo.alice Demo.transfer []
           (RawTxn "raw") (Authenticator "sig") (PendingTxn "0xh1") (timeout_error "0xh1"));
    reflexivity.
Defined.

(** ** C3 and C10: the connection checks of the hook *)

Lemma ensureConnected_disconnected ctx log :
  Hook.isConnected ctx = false \/ Hook.ctx_account ctx = None ->
  Hook.ensureConnected ctx log = (Throw not_connected, log).
Proof.
  unfold Hook.ensureConnected.
  intros [-> | ->]; [reflexivity|]. by destruct (Hook.isConnected ctx).
Qed.

Lemma ensureConnected_connected acc log :
  Hook.ensureConnected (Hook.WalletContext (Some acc) true) log = (Normal acc, log).
Proof. reflexivity. Qed.

Ltac stop_at_ensureConnected H :=
  intros; unfold Hook.createLoanOffer, Hook.cancelLoanOffer, Hook.requestLoan,
    Hook.approveLoanRequest, Hook.repayLoan, bind;
  rewrite (ensureConnected_disconnected _ _ H); reflexivity.

(** The five actions reject when the session is disconnected. *)
Lemma actions_reject_when_disconnected env ctx log :
  Hook.isConnected ctx = false \/ Hook.ctx_account ctx = None ->
  (forall amount rate duration ratio,
      Hook.createLoanOffer env ctx amount rate duration ratio log = (Throw not_connected, log)) /\
  (forall offerId,
      Hook.cancelLoanOffer env ctx offerId log = (Throw not_connected, log)) /\
  (forall offerId amount collateral,
      Hook.requestLoan env ctx offerId amount collateral log = (Throw not_connected, log)) /\
  (forall requestId,
      Hook.approveLoanRequest env ctx requestId log = (Throw not_connected, log)) /\
  (forall loanId amount,
      Hook.repayLoan env ctx loanId amount log = (Throw not_connected, log)).
Proof.
  intros H. repeat split; stop_at_ensureConnected H.
Qed.

(** C3. With the session disconnected ([isConnected] false or no account),
    each of the five protocol actions rejects with the error "Please connect
    your wallet first" and leaves the log as it was: no payload has been
    built and no network call has been made. *)
Theorem C3_disconnected_actions_fail_before_any_effect :
  forall env ctx log,
    Hook.isConnected ctx = false \/ Hook.ctx_account ctx = None ->
    (forall amount rate duration ratio,
        Hook.createLoanOffer env ctx amount rate duration ratio log = (Throw not_connected, log)) /\
    (forall offerId,
        Hook.cancelLoanOffer env ctx offerId log = (Throw not_connected, log)) /\
    (forall offerId amount collateral,
        Hook.requestLoan env ctx offerId amount collateral log = (Throw not_connected, log)) /\
    (forall requestId,
        Hook.approveLoanRequest env ctx requestId log = (Throw not_connected, log)) /\
    (forall loanId amount,
        Hook.repayLoan env ctx loanId amount log = (Throw not_connected, log)).
Proof.
  intros env ctx log H. exact (actions_reject_when_disconnected env ctx log H).
Qed.

Lemma C3_disconnected_actions_fail_before_any_effect_witness :
  Hook.createLoanOffer Demo.healthy Demo.disconnected (decimal 82 1) lit_100 lit_100 lit_100 []
    = (Throw not_connected, []) /\
  Hook.repayLoan Demo.healthy (Hook.WalletContext (Some Demo.alice) false) "3" (decimal 82 1) []
    = (Throw not_connected, []).
Proof.
  split.
  - apply (C3_disconnected_actions_fail_before_any_effect Demo.healthy Demo.disconnected []).
    left. reflexivity.
  - apply (C3_disconnected_actions_fail_before_any_effect Demo.healthy
             (Hook.WalletContext (Some Demo.alice) false) []).
    left. reflexivity.
Defined.

(** Connected, the same action does reach the network. *)
Example createLoanOffer_connected_reaches_the_ledger :
  let '(r, log) := Hook.createLoanOffer Demo.healthy Demo.connected
                     (decimal 5 0) lit_100 lit_100 lit_100 [] in
  r = Normal (TxSuccess "0xh1" (TxResponse "42")) /\
  map is_network_call log = [false; true; true; true; true].
Proof. vm_compute. split; reflexivity. Qed.

(** C10. Without an account the three read views resolve to the empty list:
    nothing is thrown and the log is unchanged (no ledger call), whereas the
    five write actions of the same hook reject in that state. *)
Theorem C10_views_are_empty_without_account_while_actions_throw :
  forall env ctx log,
    Hook.ctx_account ctx = None ->
    (Hook.getLoanOffers env ctx log = (Normal [], log) /\
     (forall offerId, Hook.getLoanRequests env ctx offerId log = (Normal [], log)) /\
     Hook.getUserLoans env ctx log = (Normal [], log)) /\
    ((forall amount rate duration ratio,
         fst (Hook.createLoanOffer env ctx amount rate duration ratio log) = Throw not_connected) /\
     (forall offerId,
         fst (Hook.cancelLoanOffer env ctx offerId log) = Throw not_connected) /\
     (forall offerId amount collateral,
         fst (Hook.requestLoan env ctx offerId amount collateral log) = Throw not_connected) /\
     (forall requestId,
         fst (Hook.approveLoanRequest env ctx requestId log) = Throw not_connected) /\
     (forall loanId amount,
         fst (Hook.repayLoan env ctx loanId amount log) = Throw not_connected)).
Proof.
  intros env ctx log H. split.
  - unfold Hook.getLoanOffers, Hook.getLoanRequests, Hook.getUserLoans.
    rewrite H. repeat split.
  - destruct (actions_reject_when_disconnected env ctx log (or_intror H)) as (H1 & H2 & H3 & H4 & H5).
    repeat split; intros; by rewrite ?H1, ?H2, ?H3, ?H4, ?H5.
Qed.

Lemma C10_views_are_empty_without_account_while_actions_throw_witness :
  (Hook.getLoanOffers Demo.healthy Demo.disconnected [] = (Normal [], []) /\
   (forall offerId, Hook.getLoanRequests Demo.healthy Demo.disconnected offerId [] = (Normal [], [])) /\
   Hook.getUserLoans Demo.healthy Demo.disconnected [] = (Normal [], [])) /\
  fst (Hook.cancelLoanOffer Demo.healthy Demo.disconnected "7" []) = Throw not_connected.
Proof.
  destruct (C10_views_are_empty_without_account_while_actions_throw
              Demo.healthy Demo.disconnected [] eq_refl) as [Hv (_ & Hc & _)].
  split; [exact Hv | exact (Hc "7")].
Defined.

(** With an account, a view does call the ledger. *)
Example getUserLoans_connected_calls_view :
  snd (Hook.getUserLoans Demo.healthy Demo.connected []) =
    [EvView (Hook.view_payload "get_user_loans" [ArgString "0xa11ce"])].
Proof. reflexivity. Qed.

(** ** C2: the lender's pending-requests view *)

Section FetchRequests.
Import Requests.

Variable env : ledger.
Variable MODULE_ADDRESS : string.

Lemma Promise_all_fulfilled {A} (l : list A) :
  Promise_all (map Normal l) = Normal l.
Proof. induction l as [|a l IH]; simpl; [done|]. by rewrite IH. Qed.

(** The loop issues one table read per key, in the order of the keys. *)
Lemma issue_all_spec handle keys log :
  issue_all env MODULE_ADDRESS handle keys log =
    (Normal (map (fun k => getTableItem env handle k (value_type MODULE_ADDRESS)) keys),
     log ++ map (EvGetTableItem handle) keys).
Proof.
  revert log. induction keys as [|k keys IH]; intros log; simpl.
  - by rewrite app_nil_r.
  - unfold bind, emit. rewrite IH. unfold ret. by rewrite <- app_assoc.
Qed.

(** The keys are the decimal numerals of 0, 1, ..., total - 1. *)
Lemma table_keys_lookup total i :
  (i < total)%nat -> table_keys total !! i = Some (pretty i).
Proof.
  intros Hi. unfold table_keys. rewrite list_lookup_fmap.
  by rewrite lookup_seq_lt.
Qed.

(** The registry read resolves to the resource's own fields: the read of
    [platformConfig.data.total_requests] throws, after the one ledger read. *)
Lemma fetch_all_bare cfg log :
  getAccountResource env MODULE_ADDRESS (MODULE_ADDRESS +:+ "::lending::PlatformConfig")
    = Normal (Bare cfg) ->
  fetch_all env MODULE_ADDRESS log =
    (Throw (undefined_read "total_requests"),
     log ++ [EvGetResource MODULE_ADDRESS (MODULE_ADDRESS +:+ "::lending::PlatformConfig")]).
Proof.
  intros Hcfg. unfold fetch_all.
  by rewrite (call_normal _ _ (Bare cfg)) by done.
Qed.

(** The registry cannot be read: nothing else is read. *)
Lemma fetch_all_registry_throws e log :
  getAccountResource env MODULE_ADDRESS (MODULE_ADDRESS +:+ "::lending::PlatformConfig")
    = Throw e ->
  fetch_all env MODULE_ADDRESS log =
    (Throw e,
     log ++ [EvGetResource MODULE_ADDRESS (MODULE_ADDRESS +:+ "::lending::PlatformConfig")]).
Proof.
  intros He. unfold fetch_all. by rewrite (call_throw _ _ e) by done.
Qed.

Lemma fetch_all_spec cfg (recs : nat -> LoanRequest) log :
  getAccountResource env MODULE_ADDRESS (MODULE_ADDRESS +:+ "::lending::PlatformConfig")
    = Normal (Wrapped cfg) ->
  (forall i, (i < total_requests cfg)%nat ->
             getTableItem env (loan_requests_handle cfg) (pretty i) (value_type MODULE_ADDRESS)
               = Normal (recs i)) ->
  fetch_all env MODULE_ADDRESS log =
    (Normal (map recs (seq 0 (total_requests cfg))),
     log ++ [EvGetResource MODULE_ADDRESS (MODULE_ADDRESS +:+ "::lending::PlatformConfig")]
         ++ map (EvGetTableItem (loan_requests_handle cfg)) (table_keys (total_requests cfg))).
Proof.
  intros Hcfg Hrecs. unfold fetch_all.
  rewrite (call_normal _ _ (Wrapped cfg)) by done.
  unfold read_config, data_of, ret.
  unfold bind. rewrite issue_all_spec. unfold lift.
  rewrite <- app_assoc. f_equal.
  unfold table_keys. rewrite map_map.
  rewrite <- (Promise_all_fulfilled (map recs (seq 0 (total_requests cfg)))).
  f_equal. rewrite map_map. apply map_ext_in.
  intros i Hi. apply in_seq in Hi. apply Hrecs. lia.
Qed.

(** Filtering the records read at keys 0..n-1 keeps them in key order:
    the result is read off at a strictly increasing list of keys. *)
Lemma filter_seq_increasing (recs : nat -> LoanRequest) (f : LoanRequest -> bool) start n :
  exists ks : list nat,
    List.filter f (map recs (seq start n)) = map recs ks /\
    StronglySorted lt ks /\
    Forall (fun k => (start <= k < start + n)%nat /\ f (recs k) = true) ks.
Proof.
  revert start. induction n as [|n IH]; intros start; simpl.
  - exists []. repeat constructor.
  - destruct (IH (S start)) as (ks & Heq & Hsorted & Hall).
    destruct (f (recs start)) eqn:Hf.
    + exists (start :: ks). simpl. rewrite Heq. split; [done|]. split.
      * constructor; [done|]. eapply Forall_impl; [exact Hall|]. simpl. lia.
      * constructor; [split; [lia|done]|].
        eapply Forall_impl; [exact Hall|]. simpl. intros k [Hk ?]. split; [lia|done].
    + exists ks. split; [done|]. split; [done|].
      eapply Forall_impl; [exact Hall|]. simpl. intros k [Hk ?]. split; [lia|done].
Qed.

(** Behind a client that resolves the registry to an object with a [data]
    property, and with every table read succeeding, the view first reads
    the registry and then every table item 0..total-1, in that order, and
    only then filters: the displayed list is the sublist of the fetched
    records whose [lender] is the connected address and whose [status] is
    0, at strictly increasing table keys. *)
Lemma fetchRequests_on_wrapped_resource :
  forall acct cfg (recs : nat -> LoanRequest) st log,
    getAccountResource env MODULE_ADDRESS (MODULE_ADDRESS +:+ "::lending::PlatformConfig")
      = Normal (Wrapped cfg) ->
    (forall i, (i < total_requests cfg)%nat ->
               getTableItem env (loan_requests_handle cfg) (pretty i) (value_type MODULE_ADDRESS)
                 = Normal (recs i)) ->
    let fetched := map recs (seq 0 (total_requests cfg)) in
    let '(st', log') := fetchRequests env MODULE_ADDRESS (Some acct) st log in
    requests st' = List.filter (keep (aa_address acct)) fetched /\
    (forall r, In r (requests st') <->
               In r fetched /\ lender r = aa_address acct /\ status r = 0) /\
    (exists ks, requests st' = map recs ks /\ StronglySorted lt ks /\
                Forall (fun k => (k < total_requests cfg)%nat) ks) /\
    loading st' = false /\ error st' = None /\
    log' = log ++ [EvGetResource MODULE_ADDRESS (MODULE_ADDRESS +:+ "::lending::PlatformConfig")]
               ++ map (EvGetTableItem (loan_requests_handle cfg))
                      (table_keys (total_requests cfg)).
Proof.
  intros acct cfg recs st log Hcfg Hrecs fetched.
  unfold fetchRequests. rewrite (fetch_all_spec cfg recs log Hcfg Hrecs).
  simpl. fold fetched.
  split; [reflexivity|]. split; [|split; [|by repeat split]].
  - intros r. rewrite filter_In. unfold keep.
    rewrite andb_true_iff, String.eqb_eq, Z.eqb_eq. tauto.
  - destruct (filter_seq_increasing recs (keep (aa_address acct)) 0 (total_requests cfg))
      as (ks & Heq & Hsorted & Hall).
    exists ks. split; [exact Heq|]. split; [exact Hsorted|].
    eapply Forall_impl; [exact Hall|]. simpl. lia.
Qed.

(** C2. The view is not produced.  [getAccountResource] of the imported
    client resolves to the fields of [PlatformConfig] themselves, and
    [fetchRequests] reads them through [platformConfig.data]: whatever the
    registry and the table hold, for every connected identity the read of
    [total_requests] throws inside the [try].  The ledger has been read
    once, no table item is requested, the displayed list stays as it was
    (empty on the first fetch) and the error message is shown instead of
    the lender's pending requests. *)
Theorem C2_pending_requests_view_is_not_produced :
  forall acct cfg st log,
    getAccountResource env MODULE_ADDRESS (MODULE_ADDRESS +:+ "::lending::PlatformConfig")
      = Normal (Bare cfg) ->
    let '(st', log') := fetchRequests env MODULE_ADDRESS (Some acct) st log in
    requests st' = requests st /\
    error st' = Some fetch_failed /\
    loading st' = false /\
    log' = log ++ [EvGetResource MODULE_ADDRESS (MODULE_ADDRESS +:+ "::lending::PlatformConfig");
                   EvConsoleError ""] /\
    (forall handle key, ~ In (EvGetTableItem handle key) log -> ~ In (EvGetTableItem handle key) log').
Proof.
  intros acct cfg st log Hcfg.
  unfold fetchRequests. rewrite (fetch_all_bare cfg log Hcfg).
  rewrite <- app_assoc. cbn [app].
  repeat split.
  intros handle key Hlog Hin. apply in_app_or in Hin as [Hin|Hin]; [done|].
  simpl in Hin. by destruct Hin as [Hin|[Hin|[]]].
Qed.

(** Without a connected identity the view does nothing at all. *)
Lemma fetchRequests_no_account st log :
  fetchRequests env MODULE_ADDRESS None st log = (st, log).
Proof. reflexivity. Qed.

(** A failed read leaves the displayed list as it was and sets the error. *)
Lemma fetchRequests_failure acct st log e log' :
  fetch_all env MODULE_ADDRESS log = (Throw e, log') ->
  let st' := fst (fetchRequests env MODULE_ADDRESS (Some acct) st log) in
  requests st' = requests st /\ error st' = Some fetch_failed /\ loading st' = false.
Proof. intros H. unfold fetchRequests. rewrite H. by simpl. Qed.

(** [fetchRequests] never touches the per-request action status. *)
Lemma fetchRequests_actionStatus acct st log :
  actionStatus (fst (fetchRequests env MODULE_ADDRESS acct st log)) = actionStatus st.
Proof.
  unfold fetchRequests. destruct acct as [a|]; [|done].
  by destruct (fetch_all env MODULE_ADDRESS log) as [[l|e] log'].
Qed.

End FetchRequests.

Lemma C2_pending_requests_view_is_not_produced_witness :
  let '(st', log') := Requests.fetchRequests Demo.healthy "0xmod" (Some Demo.lender2)
                        Demo.empty_list [] in
  Requests.requests st' = Requests.requests Demo.empty_list /\
  Requests.error st' = Some Requests.fetch_failed /\
  Requests.loading st' = false /\
  log' = [] ++ [EvGetResource "0xmod" ("0xmod" +:+ "::lending::PlatformConfig");
                EvConsoleError ""] /\
  (forall handle key, ~ In (EvGetTableItem handle key) [] -> ~ In (EvGetTableItem handle key) log').
Proof.
  apply (C2_pending_requests_view_is_not_produced Demo.healthy "0xmod" Demo.lender2
           (PlatformConfig 5 "0xhandle") Demo.empty_list []).
  reflexivity.
Defined.

(** The specification's example: ids 0..4, the identity of request 2's
    lender connected.  Requests 2 and 4 are pending and addressed to that
    lender (request 3 has the same lender but is no longer pending), and
    none is shown: the list stays empty and the error is set. *)
Example fetchRequests_five_requests :
  map request_id
      (List.filter (Requests.keep "0x1e2d")
         (map (fun i => match Demo.table (pretty i) with
                        | Normal r => r
                        | Throw _ => Demo.req i "" 9
                        end) (seq 0 5)))
    = ["2"; "4"] /\
  Requests.fetchRequests Demo.healthy "0xmod" (Some Demo.lender2) Demo.empty_list [] =
    (Requests.ListState [] false (Some Requests.fetch_failed) ∅ ∅,
     [EvGetResource "0xmod" "0xmod::lending::PlatformConfig"; EvConsoleError ""]).
Proof. vm_compute. split; reflexivity. Qed.

(** The same ledger behind a client that wraps the resource: requests 2
    and 4 are shown, in that order. *)
Example fetchRequests_five_requests_wrapped :
  map request_id (Requests.requests
      (fst (Requests.fetchRequests Demo.wrapping "0xmod" (Some Demo.lender2) Demo.empty_list [])))
    = ["2"; "4"].
Proof. vm_compute. reflexivity. Qed.

(** ** C9: per-request action status *)

Section ActionStatus.
Import Requests.

Variable env : ledger.
Variable MODULE_ADDRESS : string.
Variable acct : option adapter_account.

Lemma handleApprove_begin_frame r1 r2 now st :
  r1 <> r2 ->
  actionStatus (fst (handleApprove_begin MODULE_ADDRESS acct r1 now st)) !! r2
    = actionStatus st !! r2.
Proof.
  intros Hne. unfold handleApprove_begin.
  destruct acct as [a|]; [|done].
  destruct (approval_file_chosen st r1); simpl; by rewrite lookup_insert_ne.
Qed.

Lemma handleApprove_settle_frame r1 r2 outcome st log :
  r1 <> r2 ->
  actionStatus (fst (handleApprove_settle env MODULE_ADDRESS acct r1 outcome st log)) !! r2
    = actionStatus st !! r2.
Proof.
  intros Hne. unfold handleApprove_settle. destruct outcome as [u|e].
  - rewrite fetchRequests_actionStatus. simpl. by rewrite lookup_insert_ne.
  - simpl. by rewrite lookup_insert_ne.
Qed.

Lemma handleApprove_settle_own r1 outcome st log :
  actionStatus (fst (handleApprove_settle env MODULE_ADDRESS acct r1 outcome st log)) !! r1
    = Some (settled_entry outcome).
Proof.
  unfold handleApprove_settle. destruct outcome as [u|e].
  - rewrite fetchRequests_actionStatus. simpl. by rewrite lookup_insert_eq.
  - simpl. by rewrite lookup_insert_eq.
Qed.

(** C9. For distinct request ids [r1] and [r2], the resolution of an approve
    action on [r1], successful or failed, writes the entry keyed by [r1]
    (not loading, with the failure's reason if it failed) and leaves the
    entry of [r2] as it was; so do the start of the action on [r1] and a
    whole uninterrupted run of it.  A failure on [r1] therefore never shows
    up in the status of [r2]. *)
Theorem C9_approve_touches_only_its_own_status :
  forall r1 r2 now outcome st log,
    r1 <> r2 ->
    (actionStatus (fst (handleApprove_settle env MODULE_ADDRESS acct r1 outcome st log)) !! r1
       = Some (settled_entry outcome) /\
     actionStatus (fst (handleApprove_settle env MODULE_ADDRESS acct r1 outcome st log)) !! r2
       = actionStatus st !! r2) /\
    actionStatus (fst (handleApprove_begin MODULE_ADDRESS acct r1 now st)) !! r2
      = actionStatus st !! r2 /\
    actionStatus (fst (handleApprove env MODULE_ADDRESS acct r1 now st log)) !! r2
      = actionStatus st !! r2.
Proof.
  intros r1 r2 now outcome st log Hne. repeat split.
  - apply handleApprove_settle_own.
  - by apply handleApprove_settle_frame.
  - by apply handleApprove_begin_frame.
  - unfold handleApprove.
    pose proof (handleApprove_begin_frame r1 r2 now st Hne) as Hb.
    destruct (handleApprove_begin MODULE_ADDRESS acct r1 now st) as [st1 [t|]]; [|exact Hb].
    destruct (approve_submit env t log) as [outcome' log1].
    rewrite handleApprove_settle_frame by done. exact Hb.
Qed.

(** Any interleaving of starts and resolutions of approve actions leaves
    the entries of the request ids it does not mention untouched. *)
Lemma run_steps_frame steps r2 c :
  Forall (fun s => step_id s <> r2) steps ->
  actionStatus (fst (run_steps env MODULE_ADDRESS acct steps c)) !! r2
    = actionStatus (fst c) !! r2.
Proof.
  unfold run_steps. revert c.
  induction steps as [|s steps IH]; intros c Hall; [done|].
  inversion Hall as [|? ? Hs Hrest]; subst. simpl. rewrite IH by done.
  destruct s as [r now|r outcome]; simpl in *.
  - by apply handleApprove_begin_frame.
  - by apply handleApprove_settle_frame.
Qed.

End ActionStatus.

Lemma C9_approve_touches_only_its_own_status_witness :
  let st := fst (Requests.handleApprove_begin "0xmod" (Some Demo.lender2) "2" 1700000000000
                   Demo.two_files) in
  let boom := Throw (Error "Error" (Some "User rejected the request")) in
  (Requests.actionStatus
     (fst (Requests.handleApprove_settle Demo.healthy "0xmod" (Some Demo.lender2) "1" boom st []))
     !! "1" = Some (Requests.settled_entry boom) /\
   Requests.actionStatus
     (fst (Requests.handleApprove_settle Demo.healthy "0xmod" (Some Demo.lender2) "1" boom st []))
     !! "2" = Requests.actionStatus st !! "2") /\
  Requests.actionStatus
    (fst (Requests.handleApprove_begin "0xmod" (Some Demo.lender2) "1" 1700000000001 st)) !! "2"
    = Requests.actionStatus st !! "2" /\
  Requests.actionStatus
    (fst (Requests.handleApprove Demo.healthy "0xmod" (Some Demo.lender2) "1" 1700000000001 st []))
    !! "2" = Requests.actionStatus st !! "2".
Proof.
  intros st boom.
  apply (C9_approve_touches_only_its_own_status Demo.healthy "0xmod" (Some Demo.lender2)
           "1" "2" 1700000000001 boom st []).
  discriminate.
Defined.

(** Two approvals in flight at once: request 1 fails, request 2 succeeds.
    Whatever the order of the two resolutions, request 1 ends with the
    error and request 2 ends clean. *)
Example concurrent_approvals_resolve_independently :
  let boom := Throw (Error "Error" (Some "User rejected the request")) in
  let run steps := Requests.actionStatus
                     (fst (Requests.run_steps Demo.healthy "0xmod" (Some Demo.lender2) steps
                             (Demo.two_files, []))) in
  let s1 := run [Requests.Begin "1" 1; Requests.Begin "2" 2;
                 Requests.Settle "1" boom; Requests.Settle "2" (Normal tt)] in
  let s2 := run [Requests.Begin "1" 1; Requests.Begin "2" 2;
                 Requests.Settle "2" (Normal tt); Requests.Settle "1" boom] in
  s1 !! "1" = Some (Requests.ActionEntry false (Some "User rejected the request")) /\
  s1 !! "2" = Some (Requests.ActionEntry false None) /\
  s2 !! "1" = s1 !! "1" /\ s2 !! "2" = s1 !! "2".
Proof. vm_compute. repeat split. Qed.

(** ** Binary64 rounding: products do not lose their sign *)

Lemma shr_1_m r : 0 <= shr_m r -> shr_m (shr_1 r) = shr_m r / 2 /\ 0 <= shr_m (shr_1 r).
Proof.
  destruct r as [m rb sb]. cbn [shr_m]. intros Hm.
  destruct m as [|p|p]; [split; [reflexivity|cbn; lia]| |lia].
  destruct p as [p|p|]; cbn [shr_1 shr_m]; split; try lia.
  - rewrite Pos2Z.inj_xI. apply Z.div_unique with (r := 1); lia.
  - rewrite Pos2Z.inj_xO. apply Z.div_unique with (r := 0); lia.
  - reflexivity.
Qed.

Lemma iter_pos_shr_1 n r :
  0 <= shr_m r ->
  shr_m (SpecFloat.iter_pos shr_1 n r) = shr_m r / 2 ^ Zpos n /\ 0 <= shr_m (SpecFloat.iter_pos shr_1 n r).
Proof.
  revert r. induction n as [n IH|n IH|]; intros r Hr; cbn [SpecFloat.iter_pos].
  - destruct (shr_1_m r Hr) as [E1 P1].
    destruct (IH _ P1) as [E2 P2]. destruct (IH _ P2) as [E3 P3].
    split; [|done]. rewrite E3, E2, E1.
    rewrite !Z.div_div by (try apply Z.pow_pos_nonneg; lia).
    f_equal. rewrite (Pos2Z.inj_xI n).
    replace (2 * Z.pos n + 1) with (1 + Z.pos n + Z.pos n) by lia.
    rewrite (Z.pow_add_r 2 (1 + Z.pos n) (Z.pos n)), (Z.pow_add_r 2 1 (Z.pos n)) by lia. lia.
  - destruct (IH _ Hr) as [E2 P2]. destruct (IH _ P2) as [E3 P3].
    split; [|done]. rewrite E3, E2.
    rewrite !Z.div_div by (try apply Z.pow_pos_nonneg; lia).
    f_equal. rewrite (Pos2Z.inj_xO n).
    replace (2 * Z.pos n) with (Z.pos n + Z.pos n) by lia.
    rewrite (Z.pow_add_r 2 (Z.pos n) (Z.pos n)) by lia. lia.
  - apply shr_1_m. done.
Qed.

Lemma digits2_pos_lower p : 2 ^ (Zpos (digits2_pos p) - 1) <= Zpos p.
Proof.
  induction p as [p IH|p IH|]; cbn [digits2_pos]; [| |cbn; lia].
  - rewrite Pos2Z.inj_succ, (Pos2Z.inj_xI p).
    replace (Z.succ (Z.pos (digits2_pos p)) - 1) with (1 + (Z.pos (digits2_pos p) - 1)) by lia.
    rewrite Z.pow_add_r by lia. lia.
  - rewrite Pos2Z.inj_succ, (Pos2Z.inj_xO p).
    replace (Z.succ (Z.pos (digits2_pos p)) - 1) with (1 + (Z.pos (digits2_pos p) - 1)) by lia.
    rewrite Z.pow_add_r by lia. lia.
Qed.

Section Rounding.
Variables prec emax : Z.

(** The mantissa and exponent after [shr_fexp]: the mantissa is shifted
    right by [n = fexp (digits m + e) - e] bits when [n] is positive. *)
Lemma shr_fexp_spec m e l :
  0 <= m ->
  let n := fexp prec emax (Zdigits2 m + e) - e in
  (n <= 0 /\ shr_m (fst (shr_fexp prec emax m e l)) = m \/
   0 < n /\ shr_m (fst (shr_fexp prec emax m e l)) = m / 2 ^ n) /\
  snd (shr_fexp prec emax m e l) = Z.max e (fexp prec emax (Zdigits2 m + e)).
Proof.
  intros Hm n. unfold shr_fexp. fold n.
  assert (Hrec : shr_m (shr_record_of_loc m l) = m) by (by destruct l as [|[]]).
  destruct n as [|p|p] eqn:Hn; cbn [shr fst snd].
  - split; [left; split; [lia|done]|lia].
  - destruct (iter_pos_shr_1 p (shr_record_of_loc m l)) as [E _]; [by rewrite Hrec|].
    rewrite E, Hrec. split; [right; split; [lia|done]|lia].
  - split; [left; split; [lia|done]|lia].
Qed.

Lemma round_nearest_even_ge m l : m <= round_nearest_even m l.
Proof. destruct l as [|[]]; cbn; try lia. destruct (Z.even m); lia. Qed.

Lemma Zdigits2_pos_lower m : 0 < m -> 2 ^ (Zdigits2 m - 1) <= m.
Proof. destruct m as [|p|p]; try lia. intros _. apply digits2_pos_lower. Qed.

(** Rounding a positive mantissa does not underflow to zero as long as the
    shift down to the least exponent leaves a bit; the result is finite or
    infinite, with the sign [sx]. *)
Lemma binary_round_aux_sign sx mx ex lx :
  0 < prec ->
  0 < mx ->
  2 ^ (emin prec emax - ex) <= mx ->
  (exists m e, binary_round_aux prec emax sx mx ex lx = S754_finite sx m e) \/
  binary_round_aux prec emax sx mx ex lx = S754_infinity sx.
Proof.
  intros Hprec Hmx Hbig. unfold binary_round_aux.
  destruct (shr_fexp_spec mx ex lx ltac:(lia)) as [Hm1 He1].
  destruct (shr_fexp prec emax mx ex lx) as [mrs' e'] eqn:H1. cbn [fst snd] in Hm1, He1.
  assert (Hpos1 : 0 < shr_m mrs').
  { destruct Hm1 as [[_ ->]|[Hn ->]]; [done|].
    apply Z.div_str_pos. split; [apply Z.pow_pos_nonneg; lia|].
    unfold fexp in *.
    destruct (Z.max_spec (Zdigits2 mx + ex - prec) (emin prec emax)) as [[_ ->]|[_ ->]].
    - exact Hbig.
    - etransitivity; [|apply (Zdigits2_pos_lower mx Hmx)].
      apply Z.pow_le_mono_r; lia. }
  pose proof (round_nearest_even_ge (shr_m mrs') (loc_of_shr_record mrs')) as Hge.
  remember (round_nearest_even (shr_m mrs') (loc_of_shr_record mrs')) as m2 eqn:Hm2def.
  destruct (shr_fexp_spec m2 e' loc_Exact ltac:(lia)) as [Hm2 He2].
  destruct (shr_fexp prec emax m2 e' loc_Exact) as [mrs'' e''] eqn:H2. cbn [fst snd] in Hm2, He2.
  assert (Hpos3 : 0 < shr_m mrs'').
  { destruct Hm2 as [[_ ->]|[Hn ->]]; [lia|].
    apply Z.div_str_pos. split; [apply Z.pow_pos_nonneg; lia|].
    etransitivity; [|apply (Zdigits2_pos_lower m2 ltac:(lia))].
    apply Z.pow_le_mono_r; [lia|]. unfold fexp in *. lia. }
  destruct (shr_m mrs'') as [|m|m]; [lia| |lia].
  destruct (e'' <=? emax - prec); [left; eauto|right; done].
Qed.
End Rounding.

(** ** The amount codec on binary64 numbers *)

Lemma BigInt_number_of_int s k : BigInt (number_of_int s k) = Some k.
Proof. destruct k as [|p|p]; cbn; [done| |]; f_equal; lia. Qed.

(** [BigInt(Math.floor(x))] of a finite number is its integer floor. *)
Lemma BigInt_Math_floor s m e :
  BigInt (Math_floor (S754_finite s m e)) = Some (floorZ s m e).
Proof.
  unfold Math_floor, floorZ. destruct (0 <=? e) eqn:He.
  - cbn [BigInt]. by rewrite He.
  - apply BigInt_number_of_int.
Qed.

(** [floorZ] is the floor: the greatest integer not above [+-m * 2^e]. *)
Lemma floorZ_spec s m e :
  e < 0 ->
  floorZ s m e * 2 ^ (- e) <= cond_Zopp s (Zpos m) < (floorZ s m e + 1) * 2 ^ (- e).
Proof.
  intros He. unfold floorZ. destruct (0 <=? e) eqn:Hle; [lia|].
  assert (Hp : 0 < 2 ^ (- e)) by (apply Z.pow_pos_nonneg; lia).
  pose proof (Z.div_mod (cond_Zopp s (Z.pos m)) (2 ^ (- e)) ltac:(lia)) as Hdm.
  pose proof (Z.mod_pos_bound (cond_Zopp s (Z.pos m)) (2 ^ (- e)) Hp) as Hb.
  nia.
Qed.

Lemma floorZ_negative m e : floorZ true m e < 0.
Proof.
  unfold floorZ. cbn [cond_Zopp]. destruct (0 <=? e) eqn:He.
  - apply Z.leb_le in He. pose proof (Z.pow_pos_nonneg 2 e ltac:(lia) He). nia.
  - apply Z.leb_gt in He. apply Z.div_lt_upper_bound; [apply Z.pow_pos_nonneg; lia|lia].
Qed.

Lemma floorZ_nonnegative m e : 0 <= floorZ false m e.
Proof.
  unfold floorZ. cbn [cond_Zopp]. destruct (0 <=? e) eqn:He.
  - apply Z.leb_le in He. pose proof (Z.pow_pos_nonneg 2 e ltac:(lia) He). nia.
  - apply Z.leb_gt in He. apply Z.div_pos; [lia|apply Z.pow_pos_nonneg; lia].
Qed.

(** What [parseUsdc] computes: the floor of the binary64 product
    [amount * 1e6] when that product is finite, a RangeError when it is an
    infinity or NaN. *)
Lemma parseUsdc_finite_product a s m e :
  mul a lit_1e6 = S754_finite s m e -> parseUsdc a = Some (floorZ s m e).
Proof. intros H. unfold parseUsdc. rewrite H. apply BigInt_Math_floor. Qed.

Lemma parseUsdc_zero_product a s :
  mul a lit_1e6 = S754_zero s -> parseUsdc a = Some 0.
Proof. intros H. unfold parseUsdc. by rewrite H. Qed.

Lemma parseUsdc_overflow a s :
  mul a lit_1e6 = S754_infinity s -> parseUsdc a = None.
Proof. intros H. unfold parseUsdc. by rewrite H. Qed.

(** The exponent of a double is at least -1074. *)
Lemma is_double_exponent s m e : is_double (S754_finite s m e) = true -> -1074 <= e.
Proof.
  unfold is_double, valid_binary, bounded, canonical_mantissa, fexp, emin, prec, emax.
  intros H. apply andb_prop in H as [H _]. apply Z.eqb_eq in H. lia.
Qed.

(** A negative double times [1e6] is a negative double or minus infinity:
    the product never underflows to zero. *)
Lemma mul_1e6_negative m e :
  is_double (S754_finite true m e) = true ->
  (exists m' e', mul (S754_finite true m e) lit_1e6 = S754_finite true m' e') \/
  mul (S754_finite true m e) lit_1e6 = S754_infinity true.
Proof.
  intros Hd. apply is_double_exponent in Hd.
  unfold mul, lit_1e6. cbn [SFmul xorb].
  apply binary_round_aux_sign; [done|done|].
  unfold emin, prec, emax.
  transitivity (2 ^ 33); [apply Z.pow_le_mono_r; lia|].
  rewrite Pos2Z.inj_mul. change (2 ^ 33) with 8589934592. nia.
Qed.

Lemma pretty_negative k : k < 0 -> exists digits, bigint_toString k = "-" +:+ digits.
Proof. destruct k as [|p|p]; try lia. intros _. by eexists. Qed.

(** ** C1 and C8: amounts with at most six fractional digits *)

(** The round trip the specification singles out does hold. *)
Example round_trip_123_456789 :
  parseUsdc (decimal 123456789 6) = Some 123456789 /\
  formatUsdc 123456789 = decimal 123456789 6 /\
  num_eq (formatUsdc 123456789) (decimal 123456789 6) = true.
Proof. vm_compute. repeat split. Qed.

(** [8.2 * 1e6] in binary64 is 8804682956799999 * 2^-30, just below
    8200000 (which is 8804682956800000 * 2^-30). *)
Example product_8_2 :
  mul (decimal 82 1) lit_1e6 = S754_finite false 8804682956799999 (-30) /\
  8200000 * 2 ^ 30 = 8804682956800000.
Proof. vm_compute. split; reflexivity. Qed.

(** C1 (the code at a failing input). The amount 8.2 has one fractional
    digit; [parseUsdc] maps it to 8199999 atomic units, and [formatUsdc]
    maps those to 8.199999, which is not the 8.2 that went in.  The
    specification's own example, 123.456789, does make the round trip
    ([round_trip_123_456789]). *)
Theorem C1_round_trip_fails_at_8_2 :
  decimal 82 1 = decimal 8200000 6 /\
  parseUsdc (decimal 82 1) = Some 8199999 /\
  formatUsdc 8199999 = decimal 8199999 6 /\
  num_eq (formatUsdc 8199999) (decimal 82 1) = false.
Proof. vm_compute. repeat split. Qed.

(** The amounts below 0.001 that do not survive the round trip. *)
Example round_trip_failures_below_one_thousandth :
  List.filter
    (fun n => match parseUsdc (decimal (Z.of_nat n) 6) with
              | Some u => negb (num_eq (formatUsdc u) (decimal (Z.of_nat n) 6))
              | None => true
              end)
    (seq 0 1000)
  = [249; 251; 489; 493; 498; 502; 507; 511; 978; 983; 986; 991; 996]%nat.
Proof. vm_compute. reflexivity. Qed.

(** C8 (the code at failing inputs). [parseUsdc] takes the floor of the
    binary64 product, which is not always the floor of [a * 10^6]:
    - for the amount 8.2 it returns 8199999, while the floor of
      8.2 * 10^6 = 82 * 10^6 / 10 is 8200000;
    - the double nearest to 0.3 is 5404319552844595 * 2^-54, whose exact
      product with 10^6 has floor 299999, and [parseUsdc] returns 300000:
      the product was rounded up before the floor was taken.
    [formatUsdc] does return the double nearest to [u / 10^6]. *)
Theorem C8_parseUsdc_is_not_the_exact_floor :
  (parseUsdc (decimal 82 1) = Some 8199999 /\ 82 * 10 ^ 6 / 10 = 8200000) /\
  (decimal 3 1 = S754_finite false 5404319552844595 (-54) /\
   parseUsdc (decimal 3 1) = Some 300000 /\
   5404319552844595 * 10 ^ 6 / 2 ^ 54 = 299999) /\
  formatUsdc 8200000 = decimal 8200000 6.
Proof. vm_compute. repeat split. Qed.

(** What the code does guarantee: the result is the floor of the binary64
    product, never above it. *)
Lemma parseUsdc_is_floor_of_binary64_product a s m e :
  mul a lit_1e6 = S754_finite s m e ->
  exists k, parseUsdc a = Some k /\
            (0 <= e -> k = cond_Zopp s (Zpos m) * 2 ^ e) /\
            (e < 0 -> k * 2 ^ (- e) <= cond_Zopp s (Zpos m) < (k + 1) * 2 ^ (- e)).
Proof.
  intros H. exists (floorZ s m e). split; [by apply parseUsdc_finite_product|]. split.
  - intros He. unfold floorZ. by rewrite (proj2 (Z.leb_le 0 e) He).
  - apply floorZ_spec.
Qed.

(** A product too large for binary64 makes [parseUsdc] throw. *)
Example parseUsdc_throws_on_overflow :
  mul (decimal (10 ^ 303) 0) lit_1e6 = S754_infinity false /\
  parseUsdc (decimal (10 ^ 303) 0) = None.
Proof. vm_compute. split; reflexivity. Qed.

(** ** C6: negative amounts *)

(** C6, as stated, fails: for the amount -1.5 [parseUsdc] neither throws nor
    clamps, it returns -1500000; [createLoanOffer] then builds the payload
    with the argument "-1500000" and submits it. *)
Lemma C6_negative_amount_reaches_the_payload :
  parseUsdc (decimal (-15) 1) = Some (-1500000) /\
  let '(r, log) := Hook.createLoanOffer Demo.healthy Demo.connected
                     (decimal (-15) 1) lit_100 lit_100 lit_100 [] in
  r = Normal (TxSuccess "0xh1" (TxResponse "42")) /\
  head log = Some (EvPayloadBuilt
                     (createEntryFunctionPayload "create_offer" [USDC_COIN]
                        [ArgString "-1500000"; ArgNumber lit_100; ArgNumber lit_100;
                         ArgNumber lit_100])) /\
  map is_network_call log = [false; true; true; true; true].
Proof. vm_compute. repeat split. Qed.

(** C6, amended. For every negative double [a] whose product with [1e6]
    does not overflow, [parseUsdc a] returns a negative integer, the floor
    of the binary64 product; its decimal string starts with a minus sign,
    and a connected [createLoanOffer] or [repayLoan] builds its payload
    with that string and hands it to [submitTransaction].  So does a
    connected [requestLoan], with [a] as the loan amount or as the
    collateral, whenever the other amount converts too, whatever its value;
    when the other amount does not convert, [requestLoan] throws the
    RangeError of the conversion and builds no payload. *)
Theorem C6_negative_amounts_are_converted_and_submitted :
  forall env acc m e log,
    let a := S754_finite true m e in
    let ctx := Hook.WalletContext (Some acc) true in
    is_double a = true ->
    mul a lit_1e6 <> S754_infinity true ->
    exists k digits,
      parseUsdc a = Some k /\ k < 0 /\
      (exists m' e', mul a lit_1e6 = S754_finite true m' e' /\ k = floorZ true m' e') /\
      bigint_toString k = "-" +:+ digits /\
      (forall rate duration ratio,
          let p := createEntryFunctionPayload "create_offer" [USDC_COIN]
                     [ArgString ("-" +:+ digits); ArgNumber rate; ArgNumber duration;
                      ArgNumber ratio] in
          Hook.createLoanOffer env ctx a rate duration ratio log =
            submitTransaction env acc p (log ++ [EvPayloadBuilt p])) /\
      (forall offerId collateralAmount kc,
          parseUsdc collateralAmount = Some kc ->
          let p := createEntryFunctionPayload "request_loan" [USDC_COIN]
                     [ArgString offerId; ArgString ("-" +:+ digits);
                      ArgString (bigint_toString kc)] in
          Hook.requestLoan env ctx offerId a collateralAmount log =
            submitTransaction env acc p (log ++ [EvPayloadBuilt p])) /\
      (forall offerId amount ka,
          parseUsdc amount = Some ka ->
          let p := createEntryFunctionPayload "request_loan" [USDC_COIN]
                     [ArgString offerId; ArgString (bigint_toString ka);
                      ArgString ("-" +:+ digits)] in
          Hook.requestLoan env ctx offerId amount a log =
            submitTransaction env acc p (log ++ [EvPayloadBuilt p])) /\
      (forall offerId other,
          parseUsdc other = None ->
          Hook.requestLoan env ctx offerId a other log = (Throw range_error, log) /\
          Hook.requestLoan env ctx offerId other a log = (Throw range_error, log)) /\
      (forall loanId,
          let p := createEntryFunctionPayload "repay_loan" [USDC_COIN]
                     [ArgString loanId; ArgString ("-" +:+ digits)] in
          Hook.repayLoan env ctx loanId a log =
            submitTransaction env acc p (log ++ [EvPayloadBuilt p])).
Proof.
  intros env acc m e log a ctx Hd Hfin.
  destruct (mul_1e6_negative m e Hd) as [(m' & e' & Hmul)|Hinf]; [|done].
  pose proof (parseUsdc_finite_product a true m' e' Hmul) as Hparse.
  pose proof (floorZ_negative m' e') as Hneg.
  destruct (pretty_negative _ Hneg) as [digits Hstr].
  exists (floorZ true m' e'), digits.
  split; [done|]. split; [done|]. split; [by exists m', e'|]. split; [done|].
  split; [|split; [|split; [|split]]].
  - intros rate duration ratio p.
    unfold Hook.createLoanOffer, bind, ctx. rewrite ensureConnected_connected.
    unfold Hook.parseUsdc_or_throw. rewrite Hparse.
    unfold ret, Hook.build_payload, bind, emit, ret. by rewrite Hstr.
  - intros offerId collateralAmount kc Hc p.
    unfold Hook.requestLoan, bind, ctx. rewrite ensureConnected_connected.
    unfold Hook.parseUsdc_or_throw. rewrite Hparse, Hc.
    unfold ret, Hook.build_payload, bind, emit, ret. by rewrite Hstr.
  - intros offerId amount ka Ha p.
    unfold Hook.requestLoan, bind, ctx. rewrite ensureConnected_connected.
    unfold Hook.parseUsdc_or_throw. rewrite Hparse, Ha.
    unfold ret, Hook.build_payload, bind, emit, ret. by rewrite Hstr.
  - intros offerId other Hnone.
    unfold Hook.requestLoan, bind, ctx. rewrite ensureConnected_connected.
    unfold Hook.parseUsdc_or_throw. by rewrite Hparse, Hnone.
  - intros loanId p.
    unfold Hook.repayLoan, bind, ctx. rewrite ensureConnected_connected.
    unfold Hook.parseUsdc_or_throw. rewrite Hparse.
    unfold ret, Hook.build_payload, bind, emit, ret. by rewrite Hstr.
Qed.

Lemma C6_negative_amounts_are_converted_and_submitted_witness :
  exists k digits,
    parseUsdc (S754_finite true 6755399441055744 (-52)) = Some k /\ k < 0 /\
    (exists m' e', mul (S754_finite true 6755399441055744 (-52)) lit_1e6 = S754_finite true m' e'
                   /\ k = floorZ true m' e') /\
    bigint_toString k = "-" +:+ digits /\
    (forall rate duration ratio,
        let p := createEntryFunctionPayload "create_offer" [USDC_COIN]
                   [ArgString ("-" +:+ digits); ArgNumber rate; ArgNumber duration;
                    ArgNumber ratio] in
        Hook.createLoanOffer Demo.healthy (Hook.WalletContext (Some Demo.alice) true)
          (S754_finite true 6755399441055744 (-52)) rate duration ratio [] =
          submitTransaction Demo.healthy Demo.alice p ([] ++ [EvPayloadBuilt p])) /\
    (forall offerId collateralAmount kc,
        parseUsdc collateralAmount = Some kc ->
        let p := createEntryFunctionPayload "request_loan" [USDC_COIN]
                   [ArgString offerId; ArgString ("-" +:+ digits);
                    ArgString (bigint_toString kc)] in
        Hook.requestLoan Demo.healthy (Hook.WalletContext (Some Demo.alice) true) offerId
          (S754_finite true 6755399441055744 (-52)) collateralAmount [] =
          submitTransaction Demo.healthy Demo.alice p ([] ++ [EvPayloadBuilt p])) /\
    (forall offerId amount ka,
        parseUsdc amount = Some ka ->
        let p := createEntryFunctionPayload "request_loan" [USDC_COIN]
                   [ArgString offerId; ArgString (bigint_toString ka);
                    ArgString ("-" +:+ digits)] in
        Hook.requestLoan Demo.healthy (Hook.WalletContext (Some Demo.alice) true) offerId
          amount (S754_finite true 6755399441055744 (-52)) [] =
          submitTransaction Demo.healthy Demo.alice p ([] ++ [EvPayloadBuilt p])) /\
    (forall offerId other,
        parseUsdc other = None ->
        Hook.requestLoan Demo.healthy (Hook.WalletContext (Some Demo.alice) true) offerId
          (S754_finite true 6755399441055744 (-52)) other [] = (Throw range_error, []) /\
        Hook.requestLoan Demo.healthy (Hook.WalletContext (Some Demo.alice) true) offerId
          other (S754_finite true 6755399441055744 (-52)) [] = (Throw range_error, [])) /\
    (forall loanId,
        let p := createEntryFunctionPayload "repay_loan" [USDC_COIN]
                   [ArgString loanId; ArgString ("-" +:+ digits)] in
        Hook.repayLoan Demo.healthy (Hook.WalletContext (Some Demo.alice) true) loanId
          (S754_finite true 6755399441055744 (-52)) [] =
          submitTransaction Demo.healthy Demo.alice p ([] ++ [EvPayloadBuilt p])).
Proof.
  apply (C6_negative_amounts_are_converted_and_submitted Demo.healthy Demo.alice
           6755399441055744 (-52) []).
  - reflexivity.
  - vm_compute. discriminate.
Defined.

(** -1.5 is the double -6755399441055744 * 2^-52. *)
Example minus_1_5 : decimal (-15) 1 = S754_finite true 6755399441055744 (-52).
Proof. vm_compute. reflexivity. Qed.

(** [requestLoan] with the amount -1.5: against a collateral of 20 the
    payload carries "-1500000" and "20000000" and is submitted; against a
    collateral that is not a number nothing is built. *)
Example requestLoan_negative_amount :
  (let '(r, log) := Hook.requestLoan Demo.healthy Demo.connected "7"
                      (decimal (-15) 1) (decimal 20 0) [] in
   r = Normal (TxSuccess "0xh1" (TxResponse "42")) /\
   head log = Some (EvPayloadBuilt
                      (createEntryFunctionPayload "request_loan" [USDC_COIN]
                         [ArgString "7"; ArgString "-1500000"; ArgString "20000000"])) /\
   map is_network_call log = [false; true; true; true; true]) /\
  Hook.requestLoan Demo.healthy Demo.connected "7" (decimal (-15) 1) S754_nan [] =
    (Throw range_error, []).
Proof. vm_compute. repeat split. Qed.

(** ** C5: calls of connect and disconnect that overlap *)

(** C5, as stated, fails: while a first [connect] is in flight, a second
    [connect] is not suppressed: it changes the state and reaches the wallet
    adapter, and so does a [disconnect]; and when the first call settles it
    clears [isConnecting] although the second is still in flight. *)
Lemma C5_overlapping_connect_is_not_suppressed :
  let s1 := Wallet.step Wallet.initial (Wallet.CallConnect "Petra") in
  let s2 := Wallet.step s1 (Wallet.CallConnect "Martian") in
  let s3 := Wallet.step s1 Wallet.CallDisconnect in
  let s4 := Wallet.step s2 (Wallet.Settled 0 (Normal tt)) in
  Wallet.busy s1 = true /\
  s2 <> s1 /\
  Wallet.adapter_calls s2 = [Wallet.AdapterConnect "Petra"; Wallet.AdapterConnect "Martian"] /\
  s3 <> s1 /\
  Wallet.adapter_calls s3 = [Wallet.AdapterConnect "Petra"; Wallet.AdapterDisconnect] /\
  Wallet.busy s4 = true /\ Wallet.isConnecting s4 = false.
Proof. vm_compute. repeat split; discriminate. Qed.

(** C5, amended. [connect] and [disconnect] never look at the state before
    acting: whether or not another call is in flight, each sets
    [isConnecting], forwards its call to the wallet adapter and is then in
    flight itself; when a call settles, successfully or not, [isConnecting]
    is cleared and the other calls stay in flight. *)
Theorem C5_connect_and_disconnect_are_always_forwarded :
  forall s,
    (forall walletName,
        let s' := Wallet.step s (Wallet.CallConnect walletName) in
        Wallet.adapter_calls s' = Wallet.adapter_calls s ++ [Wallet.AdapterConnect walletName] /\
        Wallet.in_flight s' = Wallet.in_flight s ++ [Wallet.AdapterConnect walletName] /\
        Wallet.isConnecting s' = true) /\
    (let s' := Wallet.step s Wallet.CallDisconnect in
     Wallet.adapter_calls s' = Wallet.adapter_calls s ++ [Wallet.AdapterDisconnect] /\
     Wallet.in_flight s' = Wallet.in_flight s ++ [Wallet.AdapterDisconnect] /\
     Wallet.isConnecting s' = true) /\
    (forall i outcome,
        is_Some (Wallet.in_flight s !! i) ->
        let s' := Wallet.step s (Wallet.Settled i outcome) in
        Wallet.isConnecting s' = false /\
        Wallet.in_flight s' = Wallet.remove_nth i (Wallet.in_flight s) /\
        Wallet.adapter_calls s' = Wallet.adapter_calls s).
Proof.
  intros s. split; [|split].
  - intros walletName. by cbn.
  - by cbn.
  - intros i outcome [op Hop]. cbn [Wallet.step].
    replace (nth_error (Wallet.in_flight s) i) with (Some op).
    + by destruct outcome.
    + symmetry. revert i Hop. generalize (Wallet.in_flight s).
      induction l as [|x l IH]; intros [|i] Hop; try done. by apply IH.
Qed.

Lemma C5_connect_and_disconnect_are_always_forwarded_witness :
  let s := Wallet.step Wallet.initial (Wallet.CallConnect "Petra") in
  let s' := Wallet.step s (Wallet.Settled 0 (Throw (Error "Error" (Some "User rejected")))) in
  Wallet.isConnecting s' = false /\
  Wallet.in_flight s' = Wallet.remove_nth 0 (Wallet.in_flight s) /\
  Wallet.adapter_calls s' = Wallet.adapter_calls s.
Proof.
  intros s.
  apply (C5_connect_and_disconnect_are_always_forwarded s).
  by eexists.
Defined.

(* ===================================================================== *)
(** * Further properties of the code *)
(* ===================================================================== *)

(** ** config.ts: the order of the stages of a submission *)

(** X1. [submitTransaction] calls the stages in the order build, sign, submit,
    wait, each at most once; the first stage that throws is the last call
    made (no later stage, no retry), followed by one [console.error]. *)
Theorem submitTransaction_stops_at_first_failure :
  forall env sender p log,
    let trace := snd (submitTransaction env sender p log) in
    let b := EvBuild (accountAddress sender) p in
    let failed := EvConsoleError "Transaction failed:" in
    match build_simple env (accountAddress sender) p with
    | Throw _ => trace = log ++ [b; failed]
    | Normal raw =>
        match sign env sender raw with
        | Throw _ => trace = log ++ [b; EvSign raw; failed]
        | Normal auth =>
            match submit_simple env raw auth with
            | Throw _ => trace = log ++ [b; EvSign raw; EvSubmit raw; failed]
            | Normal pend =>
                match waitForTransaction env (hash pend) with
                | Throw _ =>
                    trace = log ++ [b; EvSign raw; EvSubmit raw; EvWait (hash pend); failed]
                | Normal _ =>
                    trace = log ++ [b; EvSign raw; EvSubmit raw; EvWait (hash pend)]
                end
            end
        end
    end.
Proof.
  intros env sender p log. cbv zeta.
  unfold submitTransaction, try_catch, submit_body.
  destruct (build_simple env (accountAddress sender) p) as [raw|e] eqn:Hb.
  2:{ rewrite (call_throw _ _ e) by done. cbn. by rewrite <- app_assoc. }
  rewrite (call_normal _ _ raw) by done.
  destruct (sign env sender raw) as [auth|e] eqn:Hs.
  2:{ rewrite (call_throw _ _ e) by done. cbn. by rewrite <- !app_assoc. }
  rewrite (call_normal _ _ auth) by done.
  destruct (submit_simple env raw auth) as [pend|e] eqn:Hsub.
  2:{ rewrite (call_throw _ _ e) by done. cbn. by rewrite <- !app_assoc. }
  rewrite (call_normal _ _ pend) by done.
  destruct (waitForTransaction env (hash pend)) as [resp|e] eqn:Hw.
  2:{ rewrite (call_throw _ _ e) by done. cbn. by rewrite <- !app_assoc. }
  rewrite (call_normal _ _ resp) by done. cbn. by rewrite <- !app_assoc.
Qed.

Lemma string_app_inv_head (s a b : string) : s +:+ a = s +:+ b -> a = b.
Proof. induction s as [|c s IH]; cbn; [done|]. intros H. apply IH. by injection H. Qed.

(** X2. A payload determines the entry function it was built for, and its
    arguments: [createEntryFunctionPayload] is injective. *)
Theorem createEntryFunctionPayload_injective :
  forall f1 f2 t1 t2 a1 a2,
    createEntryFunctionPayload f1 t1 a1 = createEntryFunctionPayload f2 t2 a2 ->
    f1 = f2 /\ t1 = t2 /\ a1 = a2.
Proof.
  intros f1 f2 t1 t2 a1 a2 H. unfold createEntryFunctionPayload in H.
  injection H as Hf Ht Ha. repeat split; [|done|done].
  repeat apply string_app_inv_head in Hf. exact Hf.
Qed.

Lemma createEntryFunctionPayload_injective_witness :
  "cancel_offer" = "cancel_offer" /\ [USDC_COIN] = [USDC_COIN] /\
  [ArgString "7"] = [ArgString "7"].
Proof.
  apply (createEntryFunctionPayload_injective "cancel_offer" "cancel_offer"
           [USDC_COIN] [USDC_COIN] [ArgString "7"] [ArgString "7"]).
  reflexivity.
Defined.

(** ** config.ts: the sign of [parseUsdc] and when it throws *)

(** Rounding a non-negative mantissa gives a zero, a finite number or an
    infinity of the sign [sx], never NaN. *)
Lemma binary_round_aux_cases prec emax sx mx ex lx :
  0 <= mx ->
  binary_round_aux prec emax sx mx ex lx = S754_zero sx \/
  (exists m e, binary_round_aux prec emax sx mx ex lx = S754_finite sx m e) \/
  binary_round_aux prec emax sx mx ex lx = S754_infinity sx.
Proof.
  intros Hmx. unfold binary_round_aux.
  destruct (shr_fexp_spec prec emax mx ex lx Hmx) as [Hm1 _].
  destruct (shr_fexp prec emax mx ex lx) as [mrs' e'] eqn:H1. cbn [fst snd] in Hm1.
  assert (Hpos1 : 0 <= shr_m mrs').
  { destruct Hm1 as [[_ ->]|[Hn ->]]; [done|].
    apply Z.div_pos; [done|]. apply Z.pow_pos_nonneg; lia. }
  pose proof (round_nearest_even_ge (shr_m mrs') (loc_of_shr_record mrs')) as Hge.
  remember (round_nearest_even (shr_m mrs') (loc_of_shr_record mrs')) as m2 eqn:Hm2def.
  destruct (shr_fexp_spec prec emax m2 e' loc_Exact ltac:(lia)) as [Hm2 _].
  destruct (shr_fexp prec emax m2 e' loc_Exact) as [mrs'' e''] eqn:H2. cbn [fst snd] in Hm2.
  assert (Hpos3 : 0 <= shr_m mrs'').
  { destruct Hm2 as [[_ ->]|[Hn ->]]; [lia|].
    apply Z.div_pos; [lia|]. apply Z.pow_pos_nonneg; lia. }
  destruct (shr_m mrs'') as [|m|m]; [by left| |lia].
  right. destruct (e'' <=? emax - prec); [left; eauto|right; done].
Qed.

(** [parseUsdc] throws exactly when the product [amount * 1e6] is NaN or an
    infinity; on every other amount it returns an integer. *)
Lemma parseUsdc_throws_iff a :
  parseUsdc a = None <->
  (mul a lit_1e6 = S754_nan \/ exists s, mul a lit_1e6 = S754_infinity s).
Proof.
  unfold parseUsdc. destruct (mul a lit_1e6) as [s|s| |s m e].
  - cbn. split; [done|]. intros [?|[? ?]]; done.
  - cbn. split; [eauto|done].
  - cbn. split; [eauto|done].
  - rewrite BigInt_Math_floor. split; [done|]. intros [?|[? ?]]; done.
Qed.

(** X3. For an amount that is not below zero, [parseUsdc] never returns a
    negative number of atomic units. *)
Theorem parseUsdc_nonnegative :
  forall a k,
    SFltb a (S754_zero false) = false ->
    parseUsdc a = Some k ->
    0 <= k.
Proof.
  intros a k Hsign Hk. destruct a as [s|s| |s m e].
  - vm_compute in Hk. destruct s; injection Hk as <-; lia.
  - destruct s; [done|]. vm_compute in Hk. done.
  - vm_compute in Hk. done.
  - destruct s; [done|].
    unfold parseUsdc, mul, lit_1e6 in Hk. cbn [SFmul xorb] in Hk.
    destruct (binary_round_aux_cases prec emax false (Z.pos (m * 8589934592000000)) (e + -33)
                loc_Exact ltac:(lia)) as [H|[(m' & e' & H)|H]]; rewrite H in Hk.
    + cbn in Hk. injection Hk as <-. lia.
    + rewrite BigInt_Math_floor in Hk. injection Hk as <-. apply floorZ_nonnegative.
    + done.
Qed.

Lemma parseUsdc_nonnegative_witness : 0 <= 8199999.
Proof.
  apply (parseUsdc_nonnegative (decimal 82 1) 8199999); vm_compute; reflexivity.
Defined.

(** ** hooks/useLendingContract.ts: connected actions *)

Lemma submitTransaction_resolves env sender p log :
  exists r log', submitTransaction env sender p log = (Normal r, log').
Proof.
  unfold submitTransaction, try_catch.
  destruct (submit_body_cases env sender p log)
    as [(pend & resp & log' & _ & ->) | (e & log' & _ & ->)]; by eexists _, _.
Qed.

(** X4. When the product [amount * 1e6] is NaN or infinite (an amount field
    that did not parse, an absurdly large amount), a connected
    [createLoanOffer], [requestLoan] or [repayLoan] rejects with the
    RangeError of [BigInt]; no payload has been built and no network call
    made.  For [requestLoan] either of its two amounts has this effect. *)
Theorem amount_actions_reject_on_non_finite_product :
  forall env acc a log,
    let ctx := Hook.WalletContext (Some acc) true in
    (mul a lit_1e6 = S754_nan \/ exists s, mul a lit_1e6 = S754_infinity s) ->
    (forall rate duration ratio,
        Hook.createLoanOffer env ctx a rate duration ratio log = (Throw range_error, log)) /\
    (forall offerId collateral,
        Hook.requestLoan env ctx offerId a collateral log = (Throw range_error, log)) /\
    (forall offerId amount,
        fst (Hook.requestLoan env ctx offerId amount a log) = Throw range_error /\
        snd (Hook.requestLoan env ctx offerId amount a log) = log) /\
    (forall loanId,
        Hook.repayLoan env ctx loanId a log = (Throw range_error, log)).
Proof.
  intros env acc a log ctx Hprod.
  apply parseUsdc_throws_iff in Hprod.
  repeat split; intros;
    unfold Hook.createLoanOffer, Hook.requestLoan, Hook.repayLoan, bind, ctx;
    rewrite ensureConnected_connected; unfold Hook.parseUsdc_or_throw;
    rewrite ?Hprod; try reflexivity;
    destruct (parseUsdc amount); cbn; by rewrite ?Hprod.
Qed.

Lemma amount_actions_reject_on_non_finite_product_witness :
  (forall rate duration ratio,
      Hook.createLoanOffer Demo.healthy (Hook.WalletContext (Some Demo.alice) true)
        S754_nan rate duration ratio [] = (Throw range_error, [])) /\
  (forall offerId collateral,
      Hook.requestLoan Demo.healthy (Hook.WalletContext (Some Demo.alice) true)
        offerId S754_nan collateral [] = (Throw range_error, [])) /\
  (forall offerId amount,
      fst (Hook.requestLoan Demo.healthy (Hook.WalletContext (Some Demo.alice) true)
             offerId amount S754_nan []) = Throw range_error /\
      snd (Hook.requestLoan Demo.healthy (Hook.WalletContext (Some Demo.alice) true)
             offerId amount S754_nan []) = []) /\
  (forall loanId,
      Hook.repayLoan Demo.healthy (Hook.WalletContext (Some Demo.alice) true)
        loanId S754_nan [] = (Throw range_error, [])).
Proof.
  apply (amount_actions_reject_on_non_finite_product Demo.healthy Demo.alice S754_nan []).
  left. reflexivity.
Defined.

(** X5. Connected, [cancelLoanOffer] and [approveLoanRequest] never reject:
    each builds its one payload (entry function cancel_offer, respectively
    approve_loan, with the id as only argument and the coin as type
    argument), hands it to [submitTransaction] and resolves to whatever
    that returns. *)
Theorem id_actions_always_resolve_when_connected :
  forall env acc id log,
    let ctx := Hook.WalletContext (Some acc) true in
    let cancel := createEntryFunctionPayload "cancel_offer" [USDC_COIN] [ArgString id] in
    let approve := createEntryFunctionPayload "approve_loan" [USDC_COIN] [ArgString id] in
    (Hook.cancelLoanOffer env ctx id log =
       submitTransaction env acc cancel (log ++ [EvPayloadBuilt cancel]) /\
     exists r log', Hook.cancelLoanOffer env ctx id log = (Normal r, log')) /\
    (Hook.approveLoanRequest env ctx id log =
       submitTransaction env acc approve (log ++ [EvPayloadBuilt approve]) /\
     exists r log', Hook.approveLoanRequest env ctx id log = (Normal r, log')).
Proof.
  intros env acc id log ctx cancel approve.
  assert (Hc : Hook.cancelLoanOffer env ctx id log =
               submitTransaction env acc cancel (log ++ [EvPayloadBuilt cancel])) by done.
  assert (Ha : Hook.approveLoanRequest env ctx id log =
               submitTransaction env acc approve (log ++ [EvPayloadBuilt approve])) by done.
  split; (split; [done|]).
  - rewrite Hc. apply submitTransaction_resolves.
  - rewrite Ha. apply submitTransaction_resolves.
Qed.

(** ** hooks/useLendingContract.ts: the read views with an account *)

(** X6. With an account, when the view call throws, each of the three views
    rejects with its own fixed message, whatever the underlying error was,
    after exactly one view call and one [console.error]. *)
Theorem views_replace_the_error :
  forall env acc connected log e,
    let ctx := Hook.WalletContext (Some acc) connected in
    (forall p, view env p = Throw e) ->
    Hook.getLoanOffers env ctx log =
      (Throw (Error "Error" (Some "Failed to fetch loan offers")),
       log ++ [EvView (Hook.view_payload "get_all_offers" []);
               EvConsoleError "Error fetching loan offers:"]) /\
    Hook.getLoanRequests env ctx None log =
      (Throw (Error "Error" (Some "Failed to fetch loan requests")),
       log ++ [EvView (Hook.view_payload "get_all_requests" []);
               EvConsoleError "Error fetching loan requests:"]) /\
    Hook.getUserLoans env ctx log =
      (Throw (Error "Error" (Some "Failed to fetch user loans")),
       log ++ [EvView (Hook.view_payload "get_user_loans" [ArgString (address acc)]);
               EvConsoleError "Error fetching user loans:"]).
Proof.
  intros env acc connected log e ctx Hview.
  unfold Hook.getLoanOffers, Hook.getLoanRequests, Hook.getUserLoans, try_catch, ctx.
  cbn [Hook.ctx_account Hook.truthy].
  repeat split.
  all: rewrite (call_throw _ _ e) by apply Hview.
  all: cbn; by rewrite <- app_assoc.
Qed.

Lemma views_replace_the_error_witness :
  let env := Ledger (build_simple Demo.healthy) (sign Demo.healthy)
               (submit_simple Demo.healthy) (waitForTransaction Demo.healthy)
               (fun _ => Throw (Error "AptosApiError" (Some "429 Too Many Requests")))
               (getAccountResource Demo.healthy) (getTableItem Demo.healthy)
               (signAndSubmitTransaction Demo.healthy) in
  Hook.getLoanOffers env Demo.connected [] =
    (Throw (Error "Error" (Some "Failed to fetch loan offers")),
     [] ++ [EvView (Hook.view_payload "get_all_offers" []);
            EvConsoleError "Error fetching loan offers:"]) /\
  Hook.getLoanRequests env Demo.connected None [] =
    (Throw (Error "Error" (Some "Failed to fetch loan requests")),
     [] ++ [EvView (Hook.view_payload "get_all_requests" []);
            EvConsoleError "Error fetching loan requests:"]) /\
  Hook.getUserLoans env Demo.connected [] =
    (Throw (Error "Error" (Some "Failed to fetch user loans")),
     [] ++ [EvView (Hook.view_payload "get_user_loans" [ArgString (address Demo.alice)]);
            EvConsoleError "Error fetching user loans:"]).
Proof.
  intros env.
  apply (views_replace_the_error env Demo.alice true []
           (Error "AptosApiError" (Some "429 Too Many Requests"))).
  reflexivity.
Defined.


(** X8. An empty offer id is treated like no offer id: [getLoanRequests("")]
    is [getLoanRequests()], the view of all requests, not of one offer; a
    non-empty id selects the per-offer view with the id as argument. *)
Theorem getLoanRequests_empty_offer_id :
  forall env ctx log,
    Hook.getLoanRequests env ctx (Some "") log = Hook.getLoanRequests env ctx None log /\
    (forall acc connected c rest,
        ctx = Hook.WalletContext (Some acc) connected ->
        head (drop (length log)
                (snd (Hook.getLoanRequests env ctx (Some (String c rest)) log)))
          = Some (EvView (Hook.view_payload "get_offer_requests"
                            [ArgString (String c rest)]))).
Proof.
  intros env ctx log. split; [reflexivity|].
  intros acc connected c rest ->.
  unfold Hook.getLoanRequests, try_catch. cbn [Hook.ctx_account Hook.truthy String.eqb negb].
  destruct (view env (Hook.view_payload "get_offer_requests" [ArgString (String c rest)]))
    as [response|e] eqn:Hv.
  - rewrite (call_normal _ _ response) by done. cbn [ret snd].
    by rewrite drop_app_length.
  - rewrite (call_throw _ _ e) by done. unfold Hook.rethrow_as, bind, emit, throw. cbn [snd].
    rewrite <- app_assoc. by rewrite drop_app_length.
Qed.

Lemma getLoanRequests_empty_offer_id_witness :
  head (drop (length (@nil event))
          (snd (Hook.getLoanRequests Demo.healthy Demo.connected (Some "7") [])))
    = Some (EvView (Hook.view_payload "get_offer_requests" [ArgString "7"])).
Proof.
  apply (getLoanRequests_empty_offer_id Demo.healthy Demo.connected [] ) with
    (acc := Demo.alice) (connected := true).
  reflexivity.
Defined.

(** ** components/LoanRequestsList.tsx: failures, approve and reject *)

Section RequestList.
Import Requests RequestActions.

Variable env : ledger.
Variable MODULE_ADDRESS : string.

Lemma Promise_all_rejected {A} (ps : list (completion A)) e :
  In (Throw e) ps -> exists e', Promise_all ps = Throw e'.
Proof.
  induction ps as [|p ps IH]; [done|]. intros [->|Hin]; cbn; [by eexists|].
  destruct p as [a|e0]; [|by eexists].
  destruct (IH Hin) as [e' ->]. by eexists.
Qed.

(** Behind a client that wraps the resource, one table item that cannot
    be read hides the whole list: every item is still requested, then the
    displayed requests stay as they were and the error message is set. *)
Lemma fetchRequests_item_failure_on_wrapped_resource acct st log cfg i e :
  getAccountResource env MODULE_ADDRESS (MODULE_ADDRESS +:+ "::lending::PlatformConfig")
    = Normal (Wrapped cfg) ->
  (i < total_requests cfg)%nat ->
  getTableItem env (loan_requests_handle cfg) (pretty i) (value_type MODULE_ADDRESS)
    = Throw e ->
  let '(st', log') := fetchRequests env MODULE_ADDRESS (Some acct) st log in
  requests st' = requests st /\ error st' = Some fetch_failed /\ loading st' = false /\
  log' = log ++ [EvGetResource MODULE_ADDRESS (MODULE_ADDRESS +:+ "::lending::PlatformConfig")]
             ++ map (EvGetTableItem (loan_requests_handle cfg))
                    (table_keys (total_requests cfg))
             ++ [EvConsoleError ""].
Proof.
  intros Hcfg Hi He. unfold fetchRequests, fetch_all.
  rewrite (call_normal _ _ (Wrapped cfg)) by done.
  unfold read_config, data_of, ret.
  unfold bind. rewrite issue_all_spec. unfold lift.
  destruct (Promise_all_rejected
              (map (fun k => getTableItem env (loan_requests_handle cfg) k
                               (value_type MODULE_ADDRESS))
                   (table_keys (total_requests cfg))) e) as [e' ->].
  { rewrite <- He. apply (in_map (fun k => getTableItem env (loan_requests_handle cfg) k
                                             (value_type MODULE_ADDRESS))).
    unfold table_keys. apply (in_map (fun i : nat => pretty i)). apply in_seq. lia. }
  cbn. repeat split. by rewrite <- !app_assoc.
Qed.

(** X9. [fetchRequests] fails closed.  Whatever the ledger answers, it ends
    with [loading] cleared and with [actionStatus] and [approvalFiles]
    untouched, and it either clears the error or sets the fixed error
    message and leaves the displayed requests as they were.  When the
    registry cannot be read, and when it is resolved to the resource's own
    fields (no [data] property, as the imported client does), the failure
    comes after exactly one ledger read: no table item is requested, and
    the error is logged to the console. *)
Theorem fetchRequests_fails_closed :
  forall acct st log,
    let registry := EvGetResource MODULE_ADDRESS (MODULE_ADDRESS +:+ "::lending::PlatformConfig") in
    let failed :=
      (setLoading false (setError (Some fetch_failed) (setError None (setLoading true st))),
       log ++ [registry; EvConsoleError ""]) in
    (let st' := fst (fetchRequests env MODULE_ADDRESS (Some acct) st log) in
     loading st' = false /\
     actionStatus st' = actionStatus st /\
     approvalFiles st' = approvalFiles st /\
     (error st' = None \/ error st' = Some fetch_failed /\ requests st' = requests st)) /\
    (forall e,
        getAccountResource env MODULE_ADDRESS (MODULE_ADDRESS +:+ "::lending::PlatformConfig")
          = Throw e ->
        fetchRequests env MODULE_ADDRESS (Some acct) st log = failed) /\
    (forall cfg,
        getAccountResource env MODULE_ADDRESS (MODULE_ADDRESS +:+ "::lending::PlatformConfig")
          = Normal (Bare cfg) ->
        fetchRequests env MODULE_ADDRESS (Some acct) st log = failed).
Proof.
  intros acct st log registry failed. split; [|split].
  - unfold fetchRequests.
    destruct (fetch_all env MODULE_ADDRESS log) as [[l|e] log']; cbn;
      repeat split; (by left) || (by right).
  - intros e He. unfold fetchRequests.
    rewrite (fetch_all_registry_throws env MODULE_ADDRESS e log He).
    unfold failed. by rewrite <- app_assoc.
  - intros cfg Hcfg. unfold fetchRequests.
    rewrite (fetch_all_bare env MODULE_ADDRESS cfg log Hcfg).
    unfold failed. by rewrite <- app_assoc.
Qed.

(** Refreshing the list and updating the action status commute: the
    refresh reads and writes neither [actionStatus] nor [approvalFiles]. *)
Lemma fetchRequests_setActionStatus acct f st log :
  fetchRequests env MODULE_ADDRESS acct (setActionStatus f st) log =
    (setActionStatus f (fst (fetchRequests env MODULE_ADDRESS acct st log)),
     snd (fetchRequests env MODULE_ADDRESS acct st log)).
Proof.
  unfold fetchRequests. destruct acct as [a|]; [|done].
  by destruct (fetch_all env MODULE_ADDRESS log) as [[l|e] log'].
Qed.

Lemma fetchRequests_approvalFiles acct st log :
  approvalFiles (fst (fetchRequests env MODULE_ADDRESS acct st log)) = approvalFiles st.
Proof.
  unfold fetchRequests. destruct acct as [a|]; [|done].
  by destruct (fetch_all env MODULE_ADDRESS log) as [[l|e] log'].
Qed.

(** What follows the synchronous part of an approve or a reject: the two
    awaited calls and the resumption. *)
Lemma submit_then_settle a r t st log :
  let '(outcome, log1) := approve_submit env t log in
  let '(st', log') := handleApprove_settle env MODULE_ADDRESS (Some a) r outcome st log1 in
  buttons_disabled st' r = false /\
  match signAndSubmitTransaction env t with
  | Throw e =>
      shown_error st' r = Some (message_or e "An error occurred.") /\
      requests st' = requests st /\
      log' = log ++ [EvWalletSubmit t; EvConsoleError ""]
  | Normal pend =>
      match waitForTransaction env (hash pend) with
      | Throw e =>
          shown_error st' r = Some (message_or e "An error occurred.") /\
          requests st' = requests st /\
          log' = log ++ [EvWalletSubmit t; EvWait (hash pend); EvConsoleError ""]
      | Normal _ =>
          let refreshed := fetchRequests env MODULE_ADDRESS (Some a) st
                             (log ++ [EvWalletSubmit t; EvWait (hash pend)]) in
          shown_error st' r = None /\
          requests st' = requests (fst refreshed) /\
          error st' = error (fst refreshed) /\
          log' = snd refreshed
      end
  end.
Proof.
  unfold approve_submit.
  destruct (signAndSubmitTransaction env t) as [pend|e] eqn:Hs.
  2:{ rewrite (call_throw _ _ e) by done. cbn.
      unfold buttons_disabled, shown_error. cbn. rewrite lookup_insert_eq. cbn.
      by rewrite <- app_assoc. }
  rewrite (call_normal _ _ pend) by done.
  destruct (waitForTransaction env (hash pend)) as [resp|e] eqn:Hw.
  2:{ rewrite (call_throw _ _ e) by done. cbn.
      unfold buttons_disabled, shown_error. cbn. rewrite lookup_insert_eq. cbn.
      by rewrite <- !app_assoc. }
  rewrite (call_normal _ _ resp) by done. cbn [ret handleApprove_settle].
  rewrite fetchRequests_setActionStatus. rewrite <- !app_assoc. cbn [app].
  destruct (fetchRequests env MODULE_ADDRESS (Some a) st
              (log ++ [EvWalletSubmit t; EvWait (hash pend)])) as [st2 log2].
  cbn [fst snd]. unfold buttons_disabled, shown_error. cbn. by rewrite lookup_insert_eq.
Qed.

(** The wallet is asked first: the log of the two awaited calls starts
    with the submission. *)
Lemma approve_submit_first_call t log :
  exists rest, snd (approve_submit env t log) = log ++ EvWalletSubmit t :: rest.
Proof.
  unfold approve_submit.
  destruct (signAndSubmitTransaction env t) as [pend|e] eqn:Hs.
  2:{ rewrite (call_throw _ _ e) by done. by exists []. }
  rewrite (call_normal _ _ pend) by done.
  destruct (waitForTransaction env (hash pend)) as [resp|e] eqn:Hw.
  - rewrite (call_normal _ _ resp) by done. cbn. rewrite <- app_assoc. by eexists.
  - rewrite (call_throw _ _ e) by done. cbn. rewrite <- app_assoc. by eexists.
Qed.

(** X10. [handleApprove] returns early, without any wallet or ledger call,
    when no account is connected (nothing changes at all), and when
    [approvalFiles[requestId]] is falsy: the request's file was removed
    ([null]), or the request has no entry and its id is not the name of a
    member of [Object.prototype].  The request then shows "Please upload an
    approval letter." and its buttons stay enabled.  For an id such as
    "constructor" or "toString" with no entry the lookup finds the
    inherited member: the check passes without any file, the request is
    marked as loading and the transaction is handed to the wallet. *)
Theorem handleApprove_early_exits :
  forall r now st log,
    handleApprove env MODULE_ADDRESS None r now st log = (st, log) /\
    (forall a,
        approvalFiles st !! r = Some None \/
        approvalFiles st !! r = None /\ JS.inherited_member r = false ->
        let '(st', log') := handleApprove env MODULE_ADDRESS (Some a) r now st log in
        log' = log /\ requests st' = requests st /\
        shown_error st' r = Some "Please upload an approval letter." /\
        buttons_disabled st' r = false) /\
    (forall a,
        approvalFiles st !! r = None -> JS.inherited_member r = true ->
        let t := approve_txn MODULE_ADDRESS r now in
        let started := setActionStatus (fun prev => <[r := ActionEntry true None]> prev) st in
        handleApprove_begin MODULE_ADDRESS (Some a) r now st = (started, Some t) /\
        handleApprove env MODULE_ADDRESS (Some a) r now st log =
          handleApprove_settle env MODULE_ADDRESS (Some a) r
            (fst (approve_submit env t log)) started (snd (approve_submit env t log)) /\
        exists rest, snd (approve_submit env t log) = log ++ EvWalletSubmit t :: rest).
Proof.
  intros r now st log. split; [reflexivity|]. split.
  - intros a Hfile. unfold handleApprove, handleApprove_begin, approval_file_chosen.
    destruct Hfile as [-> | [-> ->]]; cbn; unfold shown_error, buttons_disabled; cbn;
      by rewrite lookup_insert_eq.
  - intros a Hnone Hin t started.
    unfold handleApprove, handleApprove_begin, approval_file_chosen.
    rewrite Hnone, Hin. fold t started.
    split; [done|]. split; [|apply approve_submit_first_call].
    by destruct (approve_submit env t log).
Qed.

(** X11. With an account and an approval letter, [handleApprove] submits exactly
    one transaction to the wallet and never leaves the request's buttons
    disabled.  If the wallet rejects, the confirmation is not awaited; if
    either call fails the request shows the error's message and the list
    is not refreshed; if both succeed the request shows no error and the
    list is refreshed once, after the confirmation. *)
Theorem handleApprove_outcomes :
  forall a r now f st log,
    approvalFiles st !! r = Some (Some f) ->
    let t := approve_txn MODULE_ADDRESS r now in
    let '(st', log') := handleApprove env MODULE_ADDRESS (Some a) r now st log in
    buttons_disabled st' r = false /\
    match signAndSubmitTransaction env t with
    | Throw e =>
        shown_error st' r = Some (message_or e "An error occurred.") /\
        requests st' = requests st /\
        log' = log ++ [EvWalletSubmit t; EvConsoleError ""]
    | Normal pend =>
        match waitForTransaction env (hash pend) with
        | Throw e =>
            shown_error st' r = Some (message_or e "An error occurred.") /\
            requests st' = requests st /\
            log' = log ++ [EvWalletSubmit t; EvWait (hash pend); EvConsoleError ""]
        | Normal _ =>
            let refreshed := fetchRequests env MODULE_ADDRESS (Some a) st
                               (log ++ [EvWalletSubmit t; EvWait (hash pend)]) in
            shown_error st' r = None /\
            requests st' = requests (fst refreshed) /\
            error st' = error (fst refreshed) /\
            log' = snd refreshed
        end
    end.
Proof.
  intros a r now f st log Hfile t.
  unfold handleApprove, handleApprove_begin, approval_file_chosen. rewrite Hfile. fold t.
  pose proof (submit_then_settle a r t
                (setActionStatus (fun prev => <[r := ActionEntry true None]> prev) st) log) as H.
  destruct (approve_submit env t log) as [outcome log1].
  destruct (handleApprove_settle env MODULE_ADDRESS (Some a) r outcome _ log1) as [st' log'].
  revert H.
  destruct (signAndSubmitTransaction env t) as [pend|e]; [|done].
  destruct (waitForTransaction env (hash pend)) as [resp|e]; [|done].
  by rewrite fetchRequests_setActionStatus.
Qed.

(** X12. [handleReject] asks for no approval letter: with an account it always
    submits exactly one reject_request transaction carrying the request
    id, and ends like an approve (buttons enabled again; error shown and no
    refresh on failure; refresh on success).  Without an account it does
    nothing. *)
Theorem handleReject_outcomes :
  forall r st log,
    handleReject env MODULE_ADDRESS None r st log = (st, log) /\
    (forall a,
        let t := reject_txn MODULE_ADDRESS r in
        let '(st', log') := handleReject env MODULE_ADDRESS (Some a) r st log in
        buttons_disabled st' r = false /\
        match signAndSubmitTransaction env t with
        | Throw e =>
            shown_error st' r = Some (message_or e "An error occurred.") /\
            requests st' = requests st /\
            log' = log ++ [EvWalletSubmit t; EvConsoleError ""]
        | Normal pend =>
            match waitForTransaction env (hash pend) with
            | Throw e =>
                shown_error st' r = Some (message_or e "An error occurred.") /\
                requests st' = requests st /\
                log' = log ++ [EvWalletSubmit t; EvWait (hash pend); EvConsoleError ""]
            | Normal _ =>
                let refreshed := fetchRequests env MODULE_ADDRESS (Some a) st
                                   (log ++ [EvWalletSubmit t; EvWait (hash pend)]) in
                shown_error st' r = None /\
                requests st' = requests (fst refreshed) /\
                error st' = error (fst refreshed) /\
                log' = snd refreshed
            end
        end).
Proof.
  intros r st log. split; [reflexivity|]. intros a t.
  unfold handleReject, handleReject_begin. fold t.
  change handleReject_settle with handleApprove_settle.
  pose proof (submit_then_settle a r t
                (setActionStatus (fun prev => <[r := ActionEntry true None]> prev) st) log) as H.
  destruct (approve_submit env t log) as [outcome log1].
  destruct (handleApprove_settle env MODULE_ADDRESS (Some a) r outcome _ log1) as [st' log'].
  revert H.
  destruct (signAndSubmitTransaction env t) as [pend|e]; [|done].
  destruct (waitForTransaction env (hash pend)) as [resp|e]; [|done].
  by rewrite fetchRequests_setActionStatus.
Qed.

(** X13. Choosing a file for a request is what lets its approve go through:
    after a file is chosen the synchronous part yields the transaction, after
    it is removed it yields none, and a file chosen for another request
    makes no difference. *)
Theorem approval_letter_gates_approve :
  forall a r now st,
    (forall f, snd (handleApprove_begin MODULE_ADDRESS (Some a) r now
                      (setApprovalFile r (Some f) st))
               = Some (approve_txn MODULE_ADDRESS r now)) /\
    snd (handleApprove_begin MODULE_ADDRESS (Some a) r now (setApprovalFile r None st)) = None /\
    (forall r' g, r' <> r ->
                  snd (handleApprove_begin MODULE_ADDRESS (Some a) r now (setApprovalFile r' g st))
                  = snd (handleApprove_begin MODULE_ADDRESS (Some a) r now st)).
Proof.
  intros a r now st. unfold handleApprove_begin, approval_file_chosen, setApprovalFile.
  cbn [approvalFiles].
  repeat split.
  - intros f. by rewrite lookup_insert_eq.
  - by rewrite lookup_insert_eq.
  - intros r' g Hne. rewrite lookup_insert_ne by done.
    by destruct (match approvalFiles st !! r with
                 | Some (Some _) => true
                 | Some None => false
                 | None => JS.inherited_member r
                 end).
Qed.

Lemma run_ui_step_frame acct s r c :
  ui_step_id s <> Some r ->
  actionStatus (fst (run_ui_step env MODULE_ADDRESS acct s c)) !! r = actionStatus (fst c) !! r /\
  approvalFiles (fst (run_ui_step env MODULE_ADDRESS acct s c)) !! r
    = approvalFiles (fst c) !! r.
Proof.
  intros Hid. destruct s as [r' f|r' now|r' outcome|r'|r' outcome|]; cbn in *.
  - split; [done|]. rewrite lookup_insert_ne; [done|congruence].
  - split; [apply handleApprove_begin_frame; congruence|].
    unfold handleApprove_begin. destruct acct; [|done].
    by destruct (approval_file_chosen (fst c) r').
  - split; [apply handleApprove_settle_frame; congruence|].
    destruct outcome; cbn; [|done]. by rewrite fetchRequests_approvalFiles.
  - unfold handleReject_begin. destruct acct; [|done]. cbn.
    split; [|done]. rewrite lookup_insert_ne; [done|congruence].
  - change handleReject_settle with handleApprove_settle.
    split; [apply handleApprove_settle_frame; congruence|].
    destruct outcome; cbn; [|done]. by rewrite fetchRequests_approvalFiles.
  - split; [by rewrite fetchRequests_actionStatus|by rewrite fetchRequests_approvalFiles].
Qed.

Lemma run_ui_frame acct steps r c :
  Forall (fun s => ui_step_id s <> Some r) steps ->
  actionStatus (fst (run_ui env MODULE_ADDRESS acct steps c)) !! r
    = actionStatus (fst c) !! r /\
  approvalFiles (fst (run_ui env MODULE_ADDRESS acct steps c)) !! r
    = approvalFiles (fst c) !! r.
Proof.
  unfold run_ui. revert c.
  induction steps as [|s steps IH]; intros c Hall; [done|].
  inversion Hall as [|? ? Hs Hrest]; subst. cbn [fold_left].
  destruct (IH (run_ui_step env MODULE_ADDRESS acct s c) Hrest) as [IH1 IH2].
  destruct (run_ui_step_frame acct s r c Hs) as [F1 F2].
  split; congruence.
Qed.

(** X14. Whatever happens to other requests, in whatever order (files chosen or
    removed, approvals and rejections started, succeeded or failed, the
    list refreshed), the status entry and the chosen file of a request
    stay as they were. *)
Theorem run_ui_leaves_other_requests_alone :
  forall acct steps r c,
    Forall (fun s => ui_step_id s <> Some r) steps ->
    actionStatus (fst (run_ui env MODULE_ADDRESS acct steps c)) !! r
      = actionStatus (fst c) !! r /\
    approvalFiles (fst (run_ui env MODULE_ADDRESS acct steps c)) !! r
      = approvalFiles (fst c) !! r.
Proof.
  intros acct steps r. unfold run_ui.
  induction steps as [|s steps IH]; intros c Hall; [done|].
  inversion Hall as [|? ? Hs Hrest]; subst. cbn [fold_left].
  destruct (IH (run_ui_step env MODULE_ADDRESS acct s c) Hrest) as [IH1 IH2].
  destruct (run_ui_step_frame acct s r c Hs) as [F1 F2].
  split; congruence.
Qed.

(** X15. From the start of an approve on a request until it resumes, the
    request's buttons are disabled, whatever happens to other requests in
    between; once it resumes, with success or failure, they are enabled. *)
Theorem buttons_disabled_while_in_flight :
  forall a steps r now f st log,
    approvalFiles st !! r = Some (Some f) ->
    Forall (fun s => ui_step_id s <> Some r) steps ->
    let started := fst (handleApprove_begin MODULE_ADDRESS (Some a) r now st) in
    buttons_disabled (fst (run_ui env MODULE_ADDRESS (Some a) steps (started, log))) r = true /\
    (forall outcome,
        buttons_disabled
          (fst (run_ui env MODULE_ADDRESS (Some a) (steps ++ [ApproveSettle r outcome])
                  (started, log))) r = false).
Proof.
  intros a steps r now f st log Hfile Hall started.
  destruct (run_ui_frame (Some a) steps r (started, log) Hall) as [H1 _].
  split.
  - unfold buttons_disabled. rewrite H1.
    unfold started, handleApprove_begin, approval_file_chosen.
    rewrite Hfile. cbn. by rewrite lookup_insert_eq.
  - intros outcome. unfold run_ui. rewrite fold_left_app. cbn [fold_left run_ui_step].
    unfold buttons_disabled. rewrite handleApprove_settle_own. by destruct outcome.
Qed.

End RequestList.

(** ** components/LoanOffersList.tsx *)

Section OffersList.
Import Offers.

Variable api : offers_api.
Variable MODULE_ADDRESS : string.

Lemma issue_offer_reads_spec lenders log :
  issue_offer_reads api MODULE_ADDRESS lenders log =
    (Normal (map (fun a => getLoanOffer api a (offer_type MODULE_ADDRESS)) lenders),
     log ++ map (fun a => EvGetResource a (offer_type MODULE_ADDRESS)) lenders).
Proof.
  revert log. induction lenders as [|a lenders IH]; intros log; cbn.
  - by rewrite app_nil_r.
  - unfold bind, emit. rewrite IH. unfold ret. by rewrite <- app_assoc.
Qed.

(** Behind a client that wraps every resource, and with every read
    succeeding, [fetchOffers] shows one offer per entry of the registry's
    [active_lenders], in the registry's order, after reading the registry
    first and then each lender's offer in that order. *)
Lemma fetchOffers_on_wrapped_resources :
  forall lenders (recs : string -> LoanOffer) st log,
    getLenderRegistry api MODULE_ADDRESS (MODULE_ADDRESS +:+ "::lending::LenderRegistry")
      = Normal (Wrapped lenders) ->
    (forall a, In a lenders ->
               getLoanOffer api a (offer_type MODULE_ADDRESS) = Normal (Wrapped (recs a))) ->
    fetchOffers api MODULE_ADDRESS st log =
      (OffersState (map (fun a => Some (recs a)) lenders) false None (selectedOffer st),
       log ++ [EvGetResource MODULE_ADDRESS (MODULE_ADDRESS +:+ "::lending::LenderRegistry")]
           ++ map (fun a => EvGetResource a (offer_type MODULE_ADDRESS)) lenders).
Proof.
  intros lenders recs st log Hreg Hrecs. unfold fetchOffers, fetch_offers.
  rewrite (call_normal _ _ (Wrapped lenders)) by done.
  unfold read_active_lenders, data_of, ret.
  unfold bind. rewrite issue_offer_reads_spec. unfold lift.
  replace (map (fun a => getLoanOffer api a (offer_type MODULE_ADDRESS)) lenders)
    with (map Normal (map (fun a => Wrapped (recs a)) lenders)).
  - rewrite Promise_all_fulfilled. rewrite map_map. cbn [data_of]. by rewrite <- app_assoc.
  - rewrite map_map. apply map_ext_in. intros a Ha. symmetry. by apply Hrecs.
Qed.

(** The ledger is asked for the registry before anything else, and only
    ledger reads and the console follow. *)
Lemma fetch_offers_first_call log :
  exists rest,
    snd (fetch_offers api MODULE_ADDRESS log) =
      log ++ EvGetResource MODULE_ADDRESS (MODULE_ADDRESS +:+ "::lending::LenderRegistry") :: rest.
Proof.
  unfold fetch_offers.
  destruct (getLenderRegistry api MODULE_ADDRESS (MODULE_ADDRESS +:+ "::lending::LenderRegistry"))
    as [[lenders|lenders]|e] eqn:Hreg.
  - rewrite (call_normal _ _ (Wrapped lenders)) by done.
    unfold read_active_lenders, data_of, ret.
    unfold bind. rewrite issue_offer_reads_spec. unfold lift.
    destruct (Requests.Promise_all _); cbn; rewrite <- app_assoc; by eexists.
  - rewrite (call_normal _ _ (Bare lenders)) by done. by exists [].
  - rewrite (call_throw _ _ e) by done. by exists [].
Qed.

(** X16. [fetchOffers] reads the lender list through [registry.data].  When
    the registry is resolved to the resource's own fields (no [data]
    property, as the imported client does), the read of [active_lenders]
    throws inside the [try]: whatever the registry lists, no offer is
    requested, the displayed offers and the selected offer stay as they
    were, the fixed error message is set, [loading] is cleared and the
    error is logged to the console.  No account is needed. *)
Theorem fetchOffers_needs_the_data_property :
  forall lenders st log,
    getLenderRegistry api MODULE_ADDRESS (MODULE_ADDRESS +:+ "::lending::LenderRegistry")
      = Normal (Bare lenders) ->
    fetch_offers api MODULE_ADDRESS log =
      (Throw (undefined_read "active_lenders"),
       log ++ [EvGetResource MODULE_ADDRESS (MODULE_ADDRESS +:+ "::lending::LenderRegistry")]) /\
    fetchOffers api MODULE_ADDRESS st log =
      (OffersState (offers st) false (Some offers_failed) (selectedOffer st),
       log ++ [EvGetResource MODULE_ADDRESS (MODULE_ADDRESS +:+ "::lending::LenderRegistry");
               EvConsoleError ""]).
Proof.
  intros lenders st log Hreg.
  assert (fetch_offers api MODULE_ADDRESS log =
            (Throw (undefined_read "active_lenders"),
             log ++ [EvGetResource MODULE_ADDRESS
                       (MODULE_ADDRESS +:+ "::lending::LenderRegistry")])) as H.
  { unfold fetch_offers. by rewrite (call_normal _ _ (Bare lenders)) by done. }
  split; [exact H|]. unfold fetchOffers. rewrite H. by rewrite <- app_assoc.
Qed.

(** X17. [fetchOffers] fails closed.  Whatever the ledger answers, it ends
    with [loading] cleared and the selected offer untouched, and it either
    clears the error or sets the fixed error message and leaves the
    displayed offers as they were; the registry is the first thing read.
    When the registry cannot be read, nothing else is read and the error is
    logged to the console. *)
Theorem fetchOffers_fails_closed :
  forall st log,
    let registry := EvGetResource MODULE_ADDRESS (MODULE_ADDRESS +:+ "::lending::LenderRegistry") in
    (let st' := fst (fetchOffers api MODULE_ADDRESS st log) in
     loading st' = false /\
     selectedOffer st' = selectedOffer st /\
     (error st' = None \/ error st' = Some offers_failed /\ offers st' = offers st)) /\
    (exists rest, snd (fetchOffers api MODULE_ADDRESS st log) = log ++ registry :: rest) /\
    (forall e,
        getLenderRegistry api MODULE_ADDRESS (MODULE_ADDRESS +:+ "::lending::LenderRegistry")
          = Throw e ->
        fetchOffers api MODULE_ADDRESS st log =
          (OffersState (offers st) false (Some offers_failed) (selectedOffer st),
           log ++ [registry; EvConsoleError ""])).
Proof.
  intros st log registry. split; [|split].
  - unfold fetchOffers.
    destruct (fetch_offers api MODULE_ADDRESS log) as [[l|e] log']; cbn;
      repeat split; (by left) || (by right).
  - destruct (fetch_offers_first_call log) as [rest Hrest]. unfold fetchOffers.
    destruct (fetch_offers api MODULE_ADDRESS log) as [[l|e] log']; cbn [fst snd] in *.
    + by exists rest.
    + exists (rest ++ [EvConsoleError ""]). rewrite Hrest. by rewrite <- app_assoc.
  - intros e He. unfold fetchOffers, fetch_offers.
    rewrite (call_throw _ _ e) by done. by rewrite <- app_assoc.
Qed.

End OffersList.

(** ** components/BorrowerRequest.tsx *)

Section BorrowerForm.
Import Borrower.

Variable parseFloat : string -> number.
Variable env : ledger.
Variable MODULE_ADDRESS : string.

(** X18. [handleRequest] checks the wallet first and the two documents second;
    when a check fails it only sets the matching message: nothing is sent
    to the wallet, the timer is not started and the rest of the form
    (including an earlier success message) stays as it was. *)
Theorem handleRequest_validates_before_submitting :
  forall offer now later st log,
    handleRequest parseFloat env MODULE_ADDRESS None offer now later st log =
      (setError (Some "Please connect your wallet first.") st, log, false) /\
    (forall a,
        borrowerDetailsFile st = None \/ collateralDetailsFile st = None ->
        handleRequest parseFloat env MODULE_ADDRESS (Some a) offer now later st log =
          (setError (Some "Please upload both borrower and collateral documents.") st,
           log, false)).
Proof.
  intros offer now later st log. split; [reflexivity|].
  intros a [H|H]; unfold handleRequest; rewrite H; [done|].
  by destruct (borrowerDetailsFile st).
Qed.

(** X19. With an account and both documents, [handleRequest] submits exactly one
    borrow_request transaction, whatever the amount fields contain, and
    always ends with [loading] false.  If the wallet rejects, the
    confirmation is not awaited.  If either call fails, the error's message
    is shown, no success message is set and the form is not scheduled to
    close; if both succeed, the success message carries the hash, no error
    is shown and the form is scheduled to close.  The fields of the form
    are not changed by the handler itself. *)
Theorem handleRequest_outcomes :
  forall a offer now later fb fc st log,
    borrowerDetailsFile st = Some fb ->
    collateralDetailsFile st = Some fc ->
    let t := borrow_txn parseFloat MODULE_ADDRESS offer now later st in
    let '(st', log', timer) :=
      handleRequest parseFloat env MODULE_ADDRESS (Some a) offer now later st log in
    (loading st' = false /\ amount st' = amount st /\ collateral st' = collateral st /\
     borrowerDetailsFile st' = Some fb /\ collateralDetailsFile st' = Some fc) /\
    match signAndSubmitTransaction env t with
    | Throw e =>
        error st' = Some (message_or e "An error occurred.") /\ success st' = None /\
        timer = false /\ log' = log ++ [EvWalletSubmit t]
    | Normal pend =>
        match waitForTransaction env (hash pend) with
        | Throw e =>
            error st' = Some (message_or e "An error occurred.") /\ success st' = None /\
            timer = false /\ log' = log ++ [EvWalletSubmit t; EvWait (hash pend)]
        | Normal _ =>
            error st' = None /\
            success st' = Some ("Loan request submitted with hash: " +:+ hash pend) /\
            timer = true /\ log' = log ++ [EvWalletSubmit t; EvWait (hash pend)]
        end
    end.
Proof.
  intros a offer now later fb fc st log Hb Hc t.
  unfold handleRequest. rewrite Hb, Hc. fold t. unfold borrow_submit.
  destruct (signAndSubmitTransaction env t) as [pend|e] eqn:Hs.
  2:{ rewrite (call_throw _ _ e) by done. cbn. by rewrite Hb, Hc. }
  rewrite (call_normal _ _ pend) by done.
  destruct (waitForTransaction env (hash pend)) as [resp|e] eqn:Hw.
  2:{ rewrite (call_throw _ _ e) by done. cbn. rewrite Hb, Hc.
      by rewrite <- app_assoc. }
  rewrite (call_normal _ _ resp) by done. cbn. rewrite Hb, Hc.
  by rewrite <- app_assoc.
Qed.

End BorrowerForm.

(** ** components/WalletProvider.tsx: the effects, and the hook on top *)

Lemma submitTransaction_first_call env sender p log :
  exists rest,
    snd (submitTransaction env sender p log)
      = log ++ [EvBuild (accountAddress sender) p] ++ rest.
Proof.
  unfold submitTransaction, try_catch.
  destruct (submit_body env sender p log) as [[r|e] log'] eqn:Hbody.
  all: unfold submit_body, call, bind, emit, lift in Hbody; cbn in Hbody.
  all: destruct (build_simple env (accountAddress sender) p) as [raw|e1];
       [destruct (sign env sender raw) as [auth|e2];
        [destruct (submit_simple env raw auth) as [pend|e3];
         [destruct (waitForTransaction env (hash pend)) as [resp|e4]|]|]|].
  all: cbn in Hbody; injection Hbody as ? <-; cbn; rewrite <- ?app_assoc; by eexists.
Qed.

(** X20. After the provider's effects have run, the hook's connection check
    passes exactly when the adapter is connected and has an account; the
    account it then yields carries the adapter's address.  The effects
    themselves never call the adapter. *)
Theorem hook_connected_iff_adapter_has_account :
  forall ad s log,
    let s' := Provider.sync ad s in
    let ctx := Provider.hook_context ad s' in
    match Provider.connected ad, Provider.adapter_account ad with
    | true, Some a =>
        Hook.ensureConnected ctx log = (Normal (Provider.stub_account a), log) /\
        address (Provider.stub_account a) = Requests.aa_address a /\
        Wallet.isConnecting s' = false
    | _, _ =>
        Hook.ensureConnected ctx log = (Throw not_connected, log) /\
        Wallet.accountObj s' = None
    end /\
    Wallet.adapter_calls s' = Wallet.adapter_calls s /\
    Wallet.in_flight s' = Wallet.in_flight s.
Proof.
  intros [[|] [a|]] s log; cbn; repeat split.
Qed.

(** X21. The account the provider hands to the hook has no [accountAddress]:
    every transaction the hook submits with it is built with an undefined
    sender.  For [cancelLoanOffer], the payload is built and then the first
    network call is the build with sender undefined. *)
Theorem provider_account_has_no_sender :
  forall env a s log,
    let ad := Provider.Adapter true (Some a) in
    let ctx := Provider.hook_context ad (Provider.sync ad s) in
    (forall p, exists rest,
        snd (submitTransaction env (Provider.stub_account a) p log)
          = log ++ [EvBuild None p] ++ rest) /\
    (forall id,
        let p := createEntryFunctionPayload "cancel_offer" [USDC_COIN] [ArgString id] in
        exists rest,
          snd (Hook.cancelLoanOffer env ctx id log)
            = log ++ [EvPayloadBuilt p; EvBuild None p] ++ rest).
Proof.
  intros env a s log ad ctx. split.
  - intros p. apply (submitTransaction_first_call env (Provider.stub_account a) p log).
  - intros id p.
    destruct (submitTransaction_first_call env (Provider.stub_account a) p
                (log ++ [EvPayloadBuilt p])) as [rest Hrest].
    exists rest.
    change (Hook.cancelLoanOffer env ctx id log)
      with (submitTransaction env (Provider.stub_account a) p (log ++ [EvPayloadBuilt p])).
    rewrite Hrest. by rewrite <- app_assoc.
Qed.

(** X22. The start-up effect on the browser storage removes a stored wallet
    state exactly when it is non-empty and does not parse; it never touches
    another key, and afterwards the stored wallet state, if any, is empty
    or parses.  Running it twice changes nothing more. *)
Theorem clear_corrupted_only_removes_unparsable_state :
  forall parses storage,
    let storage' := fst (Provider.clear_corrupted parses storage) in
    (forall k, k <> Provider.wallet_state_key -> storage' !! k = storage !! k) /\
    (forall v, storage' !! Provider.wallet_state_key = Some v -> v = "" \/ parses v = true) /\
    (forall v, storage !! Provider.wallet_state_key = Some v ->
               (v = "" \/ parses v = true) -> storage' = storage) /\
    (forall v, storage !! Provider.wallet_state_key = Some v ->
               v <> "" -> parses v = false ->
               storage' !! Provider.wallet_state_key = None) /\
    fst (Provider.clear_corrupted parses storage') = storage'.
Proof.
  intros parses storage. unfold Provider.clear_corrupted.
  destruct (storage !! Provider.wallet_state_key) as [v|] eqn:Hv.
  2:{ cbn [fst]. rewrite Hv. repeat split; intros; congruence. }
  destruct (String.eqb v "") eqn:He.
  { apply String.eqb_eq in He. subst v. cbn [fst]. rewrite Hv. cbn [fst String.eqb].
    repeat split; intros; try congruence. left. congruence. }
  destruct (parses v) eqn:Hp.
  { cbn [fst]. rewrite Hv, He, Hp. cbn [fst].
    repeat split; intros; try congruence. right. congruence. }
  apply String.eqb_neq in He.
  cbn [fst]. rewrite lookup_delete_eq.
  repeat split; intros; try congruence.
  - by rewrite lookup_delete_ne.
  - assert (v0 = v) as -> by congruence. destruct H0; congruence.
Qed.

(** ** components/WalletProvider.tsx: invariants of connect and disconnect *)



(** [disconnect] clears the account only when the adapter's disconnect
    succeeded; when it failed, or when a [connect] settled either way, the
    account is kept, and a failure is passed on to the caller unchanged
    after one line on the console. *)
Theorem settle_keeps_the_account_unless_disconnected :
  forall op outcome s,
    let '(s', result) := Wallet.settle_op op outcome s in
    result = outcome /\
    Wallet.accountObj s' =
      match op, outcome with
      | Wallet.AdapterDisconnect, Normal _ => None
      | _, _ => Wallet.accountObj s
      end /\
    length (Wallet.console s') =
      (length (Wallet.console s) + match outcome with Normal _ => 0 | Throw _ => 1 end)%nat.
Proof.
  intros op [[]|e] s; destruct op; cbn; repeat split; rewrite ?length_app; cbn; lia.
Qed.

(** ** Instances of the properties above on concrete collaborators *)


(** The two records of [Demo2.listed] as the views return them. *)
Example views_of_two_records :
  (let '(r, log) := Hook.getLoanOffers Demo2.listing Demo.connected [] in
   match r with
   | Normal offers =>
       map Hook.offer_id offers = ["1"; "2"] /\
       map Hook.offer_lender offers = ["0xaaaa"; "0xbbbb"] /\
       map Hook.offer_amount offers = [decimal 82 1; decimal 123456789 6] /\
       map Hook.offer_status offers = ["active"; "pending"]
   | Throw _ => False
   end /\ length log = 1%nat) /\
  (let '(r, log) := Hook.getUserLoans Demo2.listing Demo.connected [] in
   match r with
   | Normal loans =>
       map Hook.req_id loans = ["1"; "2"] /\
       map Hook.offerId loans = ["1"; "1"] /\
       map Hook.req_amount loans = [decimal 82 1; decimal 123456789 6]
   | Throw _ => False
   end /\
   log = [EvView (Hook.view_payload "get_user_loans" [ArgString "0xa11ce"])]).
Proof. vm_compute. repeat split. Qed.

Lemma fetchRequests_fails_closed_witness :
  Requests.fetchRequests Demo.healthy "0xmod" (Some Demo.lender2) Demo.two_files [] =
    (Requests.setLoading false
       (Requests.setError (Some Requests.fetch_failed)
          (Requests.setError None (Requests.setLoading true Demo.two_files))),
     [] ++ [EvGetResource "0xmod" ("0xmod" +:+ "::lending::PlatformConfig");
            EvConsoleError ""]) /\
  Requests.fetchRequests Demo2.unreachable "0xmod" (Some Demo.lender2) Demo.two_files [] =
    (Requests.setLoading false
       (Requests.setError (Some Requests.fetch_failed)
          (Requests.setError None (Requests.setLoading true Demo.two_files))),
     [] ++ [EvGetResource "0xmod" ("0xmod" +:+ "::lending::PlatformConfig");
            EvConsoleError ""]).
Proof.
  split.
  - destruct (fetchRequests_fails_closed Demo.healthy "0xmod" Demo.lender2 Demo.two_files [])
      as (_ & _ & Hbare).
    apply (Hbare (PlatformConfig 5 "0xhandle")). reflexivity.
  - destruct (fetchRequests_fails_closed Demo2.unreachable "0xmod" Demo.lender2
                Demo.two_files []) as (_ & Hthrow & _).
    apply (Hthrow (Error "AptosApiError" (Some "resource not found"))). reflexivity.
Defined.

(** Behind a wrapping client, an unreadable item 3 hides requests 2 and 4
    as well, after all five items were requested. *)
Example fetchRequests_broken_item :
  Requests.fetchRequests Demo2.broken_item "0xmod" (Some Demo.lender2) Demo.two_files [] =
    (Requests.setLoading false
       (Requests.setError (Some Requests.fetch_failed)
          (Requests.setError None (Requests.setLoading true Demo.two_files))),
     [EvGetResource "0xmod" "0xmod::lending::PlatformConfig"]
       ++ map (EvGetTableItem "0xhandle") ["0"; "1"; "2"; "3"; "4"]
       ++ [EvConsoleError ""]).
Proof. vm_compute. reflexivity. Qed.

Lemma handleApprove_early_exits_witness :
  (let '(st', log') := Requests.handleApprove Demo.healthy "0xmod" (Some Demo.lender2) "2"
                         1700000000000 Demo.empty_list [] in
   log' = [] /\ Requests.requests st' = Requests.requests Demo.empty_list /\
   RequestActions.shown_error st' "2" = Some "Please upload an approval letter." /\
   RequestActions.buttons_disabled st' "2" = false) /\
  (let t := Requests.approve_txn "0xmod" "constructor" 1700000000000 in
   let started :=
     Requests.setActionStatus
       (fun prev => <["constructor" := Requests.ActionEntry true None]> prev)
       Demo.empty_list in
   Requests.handleApprove_begin "0xmod" (Some Demo.lender2) "constructor" 1700000000000
     Demo.empty_list = (started, Some t) /\
   Requests.handleApprove Demo.healthy "0xmod" (Some Demo.lender2) "constructor"
     1700000000000 Demo.empty_list [] =
     Requests.handleApprove_settle Demo.healthy "0xmod" (Some Demo.lender2) "constructor"
       (fst (Requests.approve_submit Demo.healthy t [])) started
       (snd (Requests.approve_submit Demo.healthy t [])) /\
   exists rest, snd (Requests.approve_submit Demo.healthy t []) = [] ++ EvWalletSubmit t :: rest).
Proof.
  split.
  - destruct (handleApprove_early_exits Demo.healthy "0xmod" "2" 1700000000000
                Demo.empty_list []) as (_ & Hearly & _).
    apply (Hearly Demo.lender2). right. split; reflexivity.
  - destruct (handleApprove_early_exits Demo.healthy "0xmod" "constructor" 1700000000000
                Demo.empty_list []) as (_ & _ & Hproto).
    apply (Hproto Demo.lender2); reflexivity.
Defined.

(** An approve of a request whose id is "constructor", with no file
    chosen: the transaction goes to the wallet and is awaited. *)
Example handleApprove_inherited_member :
  snd (Requests.handleApprove Demo.healthy "0xmod" (Some Demo.lender2) "constructor"
         1700000000000 Demo.empty_list []) =
    [EvWalletSubmit (Requests.approve_txn "0xmod" "constructor" 1700000000000);
     EvWait "0xh2";
     EvGetResource "0xmod" "0xmod::lending::PlatformConfig";
     EvConsoleError ""].
Proof. vm_compute. reflexivity. Qed.

Lemma handleApprove_outcomes_witness :
  let t := Requests.approve_txn "0xmod" "2" 1700000000000 in
  let '(st', log') := Requests.handleApprove Demo.healthy "0xmod" (Some Demo.lender2) "2"
                        1700000000000 Demo.two_files [] in
  RequestActions.buttons_disabled st' "2" = false /\
  match signAndSubmitTransaction Demo.healthy t with
  | Throw e =>
      RequestActions.shown_error st' "2" = Some (message_or e "An error occurred.") /\
      Requests.requests st' = Requests.requests Demo.two_files /\
      log' = [] ++ [EvWalletSubmit t; EvConsoleError ""]
  | Normal pend =>
      match waitForTransaction Demo.healthy (hash pend) with
      | Throw e =>
          RequestActions.shown_error st' "2" = Some (message_or e "An error occurred.") /\
          Requests.requests st' = Requests.requests Demo.two_files /\
          log' = [] ++ [EvWalletSubmit t; EvWait (hash pend); EvConsoleError ""]
      | Normal _ =>
          let refreshed := Requests.fetchRequests Demo.healthy "0xmod" (Some Demo.lender2)
                             Demo.two_files ([] ++ [EvWalletSubmit t; EvWait (hash pend)]) in
          RequestActions.shown_error st' "2" = None /\
          Requests.requests st' = Requests.requests (fst refreshed) /\
          Requests.error st' = Requests.error (fst refreshed) /\
          log' = snd refreshed
      end
  end.
Proof.
  apply (handleApprove_outcomes Demo.healthy "0xmod" Demo.lender2 "2" 1700000000000
           (Requests.File "b.pdf") Demo.two_files []).
  reflexivity.
Defined.

Lemma approval_letter_gates_approve_witness :
  snd (Requests.handleApprove_begin "0xmod" (Some Demo.lender2) "2" 1
         (RequestActions.setApprovalFile "1" None Demo.two_files))
  = snd (Requests.handleApprove_begin "0xmod" (Some Demo.lender2) "2" 1 Demo.two_files).
Proof.
  apply (approval_letter_gates_approve "0xmod" Demo.lender2 "2" 1 Demo.two_files).
  discriminate.
Defined.

Lemma run_ui_leaves_other_requests_alone_witness :
  let steps := [RequestActions.ApproveBegin "1" 1;
                RequestActions.ChooseFile "1" None;
                RequestActions.ApproveSettle "1"
                  (Throw (Error "Error" (Some "User rejected the request")));
                RequestActions.RejectBegin "1";
                RequestActions.Refresh] in
  let c := (Demo.two_files, []) in
  Requests.actionStatus
    (fst (RequestActions.run_ui Demo.healthy "0xmod" (Some Demo.lender2) steps c)) !! "2"
    = Requests.actionStatus (fst c) !! "2" /\
  Requests.approvalFiles
    (fst (RequestActions.run_ui Demo.healthy "0xmod" (Some Demo.lender2) steps c)) !! "2"
    = Requests.approvalFiles (fst c) !! "2".
Proof.
  intros steps c.
  apply (run_ui_leaves_other_requests_alone Demo.healthy "0xmod" (Some Demo.lender2) steps "2" c).
  repeat constructor; discriminate.
Defined.

Lemma buttons_disabled_while_in_flight_witness :
  let steps := [RequestActions.ApproveBegin "1" 1;
                RequestActions.ApproveSettle "1" (Normal tt)] in
  let started := fst (Requests.handleApprove_begin "0xmod" (Some Demo.lender2) "2" 2
                        Demo.two_files) in
  RequestActions.buttons_disabled
    (fst (RequestActions.run_ui Demo.healthy "0xmod" (Some Demo.lender2) steps (started, [])))
    "2" = true /\
  (forall outcome,
      RequestActions.buttons_disabled
        (fst (RequestActions.run_ui Demo.healthy "0xmod" (Some Demo.lender2)
                (steps ++ [RequestActions.ApproveSettle "2" outcome]) (started, []))) "2"
      = false).
Proof.
  intros steps.
  apply (buttons_disabled_while_in_flight Demo.healthy "0xmod" Demo.lender2 steps "2" 2
           (Requests.File "b.pdf") Demo.two_files []).
  - reflexivity.
  - repeat constructor; discriminate.
Defined.

Lemma fetchOffers_needs_the_data_property_witness :
  Offers.fetch_offers (Demo2.offers_api true) "0xmod" [] =
    (Throw (undefined_read "active_lenders"),
     [] ++ [EvGetResource "0xmod" ("0xmod" +:+ "::lending::LenderRegistry")]) /\
  Offers.fetchOffers (Demo2.offers_api true) "0xmod" Demo2.one_offer [] =
    (Offers.OffersState (Offers.offers Demo2.one_offer) false (Some Offers.offers_failed)
       (Offers.selectedOffer Demo2.one_offer),
     [] ++ [EvGetResource "0xmod" ("0xmod" +:+ "::lending::LenderRegistry");
            EvConsoleError ""]).
Proof.
  apply (fetchOffers_needs_the_data_property (Demo2.offers_api true) "0xmod"
           ["0xaaaa"; "0xbbbb"] Demo2.one_offer []).
  reflexivity.
Defined.

Lemma fetchOffers_fails_closed_witness :
  Offers.fetchOffers Demo2.no_registry "0xmod" Demo2.one_offer [] =
    (Offers.OffersState (Offers.offers Demo2.one_offer) false (Some Offers.offers_failed)
       (Offers.selectedOffer Demo2.one_offer),
     [] ++ [EvGetResource "0xmod" ("0xmod" +:+ "::lending::LenderRegistry");
            EvConsoleError ""]).
Proof.
  destruct (fetchOffers_fails_closed Demo2.no_registry "0xmod" Demo2.one_offer [])
    as (_ & _ & Hthrow).
  apply (Hthrow (Error "AptosApiError" (Some "resource not found"))). reflexivity.
Defined.

Lemma handleRequest_validates_before_submitting_witness :
  Borrower.handleRequest Demo2.parseFloat Demo.healthy "0xmod" (Some Demo.lender2)
    (Demo2.offer_of_lender "0xaaaa") 1700000000000 1700000000001
    Demo2.form_without_collateral [] =
    (Borrower.setError (Some "Please upload both borrower and collateral documents.")
       Demo2.form_without_collateral, [], false).
Proof.
  apply (handleRequest_validates_before_submitting Demo2.parseFloat Demo.healthy "0xmod"
           (Demo2.offer_of_lender "0xaaaa") 1700000000000 1700000000001
           Demo2.form_without_collateral []).
  right. reflexivity.
Defined.

Lemma handleRequest_outcomes_witness :
  let t := Borrower.borrow_txn Demo2.parseFloat "0xmod" (Demo2.offer_of_lender "0xaaaa")
             1700000000000 1700000000001 Demo2.form in
  let '(st', log', timer) :=
    Borrower.handleRequest Demo2.parseFloat Demo.slow "0xmod" (Some Demo.lender2)
      (Demo2.offer_of_lender "0xaaaa") 1700000000000 1700000000001 Demo2.form [] in
  (Borrower.loading st' = false /\ Borrower.amount st' = Borrower.amount Demo2.form /\
   Borrower.collateral st' = Borrower.collateral Demo2.form /\
   Borrower.borrowerDetailsFile st' = Some (Requests.File "id.pdf") /\
   Borrower.collateralDetailsFile st' = Some (Requests.File "deed.pdf")) /\
  match signAndSubmitTransaction Demo.slow t with
  | Throw e =>
      Borrower.error st' = Some (message_or e "An error occurred.") /\
      Borrower.success st' = None /\ timer = false /\ log' = [] ++ [EvWalletSubmit t]
  | Normal pend =>
      match waitForTransaction Demo.slow (hash pend) with
      | Throw e =>
          Borrower.error st' = Some (message_or e "An error occurred.") /\
          Borrower.success st' = None /\ timer = false /\
          log' = [] ++ [EvWalletSubmit t; EvWait (hash pend)]
      | Normal _ =>
          Borrower.error st' = None /\
          Borrower.success st' = Some ("Loan request submitted with hash: " +:+ hash pend) /\
          timer = true /\ log' = [] ++ [EvWalletSubmit t; EvWait (hash pend)]
      end
  end.
Proof.
  apply (handleRequest_outcomes Demo2.parseFloat Demo.slow "0xmod" Demo.lender2
           (Demo2.offer_of_lender "0xaaaa") 1700000000000 1700000000001
           (Requests.File "id.pdf") (Requests.File "deed.pdf") Demo2.form []);
    reflexivity.
Defined.

Lemma clear_corrupted_only_removes_unparsable_state_witness :
  fst (Provider.clear_corrupted Demo2.parses Demo2.corrupt_storage) !! "theme" = Some "dark" /\
  fst (Provider.clear_corrupted Demo2.parses Demo2.corrupt_storage)
    !! Provider.wallet_state_key = None.
Proof.
  destruct (clear_corrupted_only_removes_unparsable_state Demo2.parses Demo2.corrupt_storage)
    as (Hother & _ & _ & Hgone & _).
  split.
  - rewrite (Hother "theme"); [reflexivity|discriminate].
  - apply (Hgone "{oops"); [reflexivity|discriminate|reflexivity].
Defined.


(* ===================================================================== *)
(** * The amount codec, for every amount below 2^49 atomic units *)
(* ===================================================================== *)

(** ** Binary64 rounding in the normal range *)

Lemma digits2_pos_upper p : Zpos p < 2 ^ Zpos (digits2_pos p).
Proof.
  induction p as [p IH|p IH|]; cbn [digits2_pos]; [| |cbn; lia].
  - rewrite Pos2Z.inj_succ, (Pos2Z.inj_xI p), Z.pow_succ_r by lia. lia.
  - rewrite Pos2Z.inj_succ, (Pos2Z.inj_xO p), Z.pow_succ_r by lia. lia.
Qed.

Lemma Zdigits2_bounds m : 0 < m -> 2 ^ (Zdigits2 m - 1) <= m < 2 ^ Zdigits2 m.
Proof.
  destruct m as [|p|p]; try lia. intros _. split.
  - apply digits2_pos_lower.
  - apply digits2_pos_upper.
Qed.

Lemma Zdigits2_ge m k : 0 < m -> 2 ^ (k - 1) <= m -> k <= Zdigits2 m.
Proof.
  intros Hm Hk. destruct (Zdigits2_bounds m Hm) as [_ Hu].
  destruct (Z_lt_le_dec (Zdigits2 m) k) as [Hlt|]; [|lia].
  assert (2 ^ Zdigits2 m <= 2 ^ (k - 1)) by (apply Z.pow_le_mono_r; lia). lia.
Qed.

Lemma Zdigits2_le m k : 0 < m -> 0 <= k -> m < 2 ^ k -> Zdigits2 m <= k.
Proof.
  intros Hm Hk0 Hk. destruct (Zdigits2_bounds m Hm) as [Hl _].
  destruct (Z_lt_le_dec k (Zdigits2 m)) as [Hlt|]; [|lia].
  assert (2 ^ k <= 2 ^ (Zdigits2 m - 1)) by (apply Z.pow_le_mono_r; lia). lia.
Qed.

Lemma round_nearest_even_le m l : round_nearest_even m l <= m + 1.
Proof. destruct l as [|[]]; cbn; try lia. destruct (Z.even m); lia. Qed.

(** Floor division by a power of two that leaves [prec] bits. *)
Lemma shift_keeps_leading_bits prec m n :
  0 < n -> 0 < prec -> 2 ^ (prec - 1 + n) <= m ->
  2 ^ (prec - 1) <= m / 2 ^ n /\
  (m / 2 ^ n) * 2 ^ n <= m /\ m + 1 <= (m / 2 ^ n + 1) * 2 ^ n.
Proof.
  intros Hn Hp Hm.
  assert (H2 : 0 < 2 ^ n) by (apply Z.pow_pos_nonneg; lia).
  split.
  - apply Z.div_le_lower_bound; [done|]. rewrite <- Z.pow_add_r by lia.
    by replace (n + (prec - 1)) with (prec - 1 + n) by lia.
  - pose proof (Z.div_mod m (2 ^ n) ltac:(lia)).
    pose proof (Z.mod_pos_bound m (2 ^ n) H2). nia.
Qed.

Section Normal.
Variables prec emax : Z.
Hypothesis Hprec : 0 < prec.

(** One normalising shift: the mantissa keeps at least [prec] bits, the
    exponent does not go below [emin], and the shifted value brackets the
    original. *)
Lemma shr_fexp_normal m e l :
  2 ^ (prec - 1) <= m ->
  emin prec emax <= Zdigits2 m + e - prec ->
  exists m' e',
    shr_m (fst (shr_fexp prec emax m e l)) = m' /\
    snd (shr_fexp prec emax m e l) = e' /\
    e <= e' /\ emin prec emax <= e' /\ e' = e + Z.max 0 (Zdigits2 m - prec) /\
    2 ^ (prec - 1) <= m' /\
    m' * 2 ^ (e' - e) <= m /\ m + 1 <= (m' + 1) * 2 ^ (e' - e).
Proof.
  intros Hm Hnormal.
  assert (Hpos : 0 < m) by (pose proof (Z.pow_pos_nonneg 2 (prec - 1)); lia).
  destruct (shr_fexp_spec prec emax m e l ltac:(lia)) as [Hcase He].
  assert (Hfexp : fexp prec emax (Zdigits2 m + e) = Zdigits2 m + e - prec)
    by (unfold fexp; lia).
  rewrite Hfexp in Hcase, He.
  pose proof (Zdigits2_ge m prec Hpos Hm) as Hd.
  destruct Hcase as [[Hn Hshift]|[Hn Hshift]].
  - exists m, e. rewrite Hshift, He.
    replace (e - e) with 0 by lia. rewrite Z.pow_0_r.
    repeat split; try lia.
  - destruct (Zdigits2_bounds m Hpos) as [Hl _].
    destruct (shift_keeps_leading_bits prec m (Zdigits2 m - prec)) as (H1 & H2 & H3);
      [lia|lia| |].
    { by replace (prec - 1 + (Zdigits2 m - prec)) with (Zdigits2 m - 1) by lia. }
    replace (Zdigits2 m + e - prec - e) with (Zdigits2 m - prec) in Hshift by lia.
    exists (m / 2 ^ (Zdigits2 m - prec)), (Zdigits2 m + e - prec).
    rewrite Hshift, He.
    replace (Zdigits2 m + e - prec - e) with (Zdigits2 m - prec) by lia.
    repeat split; try lia.
Qed.

(** Rounding in the normal range: the result has a full mantissa [m] and an
    exponent [e] with [(m - 1) * 2^e <= mx * 2^ex] and
    [(mx + 1) * 2^ex <= (m + 1) * 2^e]; it is finite unless [e] exceeds
    the largest exponent. *)
Lemma binary_round_aux_normal sx mx ex lx :
  2 ^ (prec - 1) <= mx ->
  emin prec emax <= Zdigits2 mx + ex - prec ->
  exists m e,
    2 ^ (prec - 1) <= Zpos m /\ ex <= e /\
    (Zpos m - 1) * 2 ^ (e - ex) <= mx /\
    mx + 1 <= (Zpos m + 1) * 2 ^ (e - ex) /\
    binary_round_aux prec emax sx mx ex lx =
      if e <=? emax - prec then S754_finite sx m e else S754_infinity sx.
Proof.
  intros Hmx Hnormal. unfold binary_round_aux.
  destruct (shr_fexp_normal mx ex lx Hmx Hnormal)
    as (m1 & e1 & Hm1 & He1 & Hle1 & Hmin1 & _ & Hbig1 & Hlo1 & Hhi1).
  destruct (shr_fexp prec emax mx ex lx) as [mrs' e'] eqn:H1.
  cbn [fst snd] in Hm1, He1. subst e'.
  pose proof (round_nearest_even_ge (shr_m mrs') (loc_of_shr_record mrs')) as Hge.
  pose proof (round_nearest_even_le (shr_m mrs') (loc_of_shr_record mrs')) as Hle.
  remember (round_nearest_even (shr_m mrs') (loc_of_shr_record mrs')) as m2 eqn:Hm2def.
  rewrite Hm1 in Hge, Hle.
  assert (Hpos2 : 0 < m2) by (pose proof (Z.pow_pos_nonneg 2 (prec - 1)); lia).
  assert (Hd2 : prec <= Zdigits2 m2) by (apply Zdigits2_ge; lia).
  destruct (shr_fexp_normal m2 e1 loc_Exact ltac:(lia) ltac:(lia))
    as (m3 & e3 & Hm3 & He3 & Hle3 & _ & _ & Hbig3 & Hlo3 & Hhi3).
  destruct (shr_fexp prec emax m2 e1 loc_Exact) as [mrs'' e''] eqn:H2.
  cbn [fst snd] in Hm3, He3. subst e''. rewrite Hm3.
  assert (Hpos3 : 0 < m3) by (pose proof (Z.pow_pos_nonneg 2 (prec - 1)); lia).
  destruct m3 as [|m|m]; try lia.
  exists m, e3.
  assert (Hsplit : 2 ^ (e3 - ex) = 2 ^ (e3 - e1) * 2 ^ (e1 - ex)).
  { rewrite <- Z.pow_add_r by lia. f_equal. lia. }
  assert (Hp1 : 0 < 2 ^ (e1 - ex)) by (apply Z.pow_pos_nonneg; lia).
  assert (Hp3 : 0 < 2 ^ (e3 - e1)) by (apply Z.pow_pos_nonneg; lia).
  repeat split; try lia.
  - rewrite Hsplit. nia.
  - rewrite Hsplit. nia.
Qed.

End Normal.

(** ** The round trip of an amount with six fractional digits *)

Lemma SFdiv_core_decimal6 p :
  Zdigits2 (Zpos p) <= 49 ->
  let s := 73 - Zdigits2 (Zpos p) in
  SFdiv_core_binary prec emax (Zpos p) 0 1000000 0 =
    (Zpos p * 2 ^ s / 1000000, - s, new_location 1000000 ((Zpos p * 2 ^ s) mod 1000000)).
Proof.
  intros Hd s. unfold SFdiv_core_binary.
  change (Zdigits2 1000000) with 20.
  assert (Hd1 : 1 <= Zdigits2 (Zpos p)) by (cbn; lia).
  replace (Z.min (fexp prec emax (Zdigits2 (Z.pos p) + 0 - (20 + 0))) (0 - 0)) with (- s)
    by (unfold fexp, emin, prec, emax, s; lia).
  replace (0 - 0 - - s) with s by lia.
  assert (Hs : 0 < s) by (unfold s; lia).
  destruct s as [|sp|sp] eqn:Hsp; try lia.
  rewrite Z.shiftl_mul_pow2 by lia.
  unfold Z.div, Z.modulo.
  by destruct (Z.div_eucl (Z.pos p * 2 ^ Z.pos sp) 1000000) as [q r].
Qed.

(** The double nearest to [n / 10^6], for [0 < n < 2^49]: a full mantissa
    [ma] and an exponent [-Ea] with [8 * 10^6 <= 2^Ea], within one unit in
    the last place of the exact quotient. *)
Lemma decimal6_spec p :
  Zpos p < 2 ^ 49 ->
  exists ma ea,
    decimal (Zpos p) 6 = S754_finite false ma ea /\
    -72 <= ea <= -23 /\ 2 ^ 52 <= Zpos ma /\
    (Zpos ma - 1) * 1000000 <= Zpos p * 2 ^ (- ea) /\
    Zpos p * 2 ^ (- ea) < (Zpos ma + 1) * 1000000.
Proof.
  intros Hp.
  assert (Hd : Zdigits2 (Zpos p) <= 49) by (apply Zdigits2_le; lia).
  assert (Hd1 : 1 <= Zdigits2 (Zpos p)) by (cbn; lia).
  destruct (Zdigits2_bounds (Zpos p) ltac:(lia)) as [Hlow _].
  unfold decimal, div. change (pow10 6) with 1000000%positive.
  cbn [SFdiv xorb]. rewrite (SFdiv_core_decimal6 p Hd).
  set (s := 73 - Zdigits2 (Zpos p)) in *.
  set (q := Zpos p * 2 ^ s / 1000000).
  assert (Hs : 24 <= s <= 72) by (unfold s; lia).
  assert (H2s : 0 < 2 ^ s) by (apply Z.pow_pos_nonneg; lia).
  assert (Hnum : 2 ^ 72 <= Zpos p * 2 ^ s).
  { replace 72 with (Zdigits2 (Zpos p) - 1 + s) by (unfold s; lia).
    rewrite Z.pow_add_r by lia. nia. }
  assert (Hq : 2 ^ 52 <= q).
  { unfold q. apply Z.div_le_lower_bound; [lia|].
    etransitivity; [|exact Hnum]. vm_compute. discriminate. }
  assert (Hqd : q * 1000000 <= Zpos p * 2 ^ s < (q + 1) * 1000000).
  { unfold q. pose proof (Z.div_mod (Zpos p * 2 ^ s) 1000000 ltac:(lia)).
    pose proof (Z.mod_pos_bound (Zpos p * 2 ^ s) 1000000 ltac:(lia)). lia. }
  assert (Hdq : 53 <= Zdigits2 q).
  { apply Zdigits2_ge; [|exact Hq]. pose proof (Z.pow_pos_nonneg 2 52). lia. }
  destruct (binary_round_aux_normal prec emax ltac:(done) false q (- s)
              (new_location 1000000 ((Zpos p * 2 ^ s) mod 1000000)) Hq)
    as (m & e & Hm & He & Hlo & Hhi & Hres).
  { unfold emin, prec, emax. lia. }
  change (2 ^ (prec - 1)) with (2 ^ 52) in Hm.
  replace (e - - s) with (e + s) in Hlo, Hhi by lia.
  assert (H2d : 0 < 2 ^ (e + s)) by (apply Z.pow_pos_nonneg; lia).
  (* the exponent is at most -23 *)
  assert (Hea : e <= -23).
  { destruct (Z_le_gt_dec e (-23)) as [|Hgt]; [done|exfalso].
    assert (2 ^ (s - 22) <= 2 ^ (e + s)) by (apply Z.pow_le_mono_r; lia).
    assert (Hsplit : 2 ^ (49 + s) = 2 ^ 71 * 2 ^ (s - 22)).
    { rewrite <- Z.pow_add_r by lia. f_equal. lia. }
    assert (Zpos p * 2 ^ s < 2 ^ (49 + s)).
    { rewrite Z.pow_add_r by lia. nia. }
    assert (0 < 2 ^ (s - 22)) by (apply Z.pow_pos_nonneg; lia).
    assert ((2 ^ 52 - 1) * 1000000 * 2 ^ (s - 22) < 2 ^ 71 * 2 ^ (s - 22)) by nia.
    assert (Hfalse : (2 ^ 52 - 1) * 1000000 < 2 ^ 71) by nia.
    vm_compute in Hfalse. discriminate. }
  exists m, e. rewrite Hres.
  replace (e <=? emax - prec) with true by (symmetry; apply Z.leb_le; unfold emax, prec; lia).
  assert (Hsplit : 2 ^ s = 2 ^ (e + s) * 2 ^ (- e)).
  { rewrite <- Z.pow_add_r by lia. f_equal. lia. }
  assert (HX : 0 < 2 ^ (- e)) by (apply Z.pow_pos_nonneg; lia).
  split; [done|]. split; [lia|]. split; [done|].
  rewrite Hsplit in Hqd. split; nia.
Qed.

(** [parseUsdc] of the double nearest to [n / 10^6] is [n] or [n - 1]. *)
Lemma parseUsdc_decimal6 p :
  Zpos p < 2 ^ 49 ->
  exists k, parseUsdc (decimal (Zpos p) 6) = Some k /\ Zpos p - 1 <= k <= Zpos p.
Proof.
  intros Hp.
  destruct (decimal6_spec p Hp) as (ma & ea & -> & Hea & Hma & Hlo & Hhi).
  set (n := Zpos p) in *. set (X := 2 ^ (- ea)) in *.
  assert (HX : 2 ^ 23 <= X) by (apply Z.pow_le_mono_r; lia).
  (* the product *)
  assert (Hmx : 2 ^ 104 <= Zpos (ma * 8589934592000000)).
  { rewrite Pos2Z.inj_mul. change (2 ^ 104) with (2 ^ 52 * 2 ^ 52).
    change (Z.pos 8589934592000000) with (1000000 * 2 ^ 33).
    assert (2 ^ 52 <= 1000000 * 2 ^ 33) by (vm_compute; discriminate). nia. }
  assert (Hdx : 105 <= Zdigits2 (Zpos (ma * 8589934592000000))) by (apply Zdigits2_ge; lia).
  destruct (binary_round_aux_normal prec emax ltac:(done) false
              (Zpos (ma * 8589934592000000)) (ea + -33) loc_Exact)
    as (mP & eP & HmP & HeP & HloP & HhiP & Hres).
  { etransitivity; [|exact Hmx]. vm_compute. discriminate. }
  { unfold emin, prec, emax. lia. }
  change (2 ^ (prec - 1)) with (2 ^ 52) in HmP.
  rewrite Pos2Z.inj_mul in HloP, HhiP.
  change (Z.pos 8589934592000000) with (1000000 * 2 ^ 33) in HloP, HhiP.
  set (dP := eP - (ea + -33)) in *.
  assert (HdP : 0 <= dP) by (unfold dP; lia).
  assert (H2d : 0 < 2 ^ dP) by (apply Z.pow_pos_nonneg; lia).
  (* the exponent of the product is at most -2 *)
  assert (HeP2 : eP <= -2).
  { destruct (Z_le_gt_dec eP (-2)) as [|Hgt]; [done|exfalso].
    assert (Hge : 2 ^ (- ea + 32) <= 2 ^ dP) by (apply Z.pow_le_mono_r; unfold dP; lia).
    rewrite Z.pow_add_r in Hge by lia. fold X in Hge.
    assert (Hbound : (2 ^ 52 - 1) * (X * 2 ^ 32) <= (n * X + 1000000) * 2 ^ 33) by nia.
    change (2 ^ 33) with (2 * 2 ^ 32) in Hbound.
    assert (Hb2 : (2 ^ 52 - 1) * X <= 2 * (n * X + 1000000)) by nia.
    change (2 ^ 23) with 8388608 in HX. change (2 ^ 49) with 562949953421312 in Hp.
    change (2 ^ 52) with 4503599627370496 in Hb2. nia. }
  unfold parseUsdc, mul, lit_1e6. cbn [SFmul xorb]. rewrite Hres.
  replace (eP <=? emax - prec) with true by (symmetry; apply Z.leb_le; unfold emax, prec; lia).
  rewrite BigInt_Math_floor. eexists. split; [reflexivity|].
  unfold floorZ. replace (0 <=? eP) with false by (symmetry; apply Z.leb_gt; lia).
  cbn [cond_Zopp].
  set (Y := 2 ^ (- eP)).
  assert (HY : 4 <= Y) by (change 4 with (2 ^ 2); apply Z.pow_le_mono_r; lia).
  assert (HW : 2 ^ dP * Y = X * 2 ^ 33).
  { unfold Y, X. rewrite <- !Z.pow_add_r by lia. f_equal. unfold dP. lia. }
  pose proof (Z.div_mod (Zpos mP) Y ltac:(lia)) as Hdm.
  pose proof (Z.mod_pos_bound (Zpos mP) Y ltac:(lia)) as Hmod.
  set (k := Zpos mP / Y) in *.
  assert (HkY : k * Y <= Zpos mP < (k + 1) * Y) by lia.
  set (W := X * 2 ^ 33) in *.
  assert (HWpos : 0 < W) by (unfold W; lia).
  assert (HD : 1000000 * 2 ^ 33 * 8 <= W) by (unfold W; change (2 ^ 23) with 8388608 in HX; lia).
  assert (HZ : 2 ^ dP * 4 <= W) by nia.
  split.
  - (* n - 1 <= k *)
    assert (H1 : (Zpos mP + 1) * 2 ^ dP <= (k + 1) * W) by nia.
    assert (H2 : n * W < (Zpos ma + 1) * 1000000 * 2 ^ 33) by (unfold W; nia).
    assert (H3 : n * W * 8 < (k + 1) * W * 8 + W) by nia.
    nia.
  - (* k <= n *)
    assert (H1 : k * W <= Zpos mP * 2 ^ dP) by nia.
    assert (H2 : (Zpos ma - 1) * 1000000 * 2 ^ 33 <= n * W) by (unfold W; nia).
    assert (H3 : k * W * 8 <= n * W * 8 + W + 2 * W) by nia.
    nia.
Qed.

(** ** [formatUsdc] and decimal literals *)

Lemma Pos_iter_xO_spec p k :
  Zpos (Pos.iter xO p k) = Zpos p * 2 ^ Zpos k /\
  Zpos (digits2_pos (Pos.iter xO p k)) = Zpos (digits2_pos p) + Zpos k.
Proof.
  induction k as [|k IH] using Pos.peano_ind.
  - cbn [Pos.iter digits2_pos]. rewrite Pos2Z.inj_succ. change (2 ^ 1) with 2. lia.
  - rewrite Pos.iter_succ. cbn [digits2_pos]. destruct IH as [IH1 IH2].
    rewrite Pos2Z.inj_xO, Pos2Z.inj_succ, IH1, !Pos2Z.inj_succ, IH2.
    rewrite Z.pow_succ_r by lia. lia.
Qed.

(** A mantissa that already fits is left alone by the rounding. *)
Lemma binary_round_aux_canonical sx m e :
  fexp prec emax (Zpos (digits2_pos m) + e) <= e ->
  e <= emax - prec ->
  binary_round_aux prec emax sx (Zpos m) e loc_Exact = S754_finite sx m e.
Proof.
  intros Hf He. unfold binary_round_aux, shr_fexp. cbn [Zdigits2 shr_record_of_loc].
  assert (Hshr : forall r, shr r e (fexp prec emax (Zpos (digits2_pos m) + e) - e) = (r, e)).
  { intros r. unfold shr.
    destruct (fexp prec emax (Zpos (digits2_pos m) + e) - e) eqn:Hn; try done. lia. }
  rewrite Hshr. cbn [shr_m loc_of_shr_record round_nearest_even Zdigits2 shr_record_of_loc].
  rewrite Hshr. cbn [shr_m]. by rewrite (proj2 (Z.leb_le _ _) He).
Qed.

(** [Number(u)] for [0 < u < 2^53] is [u] itself, with a 53-bit mantissa. *)
Lemma Number_of_Z_exact p :
  Zpos p < 2 ^ 53 ->
  let d := Zpos (digits2_pos p) in
  exists mz, Number_of_Z (Zpos p) = S754_finite false mz (d - 53) /\
             Zpos mz = Zpos p * 2 ^ (53 - d) /\ Zpos (digits2_pos mz) = 53.
Proof.
  intros Hp d.
  assert (Hd : 1 <= d <= 53).
  { split; [unfold d; lia|]. apply (Zdigits2_le (Zpos p)); lia. }
  unfold Number_of_Z, binary_normalize, binary_round, shl_align.
  replace (fexp prec emax (Zpos (digits2_pos p) + 0)) with (d - 53)
    by (unfold fexp, emin, prec, emax, d; lia).
  destruct (d - 53 - 0) as [|k|k] eqn:Hk; try lia.
  - exists p. replace (d - 53) with 0 by lia. replace (53 - d) with 0 by lia.
    rewrite binary_round_aux_canonical.
    + split; [done|]. split; [lia|]. fold d. lia.
    + unfold fexp, emin, prec, emax. fold d. lia.
    + unfold emax, prec. lia.
  - destruct (Pos_iter_xO_spec p k) as [Hv Hdig].
    exists (Pos.iter xO p k). rewrite binary_round_aux_canonical.
    + split; [done|]. split.
      * rewrite Hv. f_equal. f_equal. lia.
      * rewrite Hdig. fold d. lia.
    + rewrite Hdig. unfold fexp, emin, prec, emax. fold d. lia.
    + unfold emax, prec. lia.
Qed.

Lemma div_eucl_pair a b : Z.div_eucl a b = (a / b, a mod b).
Proof. unfold Z.div, Z.modulo. by destruct (Z.div_eucl a b). Qed.

(** Scaling the divisor and the remainder by [2^33] does not change the
    rounding direction. *)
Lemma new_location_scaled r :
  new_location 8589934592000000 (r * 2 ^ 33) = new_location 1000000 r.
Proof.
  unfold new_location. change (Z.even 8589934592000000) with true.
  change (Z.even 1000000) with true. unfold new_location_even.
  assert (H2 : 0 < 2 ^ 33) by done.
  destruct (Z.eqb_spec r 0) as [->|Hr].
  - done.
  - replace (r * 2 ^ 33 =? 0) with false by (symmetry; apply Z.eqb_neq; lia).
    f_equal. change 8589934592000000 with (1000000 * 2 ^ 33).
    rewrite Z.mul_assoc. symmetry. apply Zmult_compare_compat_r. done.
Qed.

(** [formatUsdc(u)] is the double the decimal literal [u / 10^6] denotes. *)
Lemma formatUsdc_decimal p :
  Zpos p < 2 ^ 53 -> formatUsdc (Zpos p) = decimal (Zpos p) 6.
Proof.
  intros Hp. set (d := Zpos (digits2_pos p)).
  assert (Hd : 1 <= d <= 53).
  { split; [unfold d; lia|]. apply (Zdigits2_le (Zpos p)); lia. }
  destruct (Number_of_Z_exact p Hp) as (mz & Hnum & Hmz & Hdz). fold d in Hnum, Hmz.
  unfold formatUsdc, decimal, div. rewrite Hnum. change (pow10 6) with 1000000%positive.
  unfold lit_1e6. cbn [SFdiv xorb].
  assert (Hcore : SFdiv_core_binary prec emax (Zpos mz) (d - 53) 8589934592000000 (-33)
                  = SFdiv_core_binary prec emax (Zpos p) 0 1000000 0).
  { unfold SFdiv_core_binary. cbn [Zdigits2]. rewrite Hdz. fold d.
    change (Zpos (digits2_pos 8589934592000000)) with 53.
    change (Zpos (digits2_pos 1000000)) with 20.
    replace (Z.min (fexp prec emax (53 + (d - 53) - (53 + -33))) (d - 53 - -33)) with (d - 73)
      by (unfold fexp, emin, prec, emax; lia).
    replace (Z.min (fexp prec emax (d + 0 - (20 + 0))) (0 - 0)) with (d - 73)
      by (unfold fexp, emin, prec, emax; lia).
    replace (d - 53 - -33 - (d - 73)) with 53 by lia.
    replace (0 - 0 - (d - 73)) with (73 - d) by lia.
    destruct (73 - d) as [|s|s] eqn:Hs; try lia.
    rewrite !Z.shiftl_mul_pow2 by lia. rewrite Hmz, !div_eucl_pair.
    assert (Hnumr : Zpos p * 2 ^ (53 - d) * 2 ^ 53 = Zpos p * 2 ^ Zpos s * 2 ^ 33).
    { rewrite <- !Z.mul_assoc, <- !Z.pow_add_r by lia. do 2 f_equal. lia. }
    rewrite Hnumr. change 8589934592000000 with (1000000 * 2 ^ 33).
    rewrite Z.div_mul_cancel_r by done. rewrite Z.mul_mod_distr_r by done.
    change (1000000 * 2 ^ 33) with 8589934592000000.
    by rewrite new_location_scaled. }
  by rewrite Hcore.
Qed.

(** X24. An amount with at most six fractional digits, [n / 10^6] with
    [0 <= n < 2^49], comes back from [parseUsdc] as [n] atomic units or as
    [n - 1], never more and never less; [formatUsdc] of the result is the
    double of the corresponding decimal literal, so the round trip returns
    the amount itself or the amount one millionth below. *)
Theorem parseUsdc_loses_at_most_one_unit :
  forall n,
    0 <= n < 2 ^ 49 ->
    exists k,
      parseUsdc (decimal n 6) = Some k /\
      (k = n \/ k = n - 1) /\
      formatUsdc k = decimal k 6.
Proof.
  intros n [Hn0 Hn]. destruct n as [|p|p]; [|clear Hn0|lia].
  - exists 0. split; [reflexivity|]. split; [by left|reflexivity].
  - destruct (parseUsdc_decimal6 p Hn) as (k & Hk & Hrange).
    exists k. split; [done|]. split; [lia|].
    destruct k as [|q|q]; [reflexivity| |lia].
    apply formatUsdc_decimal. change (2 ^ 49) with 562949953421312 in Hn.
    change (2 ^ 53) with 9007199254740992. lia.
Qed.

Lemma parseUsdc_loses_at_most_one_unit_witness :
  exists k,
    parseUsdc (decimal 8200000 6) = Some k /\
    (k = 8200000 \/ k = 8200000 - 1) /\
    formatUsdc k = decimal k 6.
Proof.
  apply (parseUsdc_loses_at_most_one_unit 8200000). split; [lia|reflexivity].
Defined.

(** X25. For [0 <= u < 2^53] atomic units, [formatUsdc u] is exactly the double
    that the decimal literal [u / 10^6] denotes (the quotient is rounded
    once, to nearest). *)
Theorem formatUsdc_is_the_decimal_literal :
  forall u, 0 <= u < 2 ^ 53 -> formatUsdc u = decimal u 6.
Proof.
  intros u [Hu0 Hu]. destruct u as [|p|p]; [reflexivity| |lia].
  by apply formatUsdc_decimal.
Qed.

Lemma formatUsdc_is_the_decimal_literal_witness :
  formatUsdc 8199999 = decimal 8199999 6.
Proof.
  apply (formatUsdc_is_the_decimal_literal 8199999). split; [lia|reflexivity].
Defined.

(** X26. Showing a balance and parsing what is shown: for [0 <= u < 2^49]
    atomic units, [parseUsdc (formatUsdc u)] is [u] or [u - 1], never more
    than the balance. *)
Theorem parse_after_format_loses_at_most_one_unit :
  forall u,
    0 <= u < 2 ^ 49 ->
    parseUsdc (formatUsdc u) = Some u \/ parseUsdc (formatUsdc u) = Some (u - 1).
Proof.
  intros u [Hu0 Hu]. destruct u as [|p|p]; [by left| |lia].
  rewrite formatUsdc_decimal.
  - destruct (parseUsdc_decimal6 p Hu) as (k & -> & Hrange).
    destruct (Z.eq_dec k (Zpos p)) as [->|Hne]; [by left|right].
    f_equal. lia.
  - change (2 ^ 49) with 562949953421312 in Hu.
    change (2 ^ 53) with 9007199254740992. lia.
Qed.

Lemma parse_after_format_loses_at_most_one_unit_witness :
  parseUsdc (formatUsdc 8200000) = Some 8200000 \/
  parseUsdc (formatUsdc 8200000) = Some (8200000 - 1).
Proof.
  apply (parse_after_format_loses_at_most_one_unit 8200000). split; [lia|reflexivity].
Defined.

(** ** The amounts that reach the ledger *)

Lemma parseUsdc_decimal6_nonneg n :
  0 <= n < 2 ^ 49 ->
  exists k, parseUsdc (decimal n 6) = Some k /\ (k = n \/ k = n - 1).
Proof.
  intros [Hn0 Hn]. destruct n as [|p|p]; [|clear Hn0|lia].
  - exists 0. split; [reflexivity|by left].
  - destruct (parseUsdc_decimal6 p Hn) as (k & Hk & Hrange). exists k. split; [done|lia].
Qed.

(** X27. For an amount [n / 10^6] with [0 <= n < 2^49], a connected
    [createLoanOffer] or [repayLoan] submits a payload whose amount argument
    is the decimal string of [n] or of [n - 1]: the ledger is asked for the
    amount entered or for one atomic unit less, never for more. *)
Theorem hook_sends_the_amount_or_one_unit_less :
  forall env acc n log,
    let ctx := Hook.WalletContext (Some acc) true in
    0 <= n < 2 ^ 49 ->
    exists k,
      (k = n \/ k = n - 1) /\
      (forall rate duration ratio,
          let p := createEntryFunctionPayload "create_offer" [USDC_COIN]
                     [ArgString (bigint_toString k); ArgNumber rate; ArgNumber duration;
                      ArgNumber ratio] in
          Hook.createLoanOffer env ctx (decimal n 6) rate duration ratio log =
            submitTransaction env acc p (log ++ [EvPayloadBuilt p])) /\
      (forall loanId,
          let p := createEntryFunctionPayload "repay_loan" [USDC_COIN]
                     [ArgString loanId; ArgString (bigint_toString k)] in
          Hook.repayLoan env ctx loanId (decimal n 6) log =
            submitTransaction env acc p (log ++ [EvPayloadBuilt p])).
Proof.
  intros env acc n log ctx Hn.
  destruct (parseUsdc_decimal6_nonneg n Hn) as (k & Hk & Hrange).
  exists k. split; [done|].
  split; intros;
    unfold Hook.createLoanOffer, Hook.repayLoan, bind, ctx;
    rewrite ensureConnected_connected;
    unfold Hook.parseUsdc_or_throw; by rewrite Hk.
Qed.

Lemma hook_sends_the_amount_or_one_unit_less_witness :
  exists k,
    (k = 8200000 \/ k = 8200000 - 1) /\
    (forall rate duration ratio,
        let p := createEntryFunctionPayload "create_offer" [USDC_COIN]
                   [ArgString (bigint_toString k); ArgNumber rate; ArgNumber duration;
                    ArgNumber ratio] in
        Hook.createLoanOffer Demo.healthy (Hook.WalletContext (Some Demo.alice) true)
          (decimal 8200000 6) rate duration ratio [] =
          submitTransaction Demo.healthy Demo.alice p ([] ++ [EvPayloadBuilt p])) /\
    (forall loanId,
        let p := createEntryFunctionPayload "repay_loan" [USDC_COIN]
                   [ArgString loanId; ArgString (bigint_toString k)] in
        Hook.repayLoan Demo.healthy (Hook.WalletContext (Some Demo.alice) true) loanId
          (decimal 8200000 6) [] =
          submitTransaction Demo.healthy Demo.alice p ([] ++ [EvPayloadBuilt p])).
Proof.
  apply (hook_sends_the_amount_or_one_unit_less Demo.healthy Demo.alice 8200000 []).
  split; [lia|reflexivity].
Defined.

(** X28. The request form converts its amount fields the same way: when a field
    parses to [n / 10^6] with [0 <= n < 2^49], the number put into the
    borrow_request transaction is the integer [n] or [n - 1]. *)
Theorem borrow_request_carries_the_amount_or_one_unit_less :
  forall parseFloat MODULE_ADDRESS offer now later st n c,
    0 <= n < 2 ^ 49 ->
    0 <= c < 2 ^ 49 ->
    parseFloat (Borrower.amount st) = decimal n 6 ->
    parseFloat (Borrower.collateral st) = decimal c 6 ->
    exists x y,
      wt_arguments (Borrower.borrow_txn parseFloat MODULE_ADDRESS offer now later st) =
        [ArgString (Offers.lender offer); ArgNumber x; ArgNumber y;
         ArgString ("dummy_borrower_" +:+ pretty now);
         ArgString ("dummy_collateral_" +:+ pretty later)] /\
      (BigInt x = Some n \/ BigInt x = Some (n - 1)) /\
      (BigInt y = Some c \/ BigInt y = Some (c - 1)).
Proof.
  intros parseFloat MODULE_ADDRESS offer now later st n c Hn Hc Ha Hcoll.
  exists (Borrower.to_atomic parseFloat (Borrower.amount st)),
         (Borrower.to_atomic parseFloat (Borrower.collateral st)).
  split; [reflexivity|].
  unfold Borrower.to_atomic. rewrite Ha, Hcoll.
  destruct (parseUsdc_decimal6_nonneg n Hn) as (k & Hk & [->| ->]);
    destruct (parseUsdc_decimal6_nonneg c Hc) as (k' & Hk' & [->| ->]);
    unfold parseUsdc in Hk, Hk'; rewrite Hk, Hk'; split; (by left) || (by right).
Qed.

Lemma borrow_request_carries_the_amount_or_one_unit_less_witness :
  exists x y,
    wt_arguments (Borrower.borrow_txn Demo2.parseFloat "0xmod" (Demo2.offer_of_lender "0xaaaa")
                    1700000000000 1700000000001 Demo2.form) =
      [ArgString (Offers.lender (Demo2.offer_of_lender "0xaaaa")); ArgNumber x; ArgNumber y;
       ArgString ("dummy_borrower_" +:+ pretty 1700000000000);
       ArgString ("dummy_collateral_" +:+ pretty 1700000000001)] /\
    (BigInt x = Some 8200000 \/ BigInt x = Some (8200000 - 1)) /\
    (BigInt y = Some 20000000 \/ BigInt y = Some (20000000 - 1)).
Proof.
  apply (borrow_request_carries_the_amount_or_one_unit_less Demo2.parseFloat "0xmod"
           (Demo2.offer_of_lender "0xaaaa") 1700000000000 1700000000001 Demo2.form
           8200000 20000000).
  - split; [lia|reflexivity].
  - split; [lia|reflexivity].
  - vm_compute. reflexivity.
  - vm_compute. reflexivity.
Defined.
